(** * swfm ml-service: the preprocessing pipeline and the recursive predictor

    A shallow embedding of [app/services/preprocessing_service.py]
    ([PreprocessingService]) and of the forecast loop of
    [app/routers/predict.py] ([generate_forecasts_endpoint]).

    Modelling conventions.
    - A pandas [DataFrame] is a row count and an ordered list of named
      columns.  A column carries its dtype: [Num] is float64 (cells are
      [option Q], [None] standing for NaN), [Int] is int64 (no nulls),
      [Time] is datetime64 in seconds since the epoch ([None] is NaT) and
      [Obj] is object dtype.
    - The cells of a float column are exact rationals: the rounding of
      the statistics computed on water levels is outside the model.  The
      one float result that the code turns into an integer,
      [int(hours * periods_per_hour)], is computed on IEEE binary64
      numbers ([float64]) as the code does, with its rounding, its
      infinity for [60 / 0.0] and the exceptions of [int(...)].
    - [numpy]'s [sqrt], [sin], [cos] and [pi] are parameters of the model.
    - A Python exception is the [Err] case of [result].
    - The Supabase tables, the weather-merge service and the MLflow
      registry are inputs ([Env], [Registry]). *)

From Stdlib Require Import ZArith QArith Qround String Ascii List Lia.
From Stdlib Require Import DecimalString DecimalZ Sorted.
From Stdlib Require Floats.SpecFloat.
From stdpp Require Import base list strings gmap sorting.

Local Open Scope string_scope.
Local Open Scope list_scope.
Local Open Scope Z_scope.

(** ** Exceptions *)

Inductive error :=
| KeyError (key : string)
| ValueError (msg : string)
| TypeError (msg : string)
| AttributeError (msg : string)
| OverflowError
| HTTPException (status : Z) (detail : string).

Inductive result (A : Type) :=
| Ok (a : A)
| Err (e : error).
Arguments Ok {A} a.
Arguments Err {A} e.

Definition bind {A B} (m : result A) (k : A → result B) : result B :=
  match m with
  | Ok a => k a
  | Err e => Err e
  end.

Notation "'let*' x ':=' m 'in' k" := (bind m (fun x => k))
  (at level 10, x name, m at level 100, k at level 200).

Definition is_ok {A} (r : result A) : bool :=
  match r with Ok _ => true | Err _ => false end.

(** [for x in xs: st = body(st, x)] with exceptions. *)
Fixpoint foldM {S X} (body : S → X → result S) (st : S) (xs : list X) : result S :=
  match xs with
  | [] => Ok st
  | x :: xs' => let* st' := body st x in foldM body st' xs'
  end.

(** ** JSON-like configuration values *)

#[local] Unset Elimination Schemes.
Inductive json :=
| JNull
| JBool (b : bool)
| JInt (n : Z)
| JStr (s : string)
| JList (l : list json)
| JDict (d : list (string * json)).
#[local] Set Elimination Schemes.

Fixpoint assoc {V} (k : string) (d : list (string * V)) : option V :=
  match d with
  | [] => None
  | (k', v) :: d' => if String.eqb k k' then Some v else assoc k d'
  end.

(** [config.get(key, default)]; a non-dict has no [.get]. *)
Definition dict_get (cfg : json) (key : string) (dflt : json) : result json :=
  match cfg with
  | JDict d => Ok (default dflt (assoc key d))
  | _ => Err (AttributeError "get")
  end.

(** Python truthiness. *)
Definition truthy (j : json) : bool :=
  match j with
  | JNull => false
  | JBool b => b
  | JInt n => negb (n =? 0)
  | JStr s => negb (String.eqb s "")
  | JList l => match l with [] => false | _ => true end
  | JDict d => match d with [] => false | _ => true end
  end.

(** Iterating a list of integers ([for lag in lag_periods]). *)
Definition as_int (j : json) : result Z :=
  match j with
  | JInt n => Ok n
  | JBool b => Ok (if b then 1 else 0)
  | _ => Err (TypeError "number expected")
  end.

Fixpoint mapM {X Y} (f : X → result Y) (xs : list X) : result (list Y) :=
  match xs with
  | [] => Ok []
  | x :: xs' => let* y := f x in let* ys := mapM f xs' in Ok (y :: ys)
  end.

Definition as_int_list (j : json) : result (list Z) :=
  match j with
  | JList l => mapM as_int l
  | _ => Err (TypeError "not iterable")
  end.

Definition ints (l : list Z) : json := JList (map JInt l).

(** ** Data frames *)

Inductive column :=
| Num (v : list (option Q))
| Int (v : list Z)
| Time (v : list (option Z))
| Obj (v : list (option string)).

Record DataFrame := mkDF { nrows : nat; columns : list (string * column) }.

Definition col_len (c : column) : nat :=
  match c with
  | Num v => length v
  | Int v => length v
  | Time v => length v
  | Obj v => length v
  end.

Definition df_wf (df : DataFrame) : Prop :=
  Forall (λ nc, col_len nc.2 = nrows df) (columns df).

(** [name in df.columns] *)
Definition df_has (name : string) (df : DataFrame) : bool :=
  match assoc name (columns df) with Some _ => true | None => false end.

(** [df[name]] *)
Definition df_col (name : string) (df : DataFrame) : result column :=
  match assoc name (columns df) with
  | Some c => Ok c
  | None => Err (KeyError name)
  end.

Fixpoint assoc_set {V} (k : string) (v : V) (d : list (string * V)) : list (string * V) :=
  match d with
  | [] => [(k, v)]
  | (k', v') :: d' => if String.eqb k k' then (k, v) :: d' else (k', v') :: assoc_set k v d'
  end.

(** [df[name] = column]: replaces in place or appends as last column. *)
Definition df_set (name : string) (c : column) (df : DataFrame) : DataFrame :=
  mkDF (nrows df) (assoc_set name c (columns df)).

(** A float view of a numeric column. *)
Definition as_float (c : column) : result (list (option Q)) :=
  match c with
  | Num v => Ok v
  | Int v => Ok (map (λ z, Some (inject_Z z)) v)
  | _ => Err (TypeError "numeric column expected")
  end.

Definition df_float (name : string) (df : DataFrame) : result (list (option Q)) :=
  let* c := df_col name df in as_float c.

Definition df_time (name : string) (df : DataFrame) : result (list (option Z)) :=
  let* c := df_col name df in
  match c with
  | Time v => Ok v
  | _ => Err (AttributeError "dt")
  end.

(** *** Boolean-mask row selection and assignment *)

Fixpoint sel {A} (mask : list bool) (l : list A) : list A :=
  match mask, l with
  | b :: m, x :: l' => if b then x :: sel m l' else sel m l'
  | _, _ => []
  end.

(** [old[mask] = vals], positionally. *)
Fixpoint scatter {A} (mask : list bool) (vals old : list A) : list A :=
  match mask, old with
  | b :: m, o :: old' =>
      if b then
        match vals with
        | v :: vs => v :: scatter m vs old'
        | [] => o :: scatter m [] old'
        end
      else o :: scatter m vals old'
  | _, _ => old
  end.

Definition col_sel (mask : list bool) (c : column) : column :=
  match c with
  | Num v => Num (sel mask v)
  | Int v => Int (sel mask v)
  | Time v => Time (sel mask v)
  | Obj v => Obj (sel mask v)
  end.

Definition count_true (mask : list bool) : nat := length (filter (λ b, b = true) mask).

(** [df[mask]] *)
Definition df_filter (mask : list bool) (df : DataFrame) : DataFrame :=
  mkDF (count_true (take (nrows df) mask))
       (map (λ nc, (nc.1, col_sel mask nc.2)) (columns df)).

(** [df.loc[mask, name] = vals] on an existing float column. *)
Definition df_loc_set (mask : list bool) (name : string) (vals : list (option Q))
    (df : DataFrame) : result DataFrame :=
  let* old := df_float name df in
  Ok (df_set name (Num (scatter mask vals old)) df).

(** *** shift and diff *)

(** [Series.shift(n)]: positive [n] moves values towards later rows. *)
Definition shift {A} (n : Z) (l : list (option A)) : list (option A) :=
  if 0 <=? n then take (length l) (replicate (Z.to_nat n) None ++ l)
  else drop (Z.to_nat (- n)) l ++ replicate (Nat.min (Z.to_nat (- n)) (length l)) None.

(** The cell of row [i]; NaN outside the series. *)
Definition cell_at {A} (l : list (option A)) (i : Z) : option A :=
  if i <? 0 then None else default None (l !! Z.to_nat i).

Definition lift2 {A B C} (f : A → B → C) (x : option A) (y : option B) : option C :=
  match x, y with
  | Some a, Some b => Some (f a b)
  | _, _ => None
  end.

(** [Series.diff(n)] = [s - s.shift(n)] *)
Definition diff (n : Z) (l : list (option Q)) : list (option Q) :=
  zip_with (lift2 Qminus) l (shift n l).

Definition diff_time (l : list (option Z)) : list (option Z) :=
  zip_with (lift2 Z.sub) l (shift 1 l).

(** *** Sorting rows *)

Fixpoint insert_by {A} (le : A → A → bool) (x : A) (l : list A) : list A :=
  match l with
  | [] => [x]
  | y :: l' => if le x y then x :: y :: l' else y :: insert_by le x l'
  end.

(** The order of the sorted rows.  pandas sorts with numpy's quicksort,
    which is not stable: rows of equal key come back in an order that the
    code does not fix.  The model keeps them in input order; what is
    proved about the position of a row assumes distinct keys, where every
    sort gives the same order ([sort_values_order_unique]). *)
Definition sort_by {A} (le : A → A → bool) (l : list A) : list A :=
  foldr (insert_by le) [] l.

(** Order of sort keys, nulls last. *)
Definition key_le {A} (le : A → A → bool) (a b : option A) : bool :=
  match a, b with
  | Some x, Some y => le x y
  | Some _, None => true
  | None, Some _ => false
  | None, None => true
  end.

Definition argsort {A} (le : A → A → bool) (keys : list A) : list nat :=
  map fst (sort_by (λ a b, le a.2 b.2) (zip (seq 0 (length keys)) keys)).

Definition col_argsort (c : column) : list nat :=
  match c with
  | Num v => argsort (key_le Qle_bool) v
  | Int v => argsort Z.leb v
  | Time v => argsort (key_le Z.leb) v
  | Obj v => argsort (key_le String.leb) v
  end.

Definition take_idx {A} (idx : list nat) (l : list A) : list A :=
  omap (λ i, l !! i) idx.

Definition col_take (idx : list nat) (c : column) : column :=
  match c with
  | Num v => Num (take_idx idx v)
  | Int v => Int (take_idx idx v)
  | Time v => Time (take_idx idx v)
  | Obj v => Obj (take_idx idx v)
  end.

(** [df.sort_values(name)] *)
Definition sort_values (name : string) (df : DataFrame) : result DataFrame :=
  let* key := df_col name df in
  let idx := col_argsort key in
  Ok (mkDF (nrows df) (map (λ nc, (nc.1, col_take idx nc.2)) (columns df))).

(** ** 4.1 Interval estimator

    The source repeats this block in the lag, rolling and rate-of-change
    transforms:
<<
    time_diffs = station_df['measured_at'].diff().dt.total_seconds() / 60
    mode_interval = time_diffs.mode().values[0] if len(time_diffs.mode()) > 0 else 30
    periods_per_hour = 60 / mode_interval
>> *)

Definition dropna {A} (l : list (option A)) : list A := omap id l.

Definition time_diffs (ts : list (option Z)) : list (option Q) :=
  map (option_map (λ s, Qred (inject_Z s / 60))) (diff_time ts).

Definition q_count (x : Q) (l : list Q) : nat :=
  length (filter (λ y, Qeq_bool x y = true) l).

Definition max_count (l : list Q) : nat :=
  foldr (λ x m, Nat.max (q_count x l) m) 0%nat l.

Fixpoint q_dedup (l : list Q) : list Q :=
  match l with
  | [] => []
  | x :: l' => x :: filter (λ y, Qeq_bool x y = false) (q_dedup l')
  end.

(** [Series.mode()]: the most frequent non-null values, ascending. *)
Definition series_mode (s : list (option Q)) : list Q :=
  let xs := dropna s in
  sort_by Qle_bool (q_dedup (filter (λ x, q_count x xs = max_count xs) xs)).

Definition mode_interval (diffs : list (option Q)) : Q :=
  match series_mode diffs with
  | m :: _ => m
  | [] => 30
  end.

(** [60 / mode_interval]; numpy gives an infinity for a zero interval. *)
Inductive pph :=
| Finite (q : Q)
| Infinite.

Definition periods_per_hour (mode_interval : Q) : pph :=
  if Qeq_bool mode_interval 0 then Infinite else Finite (Qred (60 / mode_interval)).

Definition detect_periods_per_hour (sorted_df : DataFrame) : result pph :=
  let* ts := df_time "measured_at" sorted_df in
  Ok (periods_per_hour (mode_interval (time_diffs ts))).

(** *** IEEE binary64

    [numpy.float64] and Python's [float]: 53 bits of precision, round to
    nearest even. *)
Definition float64 : Type := SpecFloat.spec_float.

Definition f64_of_Z (z : Z) : float64 := SpecFloat.binary_normalize 53 1024 z 0 false.
Definition f64_mul : float64 → float64 → float64 := SpecFloat.SFmul 53 1024.
Definition f64_div : float64 → float64 → float64 := SpecFloat.SFdiv 53 1024.

(** The double nearest to a rational, as the quotient of two integers. *)
Definition f64_of_Q (q : Q) : float64 :=
  f64_div (f64_of_Z (Qnum q)) (f64_of_Z (Z.pos (Qden q))).

(** Python's [int(x)] on a float: truncation towards zero; NaN and the
    infinities raise. *)
Definition f64_to_int (x : float64) : result Z :=
  match x with
  | SpecFloat.S754_zero _ => Ok 0
  | SpecFloat.S754_finite sign m e =>
      let magnitude := if 0 <=? e then Z.pos m * 2 ^ e else Z.pos m / 2 ^ (- e) in
      Ok (if sign then - magnitude else magnitude)
  | SpecFloat.S754_infinity _ => Err OverflowError
  | SpecFloat.S754_nan => Err (ValueError "cannot convert float NaN to integer")
  end.

(** [periods_per_hour] as the double the code holds.  [mode_interval] is
    the double of [seconds / 60] (the timestamps are whole seconds, so the
    seconds of a gap are exact), here recovered from the exact quotient,
    and [60 / mode_interval] is rounded once more. *)
Definition pph_float (p : pph) : float64 :=
  match p with
  | Finite q => f64_div (f64_of_Z 60) (f64_of_Q (Qred (60 / q)))
  | Infinite => SpecFloat.S754_infinity false
  end.

(** [int(hours * periods_per_hour)] *)
Definition to_periods (hours : Z) (p : pph) : result Z :=
  f64_to_int (f64_mul (f64_of_Z hours) (pph_float p)).

(** ** Column names *)

Definition dec (z : Z) : string := NilZero.string_of_int (Z.to_int z).

Definition lag_name (lag : Z) : string := "water_level_lag_" +:+ dec lag +:+ "h".
Definition rolling_mean_name (w : Z) : string := "water_level_rolling_mean_" +:+ dec w +:+ "h".
Definition rolling_std_name (w : Z) : string := "water_level_rolling_std_" +:+ dec w +:+ "h".
Definition change_name (p : Z) : string := "water_level_change_" +:+ dec p +:+ "h".
Definition rainfall_sum_name (w : Z) : string := "rainfall_sum_" +:+ dec w +:+ "h".
Definition target_name (h : Z) : string := "target_" +:+ dec h +:+ "min".

(** ** Station groups *)

Fixpoint unique (l : list Z) : list Z :=
  match l with
  | [] => []
  | x :: l' => x :: filter (λ y, y ≠ x) (unique l')
  end.

(** The [station_id] column; the model covers integer identifiers. *)
Definition station_ids (df : DataFrame) : result (list Z) :=
  let* c := df_col "station_id" df in
  match c with
  | Int v => Ok v
  | _ => Err (TypeError "station_id: int64 expected")
  end.

(** [df['station_id'] == station_id] *)
Definition station_mask (sid : Z) (ids : list Z) : list bool := map (Z.eqb sid) ids.

(** ['station_id' in df.columns and df['station_id'].nunique() > 1] *)
Definition has_multiple_stations (df : DataFrame) : result bool :=
  if df_has "station_id" df then
    let* ids := station_ids df in Ok (1 <? length (unique ids))%nat
  else Ok false.

(** [if name not in df.columns: df[name] = np.nan] *)
Definition ensure_col (name : string) (df : DataFrame) : DataFrame :=
  if df_has name df then df else df_set name (Num (replicate (nrows df) None)) df.

(** ** 4.2 Feature transforms *)

(** *** Lag features *)

Definition default_lag_periods : json := ints [1; 2; 3; 6; 12].

Definition lag_step (lp : pph) (mask : list bool) (station_df : DataFrame)
    (df : DataFrame) (lag : Z) : result DataFrame :=
  let* k := to_periods lag lp in
  let name := lag_name lag in
  let df := ensure_col name df in
  let* wl := df_float "water_level" station_df in
  df_loc_set mask name (shift k wl) df.

Definition lag_station (lag_periods : json) (df : DataFrame) (sid : Z) : result DataFrame :=
  let* ids := station_ids df in
  let mask := station_mask sid ids in
  let* station_df := sort_values "measured_at" (df_filter mask df) in
  if (1 <? nrows station_df)%nat then
    let* p := detect_periods_per_hour station_df in
    let* lags := as_int_list lag_periods in
    foldM (lag_step p mask station_df) df lags
  else Ok df.

Definition lag_single_step (p : pph) (df : DataFrame) (lag : Z) : result DataFrame :=
  let* k := to_periods lag p in
  let* wl := df_float "water_level" df in
  Ok (df_set (lag_name lag) (Num (shift k wl)) df).

Definition apply_lag_features (df : DataFrame) (config : json) : result DataFrame :=
  let* lag_periods := dict_get config "lag_periods" default_lag_periods in
  let* multi := has_multiple_stations df in
  if multi then
    let* ids := station_ids df in
    foldM (lag_station lag_periods) df (unique ids)
  else if (1 <? nrows df)%nat then
    let* sorted := sort_values "measured_at" df in
    let* p := detect_periods_per_hour sorted in
    let* lags := as_int_list lag_periods in
    foldM (lag_single_step p) df lags
  else Ok df.

(** *** Rolling windows *)

(** Rows [max(0, i - w + 1) .. i]. *)
Definition window_at {A} (w i : nat) (l : list A) : list A :=
  drop (S i - w) (take (S i) l).

Definition q_sum (l : list Q) : Q := foldr Qplus 0%Q l.

Definition q_len (l : list Q) : Q := inject_Z (Z.of_nat (length l)).

Definition q_mean (xs : list Q) : Q := Qred (q_sum xs / q_len xs).

(** Sample variance ([ddof = 1]). *)
Definition q_var (xs : list Q) : Q :=
  let m := q_mean xs in
  Qred (q_sum (map (λ x, (x - m) * (x - m))%Q xs) / (q_len xs - 1)).

(** pandas [roll_mean]: NaN unless [nobs >= minp] and [nobs > 0]. *)
Definition roll_mean (minp : nat) (win : list (option Q)) : option Q :=
  let xs := dropna win in
  if (minp <=? length xs)%nat && (0 <? length xs)%nat then Some (q_mean xs) else None.

(** pandas [roll_sum]. *)
Definition roll_sum (minp : nat) (win : list (option Q)) : option Q :=
  let xs := dropna win in
  if (minp <=? length xs)%nat then Some (Qred (q_sum xs)) else None.

(** [Series.mean()] and [Series.std()], nulls skipped. *)
Definition col_mean (l : list (option Q)) : option Q :=
  match dropna l with
  | [] => None
  | xs => Some (q_mean xs)
  end.

(** [Series.median()], nulls skipped. *)
Definition col_median (l : list (option Q)) : option Q :=
  let xs := sort_by Qle_bool (dropna l) in
  let n := length xs in
  if (n =? 0)%nat then None
  else if Nat.odd n then xs !! (n / 2)%nat
  else lift2 (λ a b, Qred ((a + b) / 2)) (xs !! (n / 2 - 1)%nat) (xs !! (n / 2)%nat).

(** [Series.fillna(value)]; filling with NaN changes nothing. *)
Definition fillna (value : option Q) (l : list (option Q)) : list (option Q) :=
  match value with
  | Some x => map (λ c, match c with None => Some x | Some _ => c end) l
  | None => l
  end.

(** [Series.rolling(window, min_periods).agg()], with the argument checks
    of pandas' [BaseWindow._validate]. *)
Definition rolling (window : Z) (min_periods : json)
    (agg : nat → list (option Q) → option Q) (l : list (option Q))
    : result (list (option Q)) :=
  let* minp :=
    match min_periods with
    | JNull => Ok window
    | JInt m =>
        if m <? 0 then Err (ValueError "min_periods must be >= 0")
        else if window <? m then Err (ValueError "min_periods must be <= window")
        else Ok m
    | _ => Err (ValueError "min_periods must be an integer")
    end in
  if window <? 0 then Err (ValueError "window must be an integer 0 or greater")
  else Ok (map (λ i, agg (Z.to_nat minp) (window_at (Z.to_nat window) i l))
               (seq 0 (length l))).

(** [groupby('station_id')[col].transform(f)]: [f] on each station's rows,
    results put back at the rows they came from. *)
Definition group_transform (ids : list Z)
    (f : list (option Q) → result (list (option Q))) (col : list (option Q))
    : result (list (option Q)) :=
  foldM (λ acc sid,
           let mask := station_mask sid ids in
           let* vals := f (sel mask col) in
           Ok (scatter mask vals acc))
        (replicate (length col) None) (unique ids).

(** *** Strings *)

Fixpoint is_substring (needle s : string) : bool :=
  String.prefix needle s ||
  match s with
  | EmptyString => false
  | String _ s' => is_substring needle s'
  end.

Definition json_eq_str (s : string) (j : json) : bool :=
  match j with
  | JStr t => String.eqb s t
  | _ => false
  end.

(** [s in container] *)
Definition py_in (s : string) (container : json) : result bool :=
  match container with
  | JList l => Ok (existsb (json_eq_str s) l)
  | JStr t => Ok (is_substring s t)
  | JDict d => Ok (existsb (λ kv, String.eqb s kv.1) d)
  | _ => Err (TypeError "argument is not iterable")
  end.

(** [container[key] = value] *)
Definition dict_set_item (container : json) (key : string) (value : json) : result json :=
  match container with
  | JDict d => Ok (JDict (assoc_set key value d))
  | _ => Err (TypeError "item assignment")
  end.

(** *** numpy *)

Class Numpy := {
  np_sqrt : Q → Q;
  np_sin : Q → Q;
  np_cos : Q → Q;
  np_pi : Q
}.

(** pandas [roll_var] followed by the square root. *)
Definition roll_std `{Numpy} (minp : nat) (win : list (option Q)) : option Q :=
  let xs := dropna win in
  if (Nat.max minp 1 <=? length xs)%nat && (1 <? length xs)%nat
  then Some (np_sqrt (q_var xs)) else None.

Definition col_std `{Numpy} (l : list (option Q)) : option Q :=
  let xs := dropna l in
  if (1 <? length xs)%nat then Some (np_sqrt (q_var xs)) else None.

(** *** Rolling statistics *)

Definition default_windows : json := ints [3; 6; 12; 24].

(** One [df.loc[station_mask, name] = station_df['water_level'].rolling(...)]. *)
Definition rolling_assign (agg : nat → list (option Q) → option Q)
    (window_periods : Z) (min_periods : json) (mask : list bool)
    (station_df : DataFrame) (name : string) (df : DataFrame) : result DataFrame :=
  let df := ensure_col name df in
  let* wl := df_float "water_level" station_df in
  let* vals := rolling window_periods min_periods agg wl in
  df_loc_set mask name vals df.

Definition rolling_step `{Numpy} (p : pph) (statistics min_periods : json)
    (mask : list bool) (station_df : DataFrame)
    (df : DataFrame) (window : Z) : result DataFrame :=
  let* window_periods := to_periods window p in
  let* want_mean := py_in "mean" statistics in
  let* df :=
    if want_mean then
      rolling_assign roll_mean window_periods min_periods mask station_df
                     (rolling_mean_name window) df
    else Ok df in
  let* want_std := py_in "std" statistics in
  if want_std then
    rolling_assign roll_std window_periods min_periods mask station_df
                   (rolling_std_name window) df
  else Ok df.

Definition rolling_station `{Numpy} (windows statistics min_periods : json)
    (df : DataFrame) (sid : Z) : result DataFrame :=
  let* ids := station_ids df in
  let mask := station_mask sid ids in
  let* station_df := sort_values "measured_at" (df_filter mask df) in
  if (1 <? nrows station_df)%nat then
    let* p := detect_periods_per_hour station_df in
    let* ws := as_int_list windows in
    foldM (rolling_step p statistics min_periods mask station_df) df ws
  else Ok df.

Definition rolling_single_assign (agg : nat → list (option Q) → option Q)
    (window_periods : Z) (min_periods : json) (name : string) (df : DataFrame)
    : result DataFrame :=
  let* wl := df_float "water_level" df in
  let* vals := rolling window_periods min_periods agg wl in
  Ok (df_set name (Num vals) df).

Definition rolling_single_step `{Numpy} (p : pph) (statistics min_periods : json)
    (df : DataFrame) (window : Z) : result DataFrame :=
  let* window_periods := to_periods window p in
  let* want_mean := py_in "mean" statistics in
  let* df :=
    if want_mean then
      rolling_single_assign roll_mean window_periods min_periods
                            (rolling_mean_name window) df
    else Ok df in
  let* want_std := py_in "std" statistics in
  if want_std then
    rolling_single_assign roll_std window_periods min_periods
                          (rolling_std_name window) df
  else Ok df.

Definition apply_rolling_statistics `{Numpy} (df : DataFrame) (config : json)
    : result DataFrame :=
  let* windows := dict_get config "windows" default_windows in
  let* statistics := dict_get config "statistics" (JList [JStr "mean"; JStr "std"]) in
  let* min_periods := dict_get config "min_periods" (JInt 1) in
  let* multi := has_multiple_stations df in
  if multi then
    let* ids := station_ids df in
    foldM (rolling_station windows statistics min_periods) df (unique ids)
  else if (1 <? nrows df)%nat then
    let* sorted := sort_values "measured_at" df in
    let* p := detect_periods_per_hour sorted in
    let* ws := as_int_list windows in
    foldM (rolling_single_step p statistics min_periods) df ws
  else Ok df.

(** *** Rate of change *)

Definition change_step (p : pph) (mask : list bool) (station_df : DataFrame)
    (df : DataFrame) (period : Z) : result DataFrame :=
  let* k := to_periods period p in
  let name := change_name period in
  let df := ensure_col name df in
  let* wl := df_float "water_level" station_df in
  df_loc_set mask name (diff k wl) df.

Definition change_station (periods : json) (df : DataFrame) (sid : Z) : result DataFrame :=
  let* ids := station_ids df in
  let mask := station_mask sid ids in
  let* station_df := sort_values "measured_at" (df_filter mask df) in
  if (1 <? nrows station_df)%nat then
    let* p := detect_periods_per_hour station_df in
    let* ps := as_int_list periods in
    foldM (change_step p mask station_df) df ps
  else Ok df.

Definition change_single_step (p : pph) (df : DataFrame) (period : Z) : result DataFrame :=
  let* k := to_periods period p in
  let* wl := df_float "water_level" df in
  Ok (df_set (change_name period) (Num (diff k wl)) df).

Definition apply_rate_of_change (df : DataFrame) (config : json) : result DataFrame :=
  let* periods := dict_get config "periods" (ints [1; 3; 6]) in
  let* multi := has_multiple_stations df in
  if multi then
    let* ids := station_ids df in
    foldM (change_station periods) df (unique ids)
  else if (1 <? nrows df)%nat then
    let* sorted := sort_values "measured_at" df in
    let* p := detect_periods_per_hour sorted in
    let* ps := as_int_list periods in
    foldM (change_single_step p) df ps
  else Ok df.

(** *** Time features *)

(** Calendar fields of a UTC timestamp (seconds since 1970-01-01). *)
Definition dt_hour (t : Z) : Z := (t mod 86400) / 3600.

(** Monday is 0; 1970-01-01 was a Thursday. *)
Definition dt_dayofweek (t : Z) : Z := (t / 86400 + 3) mod 7.

(** Day of year counted from 1 March, and the month index from March. *)
Definition civil_doy (t : Z) : Z :=
  let z := t / 86400 + 719468 in
  let doe := z mod 146097 in
  let yoe := (doe - doe / 1460 + doe / 36524 - doe / 146096) / 365 in
  doe - (365 * yoe + yoe / 4 - yoe / 100).

Definition dt_day (t : Z) : Z :=
  let doy := civil_doy t in
  let mp := (5 * doy + 2) / 153 in
  doy - (153 * mp + 2) / 5 + 1.

Definition dt_month (t : Z) : Z :=
  let mp := (5 * civil_doy t + 2) / 153 in
  if mp <? 10 then mp + 3 else mp - 9.

(** A [.dt] accessor: int64 when no timestamp is missing, float64 with
    NaN otherwise. *)
Definition dt_field (f : Z → Z) (ts : list (option Z)) : column :=
  if forallb (λ t, match t with Some _ => true | None => false end) ts
  then Int (omap (option_map f) ts)
  else Num (map (option_map (λ t, inject_Z (f t))) ts).

(** [np.f(2 * np.pi * x / cycle)]; a zero cycle gives NaN. *)
Definition cyclical `{Numpy} (f : Q → Q) (cycle : Z) (x : option Q) : option Q :=
  if cycle =? 0 then None
  else option_map (λ v, f (2 * np_pi * v / inject_Z cycle)%Q) x.

Definition apply_time_features `{Numpy} (df : DataFrame) (config : json) : result DataFrame :=
  let* ts := df_time "measured_at" df in
  let df := df_set "hour" (dt_field dt_hour ts) df in
  let* ts := df_time "measured_at" df in
  let df := df_set "day_of_week" (dt_field dt_dayofweek ts) df in
  let* ts := df_time "measured_at" df in
  let df := df_set "day_of_month" (dt_field dt_day ts) df in
  let* ts := df_time "measured_at" df in
  let df := df_set "month" (dt_field dt_month ts) df in
  let* dow := df_float "day_of_week" df in
  let weekend :=
    map (λ d, match d with
              | Some q => if Qle_bool 5 q then 1 else 0
              | None => 0
              end) dow in
  let df := df_set "is_weekend" (Int weekend) df in
  let* hc := dict_get config "hour_cycle" (JInt 24) in
  let* mc := dict_get config "month_cycle" (JInt 12) in
  let* hour := df_float "hour" df in
  let* hour_cycle := as_int hc in
  let df := df_set "hour_sin" (Num (map (cyclical np_sin hour_cycle) hour)) df in
  let* hour := df_float "hour" df in
  let df := df_set "hour_cos" (Num (map (cyclical np_cos hour_cycle) hour)) df in
  let* month := df_float "month" df in
  let* month_cycle := as_int mc in
  let month0 := map (option_map (λ m, m - 1)%Q) month in
  let df := df_set "month_sin" (Num (map (cyclical np_sin month_cycle) month0)) df in
  let* month := df_float "month" df in
  let month0 := map (option_map (λ m, m - 1)%Q) month in
  Ok (df_set "month_cos" (Num (map (cyclical np_cos month_cycle) month0)) df).

(** *** Rainfall features *)

Definition rainfall_step (multi : bool) (df : DataFrame) (window : Z) : result DataFrame :=
  let* rain := df_float "rainfall_1h" df in
  let* vals :=
    if multi then
      let* ids := station_ids df in
      group_transform ids (rolling window (JInt 1) roll_sum) rain
    else rolling window (JInt 1) roll_sum rain in
  Ok (df_set (rainfall_sum_name window) (Num vals) df).

Definition apply_rainfall_features (df : DataFrame) (config : json) : result DataFrame :=
  if negb (df_has "rainfall_1h" df) then Ok df
  else
    let* windows := dict_get config "windows" default_windows in
    let* multi := has_multiple_stations df in
    let* ws := as_int_list windows in
    foldM (rainfall_step multi) df ws.

(** *** Weather interactions *)

Definition apply_weather_interactions (df : DataFrame) (config : json) : result DataFrame :=
  let* df :=
    if df_has "temperature" df && df_has "humidity" df then
      let* t := df_float "temperature" df in
      let* h := df_float "humidity" df in
      Ok (df_set "temp_humidity_interaction"
                 (Num (zip_with (lift2 (λ a b, Qred (a * b / 100))) t h)) df)
    else Ok df in
  if df_has "pressure" df then
    let* multi := has_multiple_stations df in
    let* vals :=
      if multi then
        let* ids := station_ids df in
        let* p := df_float "pressure" df in
        group_transform ids (λ l, Ok (diff 3 l)) p
      else
        let* p := df_float "pressure" df in Ok (diff 3 p) in
    Ok (df_set "pressure_diff_3h" (Num vals) df)
  else Ok df.

(** *** Station statistics *)

Definition broadcast (v : option Q) (l : list (option Q)) : list (option Q) :=
  replicate (length l) v.

Definition apply_station_statistics `{Numpy} (df : DataFrame) (config : json)
    : result DataFrame :=
  let* multi := has_multiple_stations df in
  if multi then
    let* ids := station_ids df in
    let* wl := df_float "water_level" df in
    let* means := group_transform ids (λ l, Ok (broadcast (col_mean l) l)) wl in
    let df := df_set "station_water_mean" (Num means) df in
    let* ids := station_ids df in
    let* wl := df_float "water_level" df in
    let* stds := group_transform ids (λ l, Ok (broadcast (col_std l) l)) wl in
    let df := df_set "station_water_std" (Num stds) df in
    let* wl := df_float "water_level" df in
    let* means := df_float "station_water_mean" df in
    Ok (df_set "water_level_deviation" (Num (zip_with (lift2 Qminus) wl means)) df)
  else
    let* wl := df_float "water_level" df in
    let station_mean := col_mean wl in
    let* wl := df_float "water_level" df in
    let station_std := col_std wl in
    let df := df_set "station_water_mean" (Num (replicate (nrows df) station_mean)) df in
    let df := df_set "station_water_std" (Num (replicate (nrows df) station_std)) df in
    let* wl := df_float "water_level" df in
    Ok (df_set "water_level_deviation"
               (Num (map (λ x, lift2 Qminus x station_mean) wl)) df).

(** ** 4.3 Target constructor *)

Definition data_interval_minutes : Z := 15.

Definition target_step (multi : bool) (df : DataFrame) (horizon : Z) : result DataFrame :=
  let shift_periods := horizon / data_interval_minutes in
  let* vals :=
    if multi then
      let* ids := station_ids df in
      let* wl := df_float "water_level" df in
      group_transform ids (λ l, Ok (shift (- shift_periods) l)) wl
    else
      let* wl := df_float "water_level" df in
      Ok (shift (- shift_periods) wl) in
  Ok (df_set (target_name horizon) (Num vals) df).

Definition create_targets (df : DataFrame) (config : json) : result DataFrame :=
  let* hz := dict_get config "prediction_horizons" (ints [15; 30; 45; 60; 90]) in
  let* multi := has_multiple_stations df in
  let* horizons := as_int_list hz in
  foldM (target_step multi) df horizons.

(** ** 4.4 Data cleaner *)

Definition col_notnull (c : column) : list bool :=
  match c with
  | Num v => map (λ x, match x with Some _ => true | None => false end) v
  | Int v => map (λ _, true) v
  | Time v => map (λ x, match x with Some _ => true | None => false end) v
  | Obj v => map (λ x, match x with Some _ => true | None => false end) v
  end.

(** Rows kept by [df.dropna(subset=cols)]. *)
Definition complete_rows (n : nat) (cols : list column) : list bool :=
  foldr (λ c acc, zip_with andb (col_notnull c) acc) (replicate n true) cols.

(** [select_dtypes(include=[np.number])] *)
Definition is_numeric (c : column) : bool :=
  match c with
  | Num _ | Int _ => true
  | _ => false
  end.

Definition clean_exclude_cols : list string :=
  ["measured_at"; "created_at"; "id"; "station_id"].

Definition str_in (s : string) (l : list string) : bool := existsb (String.eqb s) l.

(** [if df[col].isnull().any(): df[col] = df[col].fillna(stat(df[col]))] *)
Definition impute (stat : list (option Q) → option Q) (df : DataFrame) (col : string)
    : result DataFrame :=
  let* c := df_col col df in
  match c with
  | Num v =>
      if existsb (λ x, match x with None => true | Some _ => false end) v
      then Ok (df_set col (Num (fillna (stat v) v)) df)
      else Ok df
  | _ => Ok df
  end.

Definition clean_data (df : DataFrame) (config : json) : result DataFrame :=
  let* remove := dict_get config "remove_rows_with_missing_lags" (JBool true) in
  let df :=
    if truthy remove then
      let lag_cols := filter (λ nc, is_substring "lag_" nc.1 = true) (columns df) in
      match lag_cols with
      | [] => df
      | _ => df_filter (complete_rows (nrows df) (map snd lag_cols)) df
      end
    else df in
  let* strategy := dict_get config "missing_value_strategy" (JStr "median") in
  let numeric_cols :=
    filter (λ n, str_in n clean_exclude_cols = false)
           (map fst (filter (λ nc, is_numeric nc.2 = true) (columns df))) in
  if json_eq_str "median" strategy then foldM (impute col_median) df numeric_cols
  else if json_eq_str "mean" strategy then foldM (impute col_mean) df numeric_cols
  else Ok df.

(** ** External collaborators *)

(** A row of the [preprocessing_configs] table. *)
Record PreprocessingConfig := {
  method_id : string;
  enabled : bool;
  config : json
}.

(** A date bound of a query: [YYYY-MM-DD] (given by its midnight) or a
    full ISO timestamp (the string contains a [T]). *)
Inductive date_bound :=
| DateOnly (midnight : Z)
| DateTime (t : Z).

Record Env := {
  preprocessing_configs : list PreprocessingConfig;
  (** the [station_measurements] table, [measured_at] already parsed *)
  station_measurements : DataFrame;
  (** [DataMergeService.merge_station_with_weather(start, end, 2)] *)
  merge_station_with_weather : option date_bound → option date_bound → result DataFrame;
  (** the [stations] table: identifier and name *)
  stations : list (Z * string);
  (** [datetime.utcnow()] *)
  utcnow : Z
}.

(** [get_preprocessing_configs]: the enabled rows, keyed by method. *)
Definition get_preprocessing_configs (env : Env) : gmap string json :=
  foldl (λ (configs : gmap string json) row, <[method_id row := config row]> configs) ∅
        (filter (λ row, enabled row = true) (preprocessing_configs env)).

(** ** Fetching station data *)

Definition excluded_stations : list Z := [1; 7].

Definition isin (x : Z) (l : list Z) : bool := existsb (Z.eqb x) l.

Definition rename_columns (ren : list (string * string)) (df : DataFrame) : DataFrame :=
  mkDF (nrows df) (map (λ nc, (default nc.1 (assoc nc.1 ren), nc.2)) (columns df)).

Definition drop_columns (names : list string) (df : DataFrame) : DataFrame :=
  mkDF (nrows df) (filter (λ nc, str_in nc.1 names = false) (columns df)).

Definition lower_bound (d : date_bound) : Z :=
  match d with DateOnly m => m | DateTime t => t end.

Definition upper_bound (d : date_bound) : Z :=
  match d with DateOnly m => m + 86399 | DateTime t => t end.

(** The weather-merge path of [get_station_data] (the body of its [try]). *)
Definition merged_station_data (env : Env) (station_id : option Z)
    (start_date end_date : option date_bound) : result DataFrame :=
  let* df_merged := merge_station_with_weather env start_date end_date in
  let df_merged :=
    rename_columns [("id_station", "id"); ("station_id_station", "station_id");
                    ("created_at_station", "created_at")] df_merged in
  let df_merged :=
    drop_columns ["id_weather"; "station_id_weather"; "created_at_weather";
                  "rainfall_7to7"; "flow_rate"; "rainfall"] df_merged in
  let* ids := station_ids df_merged in
  let df_merged := df_filter (map (λ s, negb (isin s excluded_stations)) ids) df_merged in
  let* df_merged :=
    match station_id with
    | Some sid =>
        if isin sid excluded_stations
        then Err (ValueError "Station is excluded from training/prediction")
        else
          let* ids := station_ids df_merged in
          let df := df_filter (station_mask sid ids) df_merged in
          if (nrows df =? 0)%nat then Err (ValueError "No data in merged result")
          else Ok df
    | None => Ok df_merged
    end in
  sort_values "measured_at" df_merged.

(** The query on [station_measurements] (the pages of the source's fetch
    loop, concatenated). *)
Definition query_measurements (env : Env) (station_id : option Z)
    (start_date end_date : option date_bound) : result DataFrame :=
  let table := station_measurements env in
  let* eq_station :=
    match station_id with
    | Some sid =>
        if isin sid excluded_stations
        then Err (ValueError "Station is excluded from training/prediction")
        else Ok (station_mask sid)
    | None => Ok (map (λ _, true))
    end in
  let* ids := station_ids table in
  let* ts := df_time "measured_at" table in
  let not_excluded := map (λ s, negb (isin s excluded_stations)) ids in
  let wanted := eq_station ids in
  let after :=
    match start_date with
    | Some d => map (λ t, match t with Some t => lower_bound d <=? t | None => false end) ts
    | None => map (λ _, true) ts
    end in
  let before :=
    match end_date with
    | Some d => map (λ t, match t with Some t => t <=? upper_bound d | None => false end) ts
    | None => map (λ _, true) ts
    end in
  let mask := zip_with andb (zip_with andb not_excluded wanted) (zip_with andb after before) in
  let* all_data := sort_values "measured_at" (df_filter mask table) in
  if (nrows all_data =? 0)%nat then Err (ValueError "No data found for station")
  else Ok all_data.

Definition get_station_data (env : Env) (station_id : option Z)
    (start_date end_date : option date_bound) (include_weather : bool)
    : result DataFrame :=
  let merged :=
    if include_weather then merged_station_data env station_id start_date end_date
    else Err (ValueError "no weather") in
  match merged with
  | Ok df => Ok df
  | Err _ =>
      (* fall through to the station-only implementation *)
      let* df := query_measurements env station_id start_date end_date in
      let df := drop_columns ["rainfall_7to7"; "flow_rate"; "rainfall"] df in
      sort_values "measured_at" df
  end.

(** ** 4.5 Pipeline orchestrator *)

(** The condition of the first stage:
<<
    configs.get('time_features', {}).get('enabled', True)
      if isinstance(configs.get('time_features'), dict)
      else 'time_features' in configs
>> *)
Definition time_features_selected (configs : gmap string json) : bool :=
  match configs !! "time_features" with
  | Some (JDict d) => truthy (default (JBool true) (assoc "enabled" d))
  | Some _ => true
  | None => false
  end.

(** The stages of [preprocess_data], from "Apply preprocessing steps in
    order" to "Clean data". *)
Definition run_stages `{Numpy} (configs : gmap string json) (prediction_horizons : list Z)
    (df : DataFrame) : result DataFrame :=
  let* df :=
    if time_features_selected configs then
      apply_time_features df (default (JDict []) (configs !! "time_features"))
    else Ok df in
  let* df :=
    match configs !! "lag_features" with
    | Some c => apply_lag_features df c
    | None => Ok df
    end in
  let* df :=
    match configs !! "rolling_statistics" with
    | Some c => apply_rolling_statistics df c
    | None => Ok df
    end in
  let* df :=
    match configs !! "rate_of_change" with
    | Some c => apply_rate_of_change df c
    | None => Ok df
    end in
  let* df :=
    match configs !! "rainfall_features" with
    | Some c => apply_rainfall_features df c
    | None => Ok df
    end in
  let* df :=
    match configs !! "weather_interactions" with
    | Some c => apply_weather_interactions df c
    | None => Ok df
    end in
  let* df :=
    match configs !! "station_statistics" with
    | Some c => apply_station_statistics df c
    | None => Ok df
    end in
  let* df :=
    match configs !! "target_creation" with
    | Some c =>
        let* target_config := dict_set_item c "prediction_horizons" (ints prediction_horizons) in
        create_targets df target_config
    | None => Ok df
    end in
  match configs !! "data_cleaning" with
  | Some c => clean_data df c
  | None => Ok df
  end.

Definition exclude_from_features : list string :=
  ["id"; "station_id"; "measured_at"; "created_at"].

Definition col_nulls (c : column) : nat :=
  length (filter (λ b, b = false) (col_notnull c)).

Record PreprocessResult := {
  processed_data : DataFrame;
  initial_records : nat;
  records_processed : nat;
  features_generated : nat;
  target_count : nat;
  missing_values : nat
}.

(** [if custom_configs:] an absent or empty map selects the database. *)
Definition effective_configs (env : Env) (custom_configs : option (gmap string json))
    : gmap string json :=
  match custom_configs with
  | Some c => if decide (c = ∅) then get_preprocessing_configs env else c
  | None => get_preprocessing_configs env
  end.

Definition preprocess_data `{Numpy} (env : Env) (station_id : option Z)
    (start_date end_date : option date_bound) (prediction_horizons : list Z)
    (custom_configs : option (gmap string json)) : result PreprocessResult :=
  let configs := effective_configs env custom_configs in
  let* df := get_station_data env station_id start_date end_date true in
  let initial := nrows df in
  let* df := run_stages configs prediction_horizons df in
  let feature_cols :=
    filter (λ nc, (str_in nc.1 exclude_from_features = false)
                  ∧ (String.prefix "target_" nc.1 = false)) (columns df) in
  let target_cols := filter (λ nc, String.prefix "target_" nc.1 = true) (columns df) in
  (* data_summary: df['measured_at'].min().isoformat() *)
  let* _ := df_time "measured_at" df in
  Ok {| processed_data := df;
        initial_records := initial;
        records_processed := nrows df;
        features_generated := length feature_cols;
        target_count := length target_cols;
        missing_values := foldr (λ nc n, (col_nulls nc.2 + n)%nat) 0%nat feature_cols |}.

(** ** 4.6 Inference feature preparer *)

Definition prepare_exclude_cols : list string :=
  ["measured_at"; "id"; "created_at"; "fetched_at"; "source"; "status"].

(** [df[names]] *)
Definition select_columns (names : list string) (df : DataFrame) : result DataFrame :=
  let* cols := mapM (λ n, let* c := df_col n df in Ok (n, c)) names in
  Ok (mkDF (nrows df) cols).

Definition col_drop (n : nat) (c : column) : column :=
  match c with
  | Num v => Num (drop n v)
  | Int v => Int (drop n v)
  | Time v => Time (drop n v)
  | Obj v => Obj (drop n v)
  end.

(** [df.iloc[-1:]] *)
Definition last_row (df : DataFrame) : DataFrame :=
  mkDF (Nat.min 1 (nrows df))
       (map (λ nc, (nc.1, col_drop (nrows df - 1) nc.2)) (columns df)).

Definition col_has_null (c : column) : bool :=
  existsb negb (col_notnull c).

(** The fill of one NaN feature of the latest row: the mean of the column
    over the processed frame, or 0 when that mean is NaN too.  Means of
    non-numeric columns are not modelled. *)
Definition fill_latest (df : DataFrame) (X_latest : DataFrame) (col : string)
    : result DataFrame :=
  let* hist := df_col col df in
  let* x := df_col col X_latest in
  match hist, x with
  | Num v, Num xv =>
      match col_mean v with
      | None => Ok (df_set col (Num (fillna (Some 0%Q) xv)) X_latest)
      | Some m => Ok (df_set col (Num (fillna (Some m) xv)) X_latest)
      end
  | _, _ => Err (TypeError "mean of a non-numeric column")
  end.

Definition prepare_latest_data_for_prediction `{Numpy} (env : Env) (station_id : option Z)
    : result (option (DataFrame * list string)) :=
  let end_date := DateTime (utcnow env) in
  let start_date := DateTime (utcnow env - 30 * 86400) in
  let* res := preprocess_data env station_id (Some start_date) (Some end_date) [15] None in
  let df := processed_data res in
  if (nrows df =? 0)%nat then Ok None
  else
    let feature_cols :=
      filter (λ n, (str_in n prepare_exclude_cols = false)
                   ∧ (String.prefix "target_" n = false)) (map fst (columns df)) in
    let* features := select_columns feature_cols df in
    let X_latest := last_row features in
    let nan_cols := map fst (filter (λ nc, col_has_null nc.2 = true) (columns X_latest)) in
    let* X_latest := foldM (fill_latest df) X_latest nan_cols in
    Ok (Some (X_latest, feature_cols)).

(** ** 4.7 Recursive multi-horizon predictor *)

(** sklearn's [StandardScaler]: [mean_] and [scale_] per feature. *)
Record Scaler := {
  mean_ : list Q;
  scale_ : list Q
}.

(** A loaded model: the feature names it was fitted with (when it has a
    [feature_names_in_] attribute) and its [predict], one value per row. *)
Record Model := {
  feature_names_in_ : option (list string);
  predict : DataFrame → result (list (option Q))
}.

Record ModelVersion := {
  version : Z;
  run_id : string
}.

(** The MLflow client and loaders. *)
Record Registry := {
  search_registered_models : string → result (list string);
  search_model_versions : string → result (list ModelVersion);
  load_model : string → Z → result Model;
  load_scaler : string → result Scaler
}.

Record Forecast := {
  f_station_id : option Z;
  forecast_date : Z;
  target_date : Z;
  water_level : option Q
}.

(** Python's [round(x)] and [round(x, 3)]: ties go to the even neighbour. *)
Definition py_round (q : Q) : Z :=
  let f := Qfloor q in
  let r := (q - inject_Z f)%Q in
  match (r ?= 1 # 2)%Q with
  | Lt => f
  | Gt => f + 1
  | Eq => if Z.even f then f else f + 1
  end.

Definition round3 (q : Q) : Q := Qred (inject_Z (py_round (q * 1000)) / 1000).

Definition unified_model_name (model_type : string) (horizon : Z) : string :=
  "swfm-" +:+ model_type +:+ "-unified-" +:+ dec horizon +:+ "min".

(** [df[name] = scalar] *)
Definition df_set_scalar (name : string) (v : option Q) (df : DataFrame) : DataFrame :=
  df_set name (Num (replicate (nrows df) v)) df.

(** The "RECURSIVE UPDATE" block.  [previous_prediction] is [None] before
    the first forecast; a NaN prediction is [Some None]. *)
Definition recursive_update (previous_prediction : option (option Q)) (X_current : DataFrame)
    : DataFrame :=
  match previous_prediction with
  | Some p =>
      let X_current :=
        if df_has "water_level" X_current
        then df_set_scalar "water_level" p X_current else X_current in
      if df_has "water_level_lag_1h" X_current
      then df_set_scalar "water_level_lag_1h" p X_current else X_current
  | None => X_current
  end.

(** "Try ridge first, then linear": the first candidate that is registered;
    a failing lookup moves on to the next candidate. *)
Fixpoint find_model (reg : Registry) (horizon : Z) (model_types : list string)
    : option string :=
  match model_types with
  | [] => None
  | model_type :: rest =>
      let candidate_name := unified_model_name model_type horizon in
      match search_registered_models reg candidate_name with
      | Ok (_ :: _) => Some candidate_name
      | _ => find_model reg horizon rest
      end
  end.

Fixpoint index_of (s : string) (l : list string) : option nat :=
  match l with
  | [] => None
  | x :: l' => if String.eqb s x then Some 0%nat else option_map S (index_of s l')
  end.

(** The value given to a feature the model expects and the frame lacks. *)
Definition missing_feature_value (scaler : option Scaler) (feature_names : list string)
    (feat : string) : Q :=
  match scaler with
  | Some sc =>
      match index_of feat feature_names with
      | Some feat_idx => default 0%Q (mean_ sc !! feat_idx)
      | None => 0%Q
      end
  | None => 0%Q
  end.

(** "Match features to what the model expects". *)
Definition align_features (model : Model) (scaler : option Scaler)
    (feature_names : list string) (X_current : DataFrame) : result DataFrame :=
  match feature_names_in_ model with
  | Some expected_features =>
      let missing_features := filter (λ f, df_has f X_current = false) expected_features in
      let X_current :=
        foldl (λ X feat,
                 df_set_scalar feat (Some (missing_feature_value scaler feature_names feat)) X)
              X_current missing_features in
      select_columns expected_features X_current
  | None => Ok X_current
  end.

Fixpoint scale_columns (cols : list (string * column)) (means scales : list Q)
    : result (list (string * column)) :=
  match cols, means, scales with
  | [], [], [] => Ok []
  | (n, c) :: cols', m :: means', s :: scales' =>
      let* v := as_float c in
      let* rest := scale_columns cols' means' scales' in
      Ok ((n, Num (map (option_map (λ x, Qred ((x - m) / s))) v)) :: rest)
  | _, _, _ => Err (ValueError "X has a different number of features")
  end.

(** [scaler.transform(X)] wrapped back into a frame; the scaler's check of
    feature names is not modelled, the count is. *)
Definition scaler_transform (sc : Scaler) (X : DataFrame) : result DataFrame :=
  let* cols := scale_columns (columns X) (mean_ sc) (scale_ sc) in
  Ok (mkDF (nrows X) cols).

(** [np.mean(predictions)]: NaN for an empty array or a NaN entry. *)
Definition np_mean (l : list (option Q)) : option Q :=
  match l with
  | [] => None
  | _ => if forallb (λ x, match x with Some _ => true | None => false end) l
         then Some (q_mean (dropna l)) else None
  end.

Definition latest_version (vs : list ModelVersion) : option ModelVersion :=
  foldl (λ best v, match best with
                   | Some b => if version b <? version v then Some v else Some b
                   | None => Some v
                   end) None vs.

(** One entry of the ghost log of the loop: the horizon, the aligned frame
    before scaling, the frame passed to [model.predict] and the value
    [float(np.mean(predictions))]. *)
Record ModelCall := {
  call_horizon : Z;
  call_features : DataFrame;
  call_scaled : DataFrame;
  call_predicted : option Q
}.

Record LoopState := {
  X_current : DataFrame;
  previous_prediction : option (option Q);
  all_forecasts : list Forecast;
  model_inputs : list ModelCall
}.

Definition with_X (X : DataFrame) (st : LoopState) : LoopState :=
  {| X_current := X; previous_prediction := previous_prediction st;
     all_forecasts := all_forecasts st; model_inputs := model_inputs st |}.

(** The body of [try:] for one horizon, from "Load the model and scaler"
    on.  The result is the state left behind; [except Exception: continue]
    keeps whatever was assigned before the exception. *)
Definition use_model (reg : Registry) (feature_names : list string)
    (station_id : option Z) (now : Z) (model_name : string) (horizon : Z)
    (st : LoopState) : LoopState :=
  match search_model_versions reg model_name with
  | Err _ => st
  | Ok model_versions =>
      match latest_version model_versions with
      | None => st
      | Some latest =>
          match load_model reg model_name (version latest) with
          | Err _ => st
          | Ok model =>
              let scaler :=
                match load_scaler reg (run_id latest) with
                | Ok sc => Some sc
                | Err _ => None
                end in
              match align_features model scaler feature_names (X_current st) with
              | Err _ => st
              | Ok X =>
                  let st := with_X X st in
                  let scaled :=
                    match scaler with
                    | Some sc => scaler_transform sc X
                    | None => Ok X
                    end in
                  match scaled with
                  | Err _ => st
                  | Ok X_scaled_df =>
                      match predict model X_scaled_df with
                      | Err _ => st
                      | Ok predictions =>
                          let predicted_value := np_mean predictions in
                          {| X_current := X;
                             previous_prediction := Some predicted_value;
                             all_forecasts :=
                               all_forecasts st ++
                               [{| f_station_id := station_id;
                                   forecast_date := now;
                                   target_date := now + horizon * 60;
                                   water_level := option_map round3 predicted_value |}];
                             model_inputs :=
                               model_inputs st ++
                               [{| call_horizon := horizon; call_features := X;
                                   call_scaled := X_scaled_df;
                                   call_predicted := predicted_value |}] |}
                      end
                  end
              end
          end
      end
  end.

(** One iteration of [for horizon_idx, horizon in enumerate(horizons)]. *)
Definition forecast_step (reg : Registry) (feature_names : list string)
    (station_id : option Z) (now : Z) (st : LoopState) (horizon : Z) : LoopState :=
  let st := with_X (recursive_update (previous_prediction st) (X_current st)) st in
  match find_model reg horizon ["ridge"; "linear"] with
  | None => st
  | Some model_name => use_model reg feature_names station_id now model_name horizon st
  end.

Definition forecast_loop (reg : Registry) (feature_names : list string)
    (station_id : option Z) (now : Z) (X_latest : DataFrame) (horizons : list Z)
    : LoopState :=
  foldl (forecast_step reg feature_names station_id now)
        {| X_current := X_latest; previous_prediction := None;
           all_forecasts := []; model_inputs := [] |}
        horizons.

Record GenerateForecastRequest := {
  req_station_id : option Z;
  horizons_minutes : list Z;
  save_to_db : bool
}.

Record GenerateForecastResponse := {
  success : bool;
  resp_station_id : option Z;
  forecasts_generated : nat;
  forecasts : list Forecast
}.

(** [except HTTPException: raise / except Exception: raise HTTPException(500)] *)
Definition as_http {A} (r : result A) : result A :=
  match r with
  | Ok a => Ok a
  | Err (HTTPException s d) => Err (HTTPException s d)
  | Err _ => Err (HTTPException 500 "Forecast generation failed")
  end.

Definition generate_forecasts_endpoint `{Numpy} (env : Env) (reg : Registry)
    (request : GenerateForecastRequest) : result GenerateForecastResponse :=
  let* _ :=
    match req_station_id request with
    | Some sid =>
        if isin sid excluded_stations
        then Err (HTTPException 400 "Station is excluded from predictions")
        else if existsb (λ s, s.1 =? sid) (stations env) then Ok tt
        else Err (HTTPException 404 "Station not found")
    | None => Ok tt
    end in
  let* latest := as_http (prepare_latest_data_for_prediction env (req_station_id request)) in
  match latest with
  | None => Err (HTTPException 400 "No recent data available")
  | Some (X_latest, feature_names) =>
      if (nrows X_latest =? 0)%nat then Err (HTTPException 400 "No recent data available")
      else
        let st := forecast_loop reg feature_names (req_station_id request) (utcnow env)
                                X_latest (horizons_minutes request) in
        if (length (all_forecasts st) =? 0)%nat
        then Err (HTTPException 400 "No forecasts generated")
        else Ok {| success := true;
                   resp_station_id := req_station_id request;
                   forecasts_generated := length (all_forecasts st);
                   forecasts := all_forecasts st |}
  end.

(** ** Notions used by the statements *)

(** The rows of station [sid]: the station's mask when the frame has a
    [station_id] column, every row otherwise. *)
Definition group_mask (sid : Z) (df : DataFrame) : list bool :=
  match assoc "station_id" (columns df) with
  | Some (Int ids) => station_mask sid ids
  | _ => replicate (nrows df) true
  end.

(** Timestamps in ascending order, missing ones last. *)
Fixpoint ascending (ts : list (option Z)) : bool :=
  match ts with
  | [] => true
  | a :: rest =>
      match rest with
      | [] => true
      | b :: _ => key_le Z.leb a b && ascending rest
      end
  end.

(** No two rows carry the same timestamp, and at most one lacks it. *)
Definition distinct_times (ts : list (option Z)) : bool := bool_decide (NoDup ts).

(** The cells [l] of rows with timestamps [ts], in the order in which
    [sort_values] returns the rows. *)
Definition in_time_order {A} (ts : list (option Z)) (l : list A) : list A :=
  take_idx (argsort (key_le Z.leb) ts) l.

(** Number of non-null cells of a window. *)
Definition nobs (win : list (option Q)) : nat := length (dropna win).

Definition not_null {A} (c : option A) : Prop := c ≠ None.

(** The stages of the orchestrator in the order of the specification. *)
Inductive stage :=
| TimeFeatures
| LagFeatures
| RollingStatistics
| RateOfChange
| RainfallFeatures
| WeatherInteractions
| StationStatistics
| TargetCreation
| DataCleaning.

Definition stage_order : list stage :=
  [TimeFeatures; LagFeatures; RollingStatistics; RateOfChange; RainfallFeatures;
   WeatherInteractions; StationStatistics; TargetCreation; DataCleaning].

Definition stage_key (s : stage) : string :=
  match s with
  | TimeFeatures => "time_features"
  | LagFeatures => "lag_features"
  | RollingStatistics => "rolling_statistics"
  | RateOfChange => "rate_of_change"
  | RainfallFeatures => "rainfall_features"
  | WeatherInteractions => "weather_interactions"
  | StationStatistics => "station_statistics"
  | TargetCreation => "target_creation"
  | DataCleaning => "data_cleaning"
  end.

(** A stage runs when its key is in the config map; the time stage also
    honours an [enabled] entry of its own config. *)
Definition stage_selected (configs : gmap string json) (s : stage) : bool :=
  match s with
  | TimeFeatures => time_features_selected configs
  | _ => bool_decide (is_Some (configs !! stage_key s))
  end.

Definition apply_stage `{Numpy} (configs : gmap string json) (prediction_horizons : list Z)
    (s : stage) (df : DataFrame) : result DataFrame :=
  let c := default (JDict []) (configs !! stage_key s) in
  match s with
  | TimeFeatures => apply_time_features df c
  | LagFeatures => apply_lag_features df c
  | RollingStatistics => apply_rolling_statistics df c
  | RateOfChange => apply_rate_of_change df c
  | RainfallFeatures => apply_rainfall_features df c
  | WeatherInteractions => apply_weather_interactions df c
  | StationStatistics => apply_station_statistics df c
  | TargetCreation =>
      let* target_config := dict_set_item c "prediction_horizons" (ints prediction_horizons) in
      create_targets df target_config
  | DataCleaning => clean_data df c
  end.

(** The orchestrator as the specification describes it: the selected
    stages, in [stage_order]. *)
Definition staged_pipeline `{Numpy} (configs : gmap string json) (prediction_horizons : list Z)
    (df : DataFrame) : result DataFrame :=
  foldM (λ df s, apply_stage configs prediction_horizons s df) df
        (filter (λ s, stage_selected configs s = true) stage_order).

(** Rows kept by the first step of [clean_data] under the default config. *)
Definition lag_complete_rows (df : DataFrame) : list bool :=
  match filter (λ nc, is_substring "lag_" nc.1 = true) (columns df) with
  | [] => replicate (nrows df) true
  | lag_cols => complete_rows (nrows df) (map snd lag_cols)
  end.

(** Every model that can be loaded lists [name] among its features, or
    has no feature list. *)
Definition models_keep (reg : Registry) (name : string) : Prop :=
  ∀ model_name v m, load_model reg model_name v = Ok m →
    match feature_names_in_ m with
    | Some fs => name ∈ fs
    | None => True
    end.

(** A rational stand-in for numpy, used to run the model on examples. *)
Definition approx_sqrt (q : Q) : Q :=
  Qred (inject_Z (Z.sqrt (Qnum q * 1000000 * 1000000 / Z.pos (Qden q))) / 1000000).

Definition approx_pi : Q := 355 # 113.

Definition approx_sin (x : Q) : Q :=
  Qred (x - x * x * x / 6 + x * x * x * x * x / 120)%Q.

Definition approx_cos (x : Q) : Q :=
  Qred (1 - x * x / 2 + x * x * x * x / 24)%Q.

Definition approx_numpy : Numpy :=
  {| np_sqrt := approx_sqrt; np_sin := approx_sin; np_cos := approx_cos; np_pi := approx_pi |}.

(** One masked assignment of the station loops:
<<
    if name not in df.columns: df[name] = np.nan
    df.loc[station_mask, name] = values
>> *)
Definition assign_rows (mask : list bool) (df : DataFrame)
    (job : string * list (option Q)) : result DataFrame :=
  df_loc_set mask job.1 job.2 (ensure_col job.1 df).


(** The interval detected on a series of timestamps. *)
Definition series_pph (ts : list (option Z)) : pph :=
  periods_per_hour (mode_interval (time_diffs ts)).

(** ** Example inputs *)

Definition level (z : Z) : option Q := Some (inject_Z z).

(** One station reporting every 45 minutes. *)
Definition frame_45min : DataFrame :=
  mkDF 5 [("measured_at", Time [Some 0; Some 2700; Some 5400; Some 8100; Some 10800]);
          ("water_level", Num [level 500; level 501; level 502; level 503; level 504])].

(** Station 2 reports every 15 minutes, station 3 every 30 minutes. *)
Definition frame_two_stations : DataFrame :=
  mkDF 10 [("station_id", Int [2; 3; 2; 2; 3; 2; 2; 3; 2; 2]);
           ("measured_at",
            Time [Some 0; Some 0; Some 900; Some 1800; Some 1800; Some 2700;
                  Some 3600; Some 3600; Some 4500; Some 5400]);
           ("water_level",
            Num [level 10; level 20; level 11; level 12; level 21; level 13;
                 level 14; level 22; level 15; level 16])].

(** The value of a computation that is known to succeed. *)
Definition ok_or {A} (dflt : A) (r : result A) : A :=
  match r with Ok a => a | Err _ => dflt end.

Definition horizons_30_45 : json := JDict [("prediction_horizons", ints [30; 45])].

(** Two rows without a [water_level] column, and without [measured_at]. *)
Definition frame_no_water_level : DataFrame :=
  mkDF 2 [("measured_at", Time [Some 0; Some 900])].

Definition frame_no_measured_at : DataFrame :=
  mkDF 2 [("water_level", Num [level 500; level 501])].

Definition lag_disabled : gmap string json :=
  {[ "lag_features" := JDict [("enabled", JBool false); ("lag_periods", ints [1])] ]}.

Definition time_disabled : gmap string json :=
  {[ "time_features" := JDict [("enabled", JBool false)] ]}.

(** [frame_45min] with the targets of the 30 and 45-minute horizons, and
    with the target of the 90-minute horizon. *)
Definition frame_with_targets : DataFrame :=
  ok_or frame_45min (create_targets frame_45min horizons_30_45).

Definition frame_with_far_target : DataFrame :=
  ok_or frame_45min
        (create_targets frame_45min (JDict [("prediction_horizons", ints [90])])).

(** An environment whose merge returns two rows of station 2 with the
    given temperature readings; no preprocessing method is configured. *)
Definition env_with_temperature (temperature : list (option Q)) : Env :=
  {| preprocessing_configs := [];
     station_measurements := mkDF 0 [];
     merge_station_with_weather := λ _ _,
       Ok (mkDF 2 [("station_id_station", Int [2; 2]);
                   ("measured_at", Time [Some 0; Some 900]);
                   ("water_level", Num [level 500; level 501]);
                   ("temperature", Num temperature)]);
     stations := [(2, "Station 2")];
     utcnow := 1800 |}.

(** An environment whose measurements mix stations 1, 2 and 7; the merge
    service fails, so the station table is queried. *)
Definition env_mixed_stations : Env :=
  {| preprocessing_configs := [];
     station_measurements :=
       mkDF 4 [("station_id", Int [1; 2; 7; 2]);
               ("measured_at", Time [Some 0; Some 0; Some 900; Some 900]);
               ("water_level", Num [level 100; level 500; level 700; level 501])];
     merge_station_with_weather := λ _ _, Err (ValueError "weather service unavailable");
     stations := [(1, "Station 1"); (2, "Station 2"); (7, "Station 7")];
     utcnow := 1800 |}.

(** A model that answers [v] for every row. *)
Definition constant_model (features : option (list string)) (v : Q) : Model :=
  {| feature_names_in_ := features;
     predict := λ X, Ok (replicate (nrows X) (Some v)) |}.

(** A registry with a ridge model for the 15 and the 30-minute horizon,
    one version each and no scaler artifact. *)
Definition two_model_registry (m15 m30 : Model) : Registry :=
  {| search_registered_models := λ name,
       if String.eqb name "swfm-ridge-unified-15min"
          || String.eqb name "swfm-ridge-unified-30min"
       then Ok [name] else Ok [];
     search_model_versions := λ name, Ok [{| version := 1; run_id := "run-1" |}];
     load_model := λ name v,
       if String.eqb name "swfm-ridge-unified-15min" then Ok m15 else Ok m30;
     load_scaler := λ _, Err (ValueError "no scaler artifact") |}.

Definition latest_features : DataFrame :=
  mkDF 1 [("station_id", Int [2]); ("water_level", Num [level 500]);
          ("water_level_lag_1h", Num [level 498]); ("hour", Int [3])].

Definition all_features : list string :=
  ["station_id"; "water_level"; "water_level_lag_1h"; "hour"].

(** Both models were fitted on all four features. *)
Definition registry_same_features : Registry :=
  two_model_registry (constant_model (Some all_features) 495)
                     (constant_model (Some all_features) 490).

(** The 15-minute model was fitted without [water_level]. *)
Definition registry_narrow_first : Registry :=
  two_model_registry (constant_model (Some ["station_id"; "hour"]) 495)
                     (constant_model (Some ["station_id"; "water_level"; "hour"]) 490).

(** The [i]-th model call of a run of the loop. *)
Definition model_call (i : nat) (st : LoopState) : ModelCall :=
  default {| call_horizon := 0; call_features := mkDF 0 []; call_scaled := mkDF 0 [];
             call_predicted := None |}
          (model_inputs st !! i).

Definition run_same_features : LoopState :=
  forecast_loop registry_same_features all_features (Some 2) 0 latest_features [15; 30].

Definition run_narrow_first : LoopState :=
  forecast_loop registry_narrow_first all_features (Some 2) 0 latest_features [15; 30].

(** The columns written for one window, given the station's periods per
    hour and water levels. *)
Definition rolling_jobs `{Numpy} (p : pph) (statistics min_periods : json)
    (wl : list (option Q)) (window : Z) : result (list (string * list (option Q))) :=
  let* window_periods := to_periods window p in
  let* want_mean := py_in "mean" statistics in
  let* mean_job :=
    if want_mean then
      let* vals := rolling window_periods min_periods roll_mean wl in
      Ok [(rolling_mean_name window, vals)]
    else Ok [] in
  let* want_std := py_in "std" statistics in
  let* std_job :=
    if want_std then
      let* vals := rolling window_periods min_periods roll_std wl in
      Ok [(rolling_std_name window, vals)]
    else Ok [] in
  Ok (mean_job ++ std_job).



(** ** Notions used by the properties of the other transforms *)



(** Station 2 and station 3 with hourly rainfall, one reading missing. *)
Definition frame_with_rain : DataFrame :=
  mkDF 6 [("station_id", Int [2; 3; 2; 3; 2; 3]);
          ("measured_at", Time [Some 0; Some 0; Some 900; Some 900; Some 1800; Some 1800]);
          ("water_level", Num [level 10; level 20; level 11; level 21; level 12; level 22]);
          ("rainfall_1h", Num [level 1; None; level 2; None; level 4; level 5])].

Definition rain_windows_2 : json := JDict [("windows", ints [2])].

Definition frame_with_rain_sums : DataFrame :=
  ok_or frame_with_rain (apply_rainfall_features frame_with_rain rain_windows_2).

(** One station reporting once a day. *)
Definition frame_daily : DataFrame :=
  mkDF 3 [("measured_at", Time [Some 0; Some 86400; Some 172800]);
          ("water_level", Num [level 500; level 501; level 502])].

(** Station 2 and station 3 with a pressure reading per row. *)
Definition frame_with_pressure : DataFrame :=
  mkDF 8 [("station_id", Int [2; 3; 2; 3; 2; 3; 2; 3]);
          ("measured_at",
           Time [Some 0; Some 0; Some 900; Some 900; Some 1800; Some 1800;
                 Some 2700; Some 2700]);
          ("water_level",
           Num [level 10; level 20; level 11; level 21; level 12; level 22;
                level 13; None]);
          ("pressure",
           Num [level 1000; level 990; level 1001; level 991; level 1003; level 993;
                level 1006; level 996])].

Definition frame_with_pressure_diff : DataFrame :=
  ok_or frame_with_pressure (apply_weather_interactions frame_with_pressure (JDict [])).

Definition frame_with_station_statistics : DataFrame :=
  ok_or frame_with_pressure
        (@apply_station_statistics approx_numpy frame_with_pressure (JDict [])).

(** The rows that the first step of [clean_data] keeps. *)
Definition kept_rows (remove : json) (df : DataFrame) : list bool :=
  if truthy remove then lag_complete_rows df else replicate (nrows df) true.

(** [c'] is [c] with nulls filled at most: the same dtype and cells,
    except that a null of a float column may have become a value. *)
Definition only_fills (c c' : column) : Prop :=
  match c, c' with
  | Num v, Num v' =>
      length v' = length v ∧ ∀ i q, v !! i = Some (Some q) → v' !! i = Some (Some q)
  | _, _ => c' = c
  end.

(** Five rows of one station with a one-hour lag, a temperature with one
    gap and a humidity without any reading. *)
Definition frame_to_clean : DataFrame :=
  mkDF 5 [("measured_at", Time [Some 0; Some 900; Some 1800; Some 2700; Some 3600]);
          ("water_level", Num [level 500; level 501; level 502; level 503; level 504]);
          ("water_level_lag_1h", Num [None; None; level 500; level 501; level 502]);
          ("temperature", Num [level 20; level 21; level 22; None; level 26]);
          ("humidity", Num [None; None; None; None; None])].

Definition frame_cleaned : DataFrame :=
  ok_or frame_to_clean (clean_data frame_to_clean (JDict [])).

(** An environment whose merge service fails and whose station table is
    not in time order. *)
Definition env_unsorted : Env :=
  {| preprocessing_configs := [];
     station_measurements :=
       mkDF 4 [("station_id", Int [2; 3; 2; 2]);
               ("measured_at", Time [Some 1800; Some 900; Some 0; Some 900]);
               ("water_level", Num [level 502; level 700; level 500; level 501]);
               ("rainfall", Num [level 1; level 2; level 3; level 4])];
     merge_station_with_weather := λ _ _, Err (ValueError "weather service unavailable");
     stations := [(2, "Station 2"); (3, "Station 3")];
     utcnow := 3600 |}.

Definition station_2_data : DataFrame :=
  ok_or (mkDF 0 []) (get_station_data env_unsorted (Some 2) None None true).

(** ** The fetch loop of the station table

    [get_station_data] reads the answer of its query page by page:
<<
    all_data = []
    page_size = 1000
    offset = 0
    while True:
        response = query.order('measured_at').range(offset, offset + page_size - 1).execute()
        if not response.data:
            break
        all_data.extend(response.data)
        if len(response.data) < page_size:
            break
        offset += page_size
>>
    [range_ first last] is the answer to [.range(first, last)].  The loop
    is run for at most [fuel] requests; [None] means that it asked for
    more. *)
Fixpoint fetch_pages {A} (page_size : nat) (range_ : nat → nat → list A)
    (fuel offset : nat) (all_data : list A) : option (list A) :=
  match fuel with
  | O => None
  | S fuel' =>
      let data := range_ offset (offset + page_size - 1)%nat in
      match data with
      | [] => Some all_data
      | _ :: _ =>
          let all_data := all_data ++ data in
          if (length data <? page_size)%nat then Some all_data
          else fetch_pages page_size range_ fuel' (offset + page_size)%nat all_data
      end
  end.

(** A server that holds the ordered rows of the query and answers
    [.range(first, last)] with the rows [first .. last], both included. *)
Definition table_range {A} (rows : list A) (first last : nat) : list A :=
  take (S last - first) (drop first rows).

(** An environment whose table has two stations, with the cleaning and the
    target stage configured. *)
Definition env_with_configs : Env :=
  {| preprocessing_configs :=
       [ {| method_id := "lag_features"; enabled := true;
            config := JDict [("lag_periods", ints [1])] |};
         {| method_id := "target_creation"; enabled := true;
            config := JDict [("prediction_horizons", ints [90])] |};
         {| method_id := "rolling_statistics"; enabled := false; config := JDict [] |};
         {| method_id := "data_cleaning"; enabled := true; config := JDict [] |} ];
     station_measurements := frame_two_stations;
     merge_station_with_weather := λ _ _, Err (ValueError "weather service unavailable");
     stations := [(2, "Station 2"); (3, "Station 3")];
     utcnow := 7200 |}.

Definition preprocessed_with_configs : result PreprocessResult :=
  @preprocess_data approx_numpy env_with_configs None None None [15; 30] None.

(** The answer of the preparer on [env_with_temperature] with one missing
    temperature. *)
Definition prepared_with_temperature : result (option (DataFrame * list string)) :=
  @prepare_latest_data_for_prediction approx_numpy
    (env_with_temperature [level 20; None]) (Some 2).

(** A request for three horizons on station 2 of [env_with_temperature],
    answered with the models of [registry_same_features], which cover the
    first two. *)
Definition request_three_horizons : GenerateForecastRequest :=
  {| req_station_id := Some 2; horizons_minutes := [15; 30; 45]; save_to_db := false |}.

Definition response_three_horizons : result GenerateForecastResponse :=
  @generate_forecasts_endpoint approx_numpy (env_with_temperature [level 20; level 21])
    registry_same_features request_three_horizons.

(** A model fitted on a feature that the latest row lacks. *)
Definition model_with_rainfall : Model :=
  constant_model (Some ["water_level"; "rainfall_1h"; "station_id"]) 495.

Definition scaler_of_three : Scaler :=
  {| mean_ := [2 # 1; 500 # 1; 3 # 1]; scale_ := [1 # 1; 10 # 1; 2 # 1] |}.

(** A result that is not an [HTTPException]: the exceptions of pandas and
    of the Python runtime are of other classes. *)
Definition plain {A} (r : result A) : Prop :=
  match r with
  | Err (HTTPException _ _) => False
  | _ => True
  end.

(** An [HTTPException] of the given status code, whatever its detail. *)
Definition http_error (status : Z) (e : error) : Prop :=
  ∃ detail, e = HTTPException status detail.

(** A request for a station that the [stations] table does not know. *)
Definition request_unknown_station : GenerateForecastRequest :=
  {| req_station_id := Some 9; horizons_minutes := [15]; save_to_db := false |}.

(** ** The preprocessing endpoint

    [preprocess_data] of [app/routers/preprocessing.py]: the request names
    one station; the custom configs are used only when the request says
    so; a [ValueError] of the service becomes a 404 whose detail is its
    message, any other exception a 500.  [str] is Python's [str(e)] on the
    exceptions whose text the model does not carry. *)
Record PreprocessingRequest := {
  pr_station_id : Z;
  pr_start_date : option date_bound;
  pr_end_date : option date_bound;
  pr_prediction_horizons : list Z;
  use_custom_configs : bool;
  custom_configs : option (gmap string json)
}.

Definition preprocess_endpoint `{Numpy} (str : error → string) (env : Env)
    (request : PreprocessingRequest) : result PreprocessResult :=
  let configs := if use_custom_configs request then custom_configs request else None in
  match preprocess_data env (Some (pr_station_id request)) (pr_start_date request)
                        (pr_end_date request) (pr_prediction_horizons request) configs with
  | Ok result => Ok result
  | Err (ValueError msg) => Err (HTTPException 404 msg)
  | Err e => Err (HTTPException 500 ("Preprocessing failed: " +:+ str e))
  end.

(** ** Names of the registered models

    [_register_model_to_mlflow] of [app/services/training_service.py]:
<<
    station_tag = f"station{station_id}" if station_id is not None else "unified"
    model_name = f"swfm-{model_type}-{station_tag}-{horizon_minutes}min"
>> *)
Definition registered_model_name (station_id : option Z) (model_type : string)
    (horizon_minutes : Z) : string :=
  let station_tag :=
    match station_id with
    | Some sid => "station" +:+ dec sid
    | None => "unified"
    end in
  "swfm-" +:+ model_type +:+ "-" +:+ station_tag +:+ "-" +:+ dec horizon_minutes +:+ "min".

(** ** The training endpoint

    [train_models] of [app/routers/training.py], with the ["status"] entry
    of the module-level [training_status] threaded through.  The training
    service is an input.  The check of the excluded stations sits inside
    the [try] whose [except Exception] turns every exception,
    [HTTPException] included, into a 500. *)
Record TrainingRequest := {
  tr_station_id : option Z;
  tr_start_date : option date_bound;
  tr_end_date : option date_bound;
  tr_prediction_horizons : list Z;
  tr_model_types : list string;
  tr_test_size : Q;
  tr_use_time_split : bool;
  tr_ridge_alpha : Q;
  tr_experiment_name : option string;
  tr_register_model : bool;
  tr_model_stage : string
}.

Inductive training_state :=
| Idle
| Training
| Completed
| Failed.

Definition train_endpoint {R} (str : error → string)
    (train_models : TrainingRequest → result R)
    (training_status : training_state) (request : TrainingRequest)
    : training_state * result R :=
  match training_status with
  | Training =>
      (training_status,
       Err (HTTPException 409
              "Training already in progress. Please wait for it to complete."))
  | _ =>
      let attempt :=
        let* _ :=
          match tr_station_id request with
          | Some sid =>
              if isin sid excluded_stations
              then Err (HTTPException 400
                          ("Station " +:+ dec sid
                           +:+ " is excluded from training due to data quality issues"))
              else Ok tt
          | None => Ok tt
          end in
        (* training_status = {"status": "training", ...} *)
        train_models request in
      match attempt with
      | Ok result => (Completed, Ok result)
      | Err e => (Failed, Err (HTTPException 500 ("Training failed: " +:+ str e)))
      end
  end.

(** Requests served one after the other, from a given status. *)
Fixpoint serve_training {R} (str : error → string)
    (train_models : TrainingRequest → result R)
    (training_status : training_state) (requests : list TrainingRequest)
    : training_state * list (result R) :=
  match requests with
  | [] => (training_status, [])
  | request :: rest =>
      let '(status1, response) := train_endpoint str train_models training_status request in
      let '(status2, responses) := serve_training str train_models status1 rest in
      (status2, response :: responses)
  end.

(** A request for the excluded station 7. *)
Definition request_station_7 : PreprocessingRequest :=
  {| pr_station_id := 7; pr_start_date := None; pr_end_date := None;
     pr_prediction_horizons := [15]; use_custom_configs := false; custom_configs := None |}.

(** A training request with the defaults of the schema. *)
Definition training_request (station_id : option Z) : TrainingRequest :=
  {| tr_station_id := station_id; tr_start_date := None; tr_end_date := None;
     tr_prediction_horizons := [15; 30; 45; 60]; tr_model_types := ["linear"; "ridge"];
     tr_test_size := 2 # 10; tr_use_time_split := true; tr_ridge_alpha := 1 # 1;
     tr_experiment_name := None; tr_register_model := true; tr_model_stage := "None" |}.

(** A training service that fails on station 3, and the class names as
    the text of the exceptions. *)
Definition service_failing_on_3 (request : TrainingRequest) : result nat :=
  if decide (tr_station_id request = Some 3) then Err (KeyError "measured_at")
  else Ok 8%nat.

Definition class_name (e : error) : string :=
  match e with
  | KeyError _ => "KeyError"
  | ValueError _ => "ValueError"
  | TypeError _ => "TypeError"
  | AttributeError _ => "AttributeError"
  | OverflowError => "OverflowError"
  | HTTPException _ _ => "HTTPException"
  end.

(** Thursday 1 January 1970 at midnight, Saturday 3 January 1970 at noon,
    a missing timestamp and Sunday 4 January 1970 at 23:00. *)
Definition frame_weekend : DataFrame :=
  mkDF 4 [("measured_at", Time [Some 0; Some 216000; None; Some 342000]);
          ("water_level", Num [level 500; level 501; level 502; level 503])].

Definition frame_with_time_features : DataFrame :=
  ok_or frame_weekend (@apply_time_features approx_numpy frame_weekend (JDict [])).

(** * Properties *)

(** ** The exception monad *)

Lemma bind_Ok {A B} (m : result A) (k : A → result B) (b : B) :
  bind m k = Ok b → ∃ a, m = Ok a ∧ k a = Ok b.
Proof. destruct m as [a|e]; simpl; [eauto | discriminate]. Qed.

Lemma bind_Err {A B} (m : result A) (k : A → result B) (e : error) :
  m = Err e → bind m k = Err e.
Proof. intros ->. reflexivity. Qed.

(** Splits a successful [let*] chain in hypothesis [H]. *)
Tactic Notation "inv_bind" hyp(H) "as" ident(a) ident(Ha) :=
  apply bind_Ok in H as (a & Ha & H).

Ltac inv_ok :=
  repeat match goal with
         | H : Ok _ = Ok _ |- _ => injection H as H; try subst
         | H : Err _ = Ok _ |- _ => discriminate H
         | H : Ok _ = Err _ |- _ => discriminate H
         end.


Lemma foldM_app {S X} (body : S → X → result S) (st : S) (xs ys : list X) :
  foldM body st (xs ++ ys) = let* st' := foldM body st xs in foldM body st' ys.
Proof.
  revert st. induction xs as [|x xs IH]; intros st; simpl; [reflexivity|].
  destruct (body st x); simpl; auto.
Qed.

(** An invariant of a successful loop. *)
Lemma foldM_invariant {S X} (P : S → Prop) (body : S → X → result S) (xs : list X) :
  (∀ st x st', x ∈ xs → P st → body st x = Ok st' → P st') →
  ∀ st st', P st → foldM body st xs = Ok st' → P st'.
Proof.
  induction xs as [|x xs IH]; intros Hstep st st' HP Hrun; simpl in Hrun.
  - by inv_ok.
  - inv_bind Hrun as st1 Hst1. eapply IH; [|eapply Hstep|]; eauto.
    + intros. eapply Hstep; eauto. by right.
    + by left.
Qed.

Lemma mapM_Ok_length {X Y} (f : X → result Y) (xs : list X) (ys : list Y) :
  mapM f xs = Ok ys → length ys = length xs.
Proof.
  revert ys. induction xs as [|x xs IH]; intros ys H; simpl in H.
  - by inv_ok.
  - inv_bind H as y Hy. inv_bind H as ys' Hys. inv_ok. simpl. f_equal. eauto.
Qed.

Lemma mapM_Ok_elem {X Y} (f : X → result Y) (xs : list X) (ys : list Y) (x : X) :
  mapM f xs = Ok ys → x ∈ xs → ∃ y, f x = Ok y ∧ y ∈ ys.
Proof.
  revert ys. induction xs as [|x0 xs IH]; intros ys H Hin; simpl in H.
  - by apply elem_of_nil in Hin.
  - inv_bind H as y0 Hy. inv_bind H as ys' Hys. inv_ok.
    apply elem_of_cons in Hin as [->|Hin].
    + eexists; split; eauto. by left.
    + destruct (IH _ Hys Hin) as (y & ? & ?). eexists; split; eauto. by right.
Qed.

Lemma mapM_Ok_inv {X Y} (f : X → result Y) (xs : list X) (ys : list Y) (y : Y) :
  mapM f xs = Ok ys → y ∈ ys → ∃ x, x ∈ xs ∧ f x = Ok y.
Proof.
  revert ys. induction xs as [|x0 xs IH]; intros ys H Hin; simpl in H.
  - inv_ok. by apply elem_of_nil in Hin.
  - inv_bind H as y0 Hy. inv_bind H as ys' Hys. inv_ok.
    apply elem_of_cons in Hin as [->|Hin].
    + eexists; split; eauto. by left.
    + destruct (IH _ Hys Hin) as (x' & ? & ?). eexists; split; eauto. by right.
Qed.

Lemma as_int_list_ints (l : list Z) : as_int_list (ints l) = Ok l.
Proof.
  unfold ints; simpl. induction l as [|z l IH]; simpl; [reflexivity|].
  by rewrite IH.
Qed.

(** ** Association lists and frames *)

Lemma assoc_set_eq {V} (k : string) (v : V) (d : list (string * V)) :
  assoc k (assoc_set k v d) = Some v.
Proof.
  induction d as [|[k' v'] d IH]; simpl.
  - by rewrite String.eqb_refl.
  - destruct (String.eqb k k') eqn:E; simpl.
    + by rewrite String.eqb_refl.
    + by rewrite E.
Qed.

Lemma assoc_set_ne {V} (k k' : string) (v : V) (d : list (string * V)) :
  k ≠ k' → assoc k' (assoc_set k v d) = assoc k' d.
Proof.
  intros Hne. induction d as [|[k0 v0] d IH]; simpl.
  - apply String.eqb_neq in Hne. rewrite String.eqb_sym in Hne. by rewrite Hne.
  - destruct (String.eqb k k0) eqn:E; simpl.
    + apply String.eqb_eq in E as <-.
      apply String.eqb_neq in Hne. rewrite String.eqb_sym in Hne. by rewrite Hne.
    + by rewrite IH.
Qed.

Lemma assoc_elem {V} (k : string) (v : V) (d : list (string * V)) :
  assoc k d = Some v → (k, v) ∈ d.
Proof.
  induction d as [|[k0 v0] d IH]; simpl; [discriminate|].
  destruct (String.eqb k k0) eqn:E.
  - apply String.eqb_eq in E as <-. intros [= ->]. by left.
  - intros. right. auto.
Qed.

Lemma assoc_map_snd {V W} (f : V → W) (k : string) (d : list (string * V)) :
  assoc k (map (λ nc, (nc.1, f nc.2)) d) = option_map f (assoc k d).
Proof.
  induction d as [|[k0 v0] d IH]; simpl; [reflexivity|].
  by destruct (String.eqb k k0).
Qed.

Lemma df_col_Ok (name : string) (df : DataFrame) (c : column) :
  df_col name df = Ok c ↔ assoc name (columns df) = Some c.
Proof.
  unfold df_col. destruct (assoc name (columns df)); split; intros; by simplify_eq.
Qed.

Lemma df_has_true (name : string) (df : DataFrame) :
  df_has name df = true ↔ is_Some (assoc name (columns df)).
Proof.
  unfold df_has. destruct (assoc name (columns df)); split; intros H;
    try done; try (by eexists); by destruct H.
Qed.

Lemma df_has_false (name : string) (df : DataFrame) :
  df_has name df = false ↔ assoc name (columns df) = None.
Proof. unfold df_has. by destruct (assoc name (columns df)). Qed.

Lemma df_col_missing (name : string) (df : DataFrame) :
  df_has name df = false → df_col name df = Err (KeyError name).
Proof. intros H%df_has_false. unfold df_col. by rewrite H. Qed.

Lemma df_set_get_eq (name : string) (c : column) (df : DataFrame) :
  assoc name (columns (df_set name c df)) = Some c.
Proof. apply assoc_set_eq. Qed.

Lemma df_set_get_ne (name name' : string) (c : column) (df : DataFrame) :
  name ≠ name' → assoc name' (columns (df_set name c df)) = assoc name' (columns df).
Proof. apply assoc_set_ne. Qed.

Lemma df_wf_lookup (df : DataFrame) (name : string) (c : column) :
  df_wf df → assoc name (columns df) = Some c → col_len c = nrows df.
Proof.
  intros Hwf H%assoc_elem. unfold df_wf in Hwf. rewrite Forall_forall in Hwf.
  by apply (Hwf (name, c)).
Qed.

Lemma assoc_set_Forall {V} (P : string * V → Prop) (k : string) (v : V)
    (d : list (string * V)) :
  P (k, v) → Forall P d → Forall P (assoc_set k v d).
Proof.
  intros Hv. induction 1 as [|[k0 v0] d Hx Hd IH]; simpl.
  - by repeat constructor.
  - destruct (String.eqb k k0); constructor; auto.
Qed.

Lemma df_wf_set (df : DataFrame) (name : string) (c : column) :
  df_wf df → col_len c = nrows df → df_wf (df_set name c df).
Proof. intros Hwf Hc. unfold df_wf, df_set; simpl. by apply assoc_set_Forall. Qed.

Lemma as_float_length (c : column) (v : list (option Q)) :
  as_float c = Ok v → length v = col_len c.
Proof. destruct c; simpl; intros; inv_ok; try done. by rewrite length_map. Qed.

Lemma df_float_Ok (name : string) (df : DataFrame) (v : list (option Q)) :
  df_float name df = Ok v ↔ ∃ c, assoc name (columns df) = Some c ∧ as_float c = Ok v.
Proof.
  unfold df_float. split.
  - intros H. inv_bind H as c Hc. apply df_col_Ok in Hc. eauto.
  - intros (c & Hc%df_col_Ok & Hv). by rewrite Hc.
Qed.

Lemma df_float_length (df : DataFrame) (name : string) (v : list (option Q)) :
  df_wf df → df_float name df = Ok v → length v = nrows df.
Proof.
  intros Hwf (c & Hc & Hv)%df_float_Ok.
  rewrite (as_float_length _ _ Hv). eauto using df_wf_lookup.
Qed.

Lemma df_float_Num (name : string) (df : DataFrame) (v : list (option Q)) :
  assoc name (columns df) = Some (Num v) → df_float name df = Ok v.
Proof. intros H. apply df_float_Ok. eauto. Qed.

(** ** Masks *)

Lemma count_true_cons (b : bool) (m : list bool) :
  count_true (b :: m) = ((if b then 1 else 0) + count_true m)%nat.
Proof. unfold count_true. by destruct b. Qed.

Lemma sel_length {A} (m : list bool) (l : list A) :
  length m = length l → length (sel m l) = count_true m.
Proof.
  revert l. induction m as [|b m IH]; intros [|x l] Hlen; simpl in *; try done.
  rewrite count_true_cons. destruct b; simpl; rewrite IH; lia.
Qed.

Lemma scatter_length {A} (m : list bool) (vals old : list A) :
  length (scatter m vals old) = length old.
Proof.
  revert vals old. induction m as [|b m IH]; intros vals [|o old]; simpl; try done.
  destruct b; [destruct vals|]; simpl; by rewrite IH.
Qed.

Lemma sel_scatter_same {A} (m : list bool) (vals old : list A) :
  length m = length old → length vals = count_true m →
  sel m (scatter m vals old) = vals.
Proof.
  revert vals old. induction m as [|b m IH]; intros vals [|o old] Hlen Hv;
    simpl in *; try done.
  { by destruct vals. }
  rewrite count_true_cons in Hv. destruct b.
  - destruct vals as [|v vals]; simpl in *; [lia|]. f_equal. apply IH; lia.
  - apply IH; lia.
Qed.

Lemma sel_scatter_disjoint {A} (m m2 : list bool) (vals old : list A) :
  Forall2 (λ a b, a && b = false) m m2 →
  sel m2 (scatter m vals old) = sel m2 old.
Proof.
  intros Hd. revert vals old.
  induction Hd as [|a b m m2 Hab Hd IH]; intros vals [|o old]; simpl; try done.
  destruct a, b; simpl in *; try done;
    try (destruct vals; simpl); by rewrite ?IH.
Qed.

Lemma station_mask_disjoint (s s' : Z) (ids : list Z) :
  s ≠ s' →
  Forall2 (λ a b, a && b = false) (station_mask s ids) (station_mask s' ids).
Proof.
  intros Hne. unfold station_mask. induction ids as [|i ids IH]; simpl; constructor; auto.
  destruct (Z.eqb_spec s i), (Z.eqb_spec s' i); simpl; congruence.
Qed.

Lemma station_mask_length (s : Z) (ids : list Z) :
  length (station_mask s ids) = length ids.
Proof. unfold station_mask. by rewrite length_map. Qed.

Lemma sel_all_true {A} (n : nat) (l : list A) :
  (length l ≤ n)%nat → sel (replicate n true) l = l.
Proof.
  revert l. induction n as [|n IH]; intros [|x l] Hlen; simpl in *; try done; try lia.
  f_equal. apply IH. lia.
Qed.

Lemma count_true_replicate (n : nat) : count_true (replicate n true) = n.
Proof. induction n as [|n IH]; simpl; [done|]. rewrite count_true_cons, IH. lia. Qed.

Lemma count_true_le (m : list bool) : (count_true m ≤ length m)%nat.
Proof.
  induction m as [|b m IH]; simpl; [done|]. rewrite count_true_cons. destruct b; lia.
Qed.

Lemma take_length_id {A} (l : list A) (n : nat) : length l = n → take n l = l.
Proof. intros <-. apply firstn_all. Qed.

(** A station that owns a row occurs in the identifier column. *)
Lemma count_true_station_mask (s : Z) (ids : list Z) :
  (0 < count_true (station_mask s ids))%nat → s ∈ ids.
Proof.
  unfold station_mask. induction ids as [|i ids IH]; simpl; [unfold count_true; simpl; lia|].
  rewrite count_true_cons. destruct (Z.eqb_spec s i) as [->|Hne].
  - intros _. by left.
  - intros H. right. apply IH. lia.
Qed.

(** ** shift *)

Lemma shift_length {A} (n : Z) (l : list (option A)) : length (shift n l) = length l.
Proof.
  unfold shift. destruct (0 <=? n).
  - rewrite length_take, length_app, length_replicate. lia.
  - rewrite length_app, length_drop, length_replicate. lia.
Qed.

(** Row [i] of the shifted series is row [i - n] of the series, and NaN
    when that row does not exist. *)
Lemma cell_at_shift {A} (n : Z) (l : list (option A)) (i : Z) :
  0 ≤ i < Z.of_nat (length l) → cell_at (shift n l) i = cell_at l (i - n).
Proof.
  intros Hi. unfold cell_at, shift.
  destruct (Z.ltb_spec i 0) as [?|_]; [lia|].
  destruct (Z.leb_spec 0 n) as [Hn|Hn].
  - rewrite lookup_take_lt by lia.
    destruct (Z.ltb_spec (i - n) 0) as [Hlt|Hge].
    + rewrite lookup_app_l by (rewrite length_replicate; lia).
      rewrite lookup_replicate_2 by lia. done.
    + rewrite lookup_app_r by (rewrite length_replicate; lia).
      rewrite length_replicate. do 2 f_equal. lia.
  - destruct (Z.ltb_spec (i - n) 0) as [?|_]; [lia|].
    destruct (decide (Z.to_nat i < length l - Z.to_nat (- n))%nat) as [Hlt|Hge].
    + rewrite lookup_app_l by (rewrite length_drop; lia).
      rewrite lookup_drop. do 2 f_equal. lia.
    + rewrite lookup_app_r by (rewrite length_drop; lia).
      rewrite length_drop, lookup_replicate_2 by lia.
      rewrite lookup_ge_None_2 by lia. done.
Qed.

Lemma cell_at_negative {A} (l : list (option A)) (i : Z) : i < 0 → cell_at l i = None.
Proof. intros Hi. unfold cell_at. by destruct (Z.ltb_spec i 0); [|lia]. Qed.

Lemma cell_at_beyond {A} (l : list (option A)) (i : Z) :
  Z.of_nat (length l) ≤ i → cell_at l i = None.
Proof.
  intros Hi. unfold cell_at. destruct (Z.ltb_spec i 0); [done|].
  by rewrite lookup_ge_None_2 by lia.
Qed.

(** ** Sorting

    Only what every sorting algorithm gives is used of [sort_by]: the rows
    come back as a permutation of the input, in key order.  Nothing below
    depends on what it does with rows of equal key. *)

Lemma take_idx_seq_app {A} (pre l : list A) :
  take_idx (seq (length pre) (length l)) (pre ++ l) = l.
Proof.
  unfold take_idx. revert pre. induction l as [|x l IH]; intros pre; simpl; [done|].
  rewrite list_lookup_middle by done. simpl. f_equal.
  specialize (IH (pre ++ [x])). rewrite length_app in IH. simpl in IH.
  rewrite <- (assoc_L (++)) in IH. simpl in IH.
  by rewrite Nat.add_1_r in IH.
Qed.

Lemma take_idx_seq {A} (l : list A) : take_idx (seq 0 (length l)) l = l.
Proof. apply (take_idx_seq_app [] l). Qed.

Lemma key_le_Z_trans (a b c : option Z) :
  key_le Z.leb a b = true → key_le Z.leb b c = true → key_le Z.leb a c = true.
Proof. destruct a, b, c; simpl; try done. rewrite !Z.leb_le. lia. Qed.

Lemma ascending_sorted (ts : list (option Z)) :
  ascending ts = true → StronglySorted (λ a b, key_le Z.leb a b = true) ts.
Proof.
  intros H. apply Sorted_StronglySorted.
  { intros a b c. apply key_le_Z_trans. }
  induction ts as [|a [|b rest] IH]; simpl in *.
  - constructor.
  - by repeat constructor.
  - apply andb_true_iff in H as [Hab Hrest]. constructor; auto.
Qed.

Lemma sel_Forall {A} (P : A → Prop) (m : list bool) (l : list A) :
  Forall P l → Forall P (sel m l).
Proof.
  intros H. revert m. induction H as [|x l Hx Hl IH]; intros [|b m]; simpl; try constructor.
  destruct b; [constructor|]; auto.
Qed.

Lemma sel_sorted {A} (R : A → A → Prop) (m : list bool) (l : list A) :
  StronglySorted R l → StronglySorted R (sel m l).
Proof.
  intros H. revert m. induction H as [|x l Hs IH Hx]; intros [|b m]; simpl; try constructor.
  destruct b; [constructor|]; auto using sel_Forall.
Qed.

Lemma sel_map {A B} (f : A → B) (m : list bool) (l : list A) :
  sel m (map f l) = map f (sel m l).
Proof.
  revert l. induction m as [|b m IH]; intros [|x l]; simpl; try done.
  destruct b; simpl; by rewrite IH.
Qed.

Lemma sel_take {A} (m : list bool) (l : list A) :
  sel (take (length l) m) l = sel m l.
Proof.
  revert l. induction m as [|b m IH]; intros [|x l]; simpl; try done.
  destruct b; simpl; by rewrite IH.
Qed.

Lemma col_take_seq (c : column) : col_take (seq 0 (col_len c)) c = c.
Proof. destruct c; simpl; by rewrite take_idx_seq. Qed.

Lemma col_sel_len (m : list bool) (c : column) :
  length m = col_len c → col_len (col_sel m c) = count_true m.
Proof. destruct c; simpl; apply sel_length. Qed.

Lemma df_filter_wf (m : list bool) (df : DataFrame) :
  df_wf df → length m = nrows df → df_wf (df_filter m df).
Proof.
  intros Hwf Hm. unfold df_wf, df_filter in *; simpl.
  rewrite Forall_map. eapply Forall_impl; [apply Hwf|].
  intros [n c] Hc; simpl in *. rewrite take_length_id by done.
  apply col_sel_len. congruence.
Qed.

Lemma df_filter_get (m : list bool) (df : DataFrame) (name : string) :
  assoc name (columns (df_filter m df)) = option_map (col_sel m) (assoc name (columns df)).
Proof. unfold df_filter; simpl. apply assoc_map_snd. Qed.

Lemma df_filter_float (m : list bool) (df : DataFrame) (name : string) (v : list (option Q)) :
  df_float name df = Ok v → df_float name (df_filter m df) = Ok (sel m v).
Proof.
  intros (c & Hc & Hv)%df_float_Ok. apply df_float_Ok.
  exists (col_sel m c). rewrite df_filter_get, Hc. split; [done|].
  destruct c; simpl in *; inv_ok; try done. by rewrite sel_map.
Qed.

Lemma key_le_Z_total (a b : option Z) :
  key_le Z.leb a b = true ∨ key_le Z.leb b a = true.
Proof. destruct a, b; simpl; auto. rewrite !Z.leb_le. lia. Qed.

Lemma key_le_Z_antisym (a b : option Z) :
  key_le Z.leb a b = true → key_le Z.leb b a = true → a = b.
Proof. destruct a, b; simpl; try done. rewrite !Z.leb_le. intros. f_equal. lia. Qed.

Lemma insert_by_Sorted {A} (le : A → A → bool) (x : A) (l : list A) :
  (∀ a b, le a b = true ∨ le b a = true) →
  Sorted (λ a b, le a b = true) l → Sorted (λ a b, le a b = true) (insert_by le x l).
Proof.
  intros Htotal. induction 1 as [|y l Hs IH Hy]; simpl; [by repeat constructor|].
  destruct (le x y) eqn:E.
  - constructor; [by constructor|]. by constructor.
  - assert (Hyx : le y x = true) by (destruct (Htotal x y); congruence).
    constructor; [done|].
    destruct l as [|z l]; simpl in *; [by constructor|].
    destruct (le x z); constructor; [done|]. by inversion Hy.
Qed.

Lemma sort_by_Sorted {A} (le : A → A → bool) (l : list A) :
  (∀ a b, le a b = true ∨ le b a = true) →
  Sorted (λ a b, le a b = true) (sort_by le l).
Proof.
  intros Htotal. unfold sort_by. induction l as [|y l IH]; simpl; [constructor|].
  by apply insert_by_Sorted.
Qed.

Lemma insert_by_Permutation {A} (le : A → A → bool) (x : A) (l : list A) :
  insert_by le x l ≡ₚ x :: l.
Proof.
  induction l as [|y l IH]; simpl; [done|].
  destruct (le x y); [done|]. rewrite IH. apply Permutation_swap.
Qed.

Lemma sort_by_Permutation {A} (le : A → A → bool) (l : list A) : sort_by le l ≡ₚ l.
Proof.
  unfold sort_by. induction l as [|y l IH]; simpl; [done|].
  by rewrite insert_by_Permutation, IH.
Qed.

Lemma sort_by_in {A} (le : A → A → bool) (x : A) (l : list A) :
  x ∈ sort_by le l → x ∈ l.
Proof. by rewrite sort_by_Permutation. Qed.

Lemma Sorted_map_snd {A B} (R : B → B → Prop) (l : list (A * B)) :
  Sorted (λ a b, R a.2 b.2) l → Sorted R (map snd l).
Proof.
  induction 1 as [|p l Hs IH Hp]; simpl; constructor; [done|].
  destruct Hp; simpl; by constructor.
Qed.

Lemma zip_seq_lookup {A} (keys : list A) (start : nat) (p : nat * A) :
  p ∈ zip (seq start (length keys)) keys → (start ≤ p.1)%nat ∧ keys !! (p.1 - start)%nat = Some p.2.
Proof.
  revert start. induction keys as [|k keys IH]; intros start Hp; simpl in Hp.
  - by apply elem_of_nil in Hp.
  - apply elem_of_cons in Hp as [->|Hp]; simpl.
    + split; [lia|]. by rewrite Nat.sub_diag.
    + destruct (IH _ Hp) as [Hle Hk]. split; [lia|].
      replace (p.1 - start)%nat with (S (p.1 - S start)) by lia. done.
Qed.

Lemma take_idx_pairs {A} (keys : list A) (l : list (nat * A)) :
  (∀ p, p ∈ l → keys !! p.1 = Some p.2) →
  take_idx (map fst l) keys = map snd l.
Proof.
  unfold take_idx. induction l as [|p l IH]; intros H; simpl; [done|].
  rewrite (H p) by by left. simpl. f_equal. apply IH. intros q Hq. apply H. by right.
Qed.

(** Taking a column in the order of its own argsort sorts it. *)
Lemma take_argsort_Sorted {A} (le : A → A → bool) (keys : list A) :
  (∀ a b, le a b = true ∨ le b a = true) →
  Sorted (λ a b, le a b = true) (take_idx (argsort le keys) keys).
Proof.
  intros Htotal. unfold argsort. rewrite take_idx_pairs.
  - apply Sorted_map_snd.
    apply (sort_by_Sorted (λ a b : nat * A, le a.2 b.2)). intros a b. apply Htotal.
  - intros p Hp%sort_by_in. destruct (zip_seq_lookup keys 0 p Hp) as [_ Hk].
    by rewrite Nat.sub_0_r in Hk.
Qed.

Lemma argsort_Permutation {A} (le : A → A → bool) (keys : list A) :
  argsort le keys ≡ₚ seq 0 (length keys).
Proof.
  unfold argsort. change (map fst ?l) with (l.*1).
  rewrite sort_by_Permutation. rewrite fst_zip; [done|]. by rewrite length_seq.
Qed.

Lemma argsort_length {A} (le : A → A → bool) (keys : list A) :
  length (argsort le keys) = length keys.
Proof. by rewrite argsort_Permutation, length_seq. Qed.

Lemma argsort_range {A} (le : A → A → bool) (keys : list A) :
  Forall (λ i, i < length keys)%nat (argsort le keys).
Proof.
  apply Forall_forall. intros i Hi. rewrite argsort_Permutation in Hi.
  apply elem_of_seq in Hi. lia.
Qed.

Lemma take_idx_Permutation {A} (idx : list nat) (l : list A) :
  idx ≡ₚ seq 0 (length l) → take_idx idx l ≡ₚ l.
Proof.
  intros H. unfold take_idx. rewrite H. fold (take_idx (seq 0 (length l)) l).
  by rewrite take_idx_seq.
Qed.

Lemma take_idx_length {A} (idx : list nat) (l : list A) :
  Forall (λ i, i < length l)%nat idx → length (take_idx idx l) = length idx.
Proof.
  unfold take_idx. induction 1 as [|i idx Hi _ IH]; simpl; [done|].
  apply lookup_lt_is_Some_2 in Hi as [x Hx]. rewrite Hx. simpl. f_equal. exact IH.
Qed.

Lemma take_idx_map {A B} (f : A → B) (idx : list nat) (l : list A) :
  take_idx idx (map f l) = map f (take_idx idx l).
Proof.
  induction idx as [|i idx IH]; [done|].
  change (take_idx (i :: idx) (map f l))
    with (match map f l !! i with
          | Some y => y :: take_idx idx (map f l)
          | None => take_idx idx (map f l)
          end).
  change (take_idx (i :: idx) l)
    with (match l !! i with Some y => y :: take_idx idx l | None => take_idx idx l end).
  rewrite list_lookup_fmap, IH. by destruct (l !! i).
Qed.

Lemma take_idx_inj {A} (l : list A) (idx1 idx2 : list nat) :
  NoDup l →
  Forall (λ i, i < length l)%nat idx1 → Forall (λ i, i < length l)%nat idx2 →
  take_idx idx1 l = take_idx idx2 l → idx1 = idx2.
Proof.
  intros Hnd H1. revert idx2. unfold take_idx.
  induction H1 as [|i idx1 Hi H1 IH]; intros idx2 H2 Heq.
  - destruct H2 as [|j idx2 Hj H2]; [done|].
    apply lookup_lt_is_Some_2 in Hj as [y Hy]. simpl in Heq. by rewrite Hy in Heq.
  - destruct H2 as [|j idx2 Hj H2].
    + apply lookup_lt_is_Some_2 in Hi as [x Hx]. simpl in Heq. by rewrite Hx in Heq.
    + apply lookup_lt_is_Some_2 in Hi as [x Hx]. apply lookup_lt_is_Some_2 in Hj as [y Hy].
      simpl in Heq. rewrite Hx, Hy in Heq. simpl in Heq. injection Heq as <- Heq.
      f_equal; [by eapply NoDup_lookup|by apply IH].
Qed.

Lemma Sorted_ascending (ts : list (option Z)) :
  Sorted (λ a b, key_le Z.leb a b = true) ts → ascending ts = true.
Proof.
  induction 1 as [|a l Hs IH Ha]; [done|].
  destruct l as [|b l]; [done|]. cbn [ascending]. apply andb_true_iff.
  split; [by inversion Ha|done].
Qed.

Lemma ascending_sel (m : list bool) (ts : list (option Z)) :
  ascending ts = true → ascending (sel m ts) = true.
Proof.
  intros H. by apply Sorted_ascending, StronglySorted_Sorted, sel_sorted, ascending_sorted.
Qed.

(** The keys in order are the same list for every sort: two orderings of
    the rows that both put the timestamps in order agree on the
    timestamps, and agree on the rows when the timestamps are distinct. *)
Lemma ascending_take_keys (ts : list (option Z)) (idx1 idx2 : list nat) :
  idx1 ≡ₚ seq 0 (length ts) → idx2 ≡ₚ seq 0 (length ts) →
  ascending (take_idx idx1 ts) = true → ascending (take_idx idx2 ts) = true →
  take_idx idx1 ts = take_idx idx2 ts.
Proof.
  intros H1 H2 Ha1 Ha2.
  assert (Hanti : AntiSymm (=) (λ a b : option Z, key_le Z.leb a b = true))
    by (intros a b; apply key_le_Z_antisym).
  apply (StronglySorted_unique (λ a b, key_le Z.leb a b = true)).
  - by apply ascending_sorted.
  - by apply ascending_sorted.
  - by rewrite !take_idx_Permutation.
Qed.

Lemma ascending_take_unique (ts : list (option Z)) (idx1 idx2 : list nat) :
  NoDup ts →
  idx1 ≡ₚ seq 0 (length ts) → idx2 ≡ₚ seq 0 (length ts) →
  ascending (take_idx idx1 ts) = true → ascending (take_idx idx2 ts) = true →
  idx1 = idx2.
Proof.
  intros Hnd H1 H2 Ha1 Ha2.
  assert (Hrange : ∀ idx, idx ≡ₚ seq 0 (length ts) → Forall (λ i, i < length ts)%nat idx).
  { intros idx H. apply Forall_forall. intros i Hi. rewrite H in Hi.
    apply elem_of_seq in Hi. lia. }
  apply (take_idx_inj ts); auto. by apply ascending_take_keys.
Qed.

Lemma argsort_ascending (ts : list (option Z)) :
  ascending (take_idx (argsort (key_le Z.leb) ts) ts) = true.
Proof. apply Sorted_ascending, take_argsort_Sorted, key_le_Z_total. Qed.

(** Timestamps that are in order stay as they are. *)
Lemma in_time_order_keys (ts : list (option Z)) :
  ascending ts = true → in_time_order ts ts = ts.
Proof.
  intros Hasc. unfold in_time_order. rewrite <- (take_idx_seq ts) at 3.
  apply ascending_take_keys.
  - apply argsort_Permutation.
  - done.
  - apply argsort_ascending.
  - by rewrite take_idx_seq.
Qed.


Lemma in_time_order_length {A} (ts : list (option Z)) (l : list A) :
  length l = length ts → length (in_time_order ts l) = length l.
Proof.
  intros Hlen. unfold in_time_order. rewrite take_idx_length.
  - by rewrite argsort_length.
  - rewrite Hlen. apply argsort_range.
Qed.

(** Any arrangement of the rows of a frame with distinct timestamps that
    puts the timestamps in order is the result of [sort_values]. *)
Lemma sort_values_order_unique (df : DataFrame) (ts : list (option Z)) (idx : list nat) :
  df_wf df →
  assoc "measured_at" (columns df) = Some (Time ts) →
  distinct_times ts = true →
  idx ≡ₚ seq 0 (nrows df) →
  ascending (take_idx idx ts) = true →
  sort_values "measured_at" df
  = Ok (mkDF (nrows df) (map (λ nc, (nc.1, col_take idx nc.2)) (columns df))).
Proof.
  intros Hwf Hts Hnd%bool_decide_eq_true Hidx Hasc.
  assert (Hn : length ts = nrows df) by apply (df_wf_lookup df _ _ Hwf Hts).
  unfold sort_values, df_col. rewrite Hts. cbn [bind col_argsort].
  rewrite (ascending_take_unique ts (argsort (key_le Z.leb) ts) idx); trivial.
  - apply argsort_Permutation.
  - by rewrite Hn.
  - apply argsort_ascending.
Qed.

(** The frame sorted by time: its timestamps, when those of the input
    are in order already, and its float columns. *)
Lemma sorted_frame (df sorted : DataFrame) (ts : list (option Z)) :
  assoc "measured_at" (columns df) = Some (Time ts) →
  sort_values "measured_at" df = Ok sorted →
  nrows sorted = nrows df
  ∧ assoc "measured_at" (columns sorted) = Some (Time (in_time_order ts ts))
  ∧ ∀ name v, df_float name df = Ok v → df_float name sorted = Ok (in_time_order ts v).
Proof.
  intros Hts H. unfold sort_values, df_col in H. rewrite Hts in H. cbn [bind col_argsort] in H.
  inv_ok. split; [done|]. split.
  - simpl. by rewrite assoc_map_snd, Hts.
  - intros name v (c & Hc & Hv)%df_float_Ok. apply df_float_Ok.
    exists (col_take (argsort (key_le Z.leb) ts) c). split.
    + simpl. by rewrite assoc_map_snd, Hc.
    + unfold in_time_order. destruct c; simpl in *; inv_ok; try done.
      by rewrite take_idx_map.
Qed.

Lemma sort_values_time_Ok (df : DataFrame) (ts : list (option Z)) :
  assoc "measured_at" (columns df) = Some (Time ts) →
  ∃ sorted, sort_values "measured_at" df = Ok sorted.
Proof. intros Hts. unfold sort_values, df_col. rewrite Hts. by eexists. Qed.

(** The interval detected on a frame sorted by time whose input was in
    order already. *)
Lemma sorted_frame_interval (df sorted : DataFrame) (ts : list (option Z)) :
  assoc "measured_at" (columns df) = Some (Time ts) →
  ascending ts = true →
  sort_values "measured_at" df = Ok sorted →
  detect_periods_per_hour sorted
  = Ok (periods_per_hour (mode_interval (time_diffs ts))).
Proof.
  intros Hts Hasc Hsort. destruct (sorted_frame _ _ _ Hts Hsort) as (_ & Hts' & _).
  unfold detect_periods_per_hour, df_time, df_col. rewrite Hts'. cbn [bind].
  by rewrite in_time_order_keys.
Qed.

(** The rows of one station, sorted by time, of a frame in time order. *)
Lemma sorted_station_frame (df : DataFrame) (ts : list (option Z)) (m : list bool) :
  df_wf df → length m = nrows df →
  assoc "measured_at" (columns df) = Some (Time ts) →
  ascending ts = true →
  ∃ station_df,
    sort_values "measured_at" (df_filter m df) = Ok station_df
    ∧ nrows station_df = count_true m
    ∧ detect_periods_per_hour station_df
      = Ok (periods_per_hour (mode_interval (time_diffs (sel m ts))))
    ∧ ∀ name v, df_float name df = Ok v →
        df_float name station_df = Ok (in_time_order (sel m ts) (sel m v)).
Proof.
  intros Hwf Hm Hts Hasc.
  assert (Hts' : assoc "measured_at" (columns (df_filter m df)) = Some (Time (sel m ts)))
    by (by rewrite df_filter_get, Hts).
  destruct (sort_values_time_Ok _ _ Hts') as [station_df Hsort].
  destruct (sorted_frame _ _ _ Hts' Hsort) as (Hn & _ & Hfloat).
  exists station_df. split; [done|].
  split; [rewrite Hn; unfold df_filter; simpl; by rewrite take_length_id|].
  split; [apply (sorted_frame_interval _ _ _ Hts'); [by apply ascending_sel|done]|].
  intros name v Hv. by apply Hfloat, df_filter_float.
Qed.

(** ** Masked assignments *)

Lemma station_rows_length {A} (s : Z) (ids : list Z) (ts : list (option Z)) (l : list A) :
  length ids = length ts → length l = length ts →
  length (in_time_order (sel (station_mask s ids) ts) (sel (station_mask s ids) l))
  = count_true (station_mask s ids).
Proof.
  intros Hids Hl.
  assert (Hts : length (sel (station_mask s ids) ts) = count_true (station_mask s ids))
    by (apply sel_length; rewrite station_mask_length; congruence).
  assert (Hsel : length (sel (station_mask s ids) l) = count_true (station_mask s ids))
    by (apply sel_length; rewrite station_mask_length; congruence).
  rewrite in_time_order_length; congruence.
Qed.


Lemma ensure_col_nrows (name : string) (df : DataFrame) :
  nrows (ensure_col name df) = nrows df.
Proof. unfold ensure_col. by destruct (df_has name df). Qed.

Lemma ensure_col_wf (name : string) (df : DataFrame) :
  df_wf df → df_wf (ensure_col name df).
Proof.
  intros Hwf. unfold ensure_col. destruct (df_has name df); [done|].
  apply df_wf_set; [done|]. simpl. by rewrite length_replicate.
Qed.

Lemma ensure_col_other (name name' : string) (df : DataFrame) :
  name ≠ name' →
  assoc name' (columns (ensure_col name df)) = assoc name' (columns df).
Proof.
  intros Hne. unfold ensure_col. destruct (df_has name df); [done|].
  by apply df_set_get_ne.
Qed.

Lemma ensure_col_same (name : string) (df : DataFrame) (c : column) :
  assoc name (columns df) = Some c →
  assoc name (columns (ensure_col name df)) = Some c.
Proof.
  intros Hc. unfold ensure_col, df_has. by rewrite Hc.
Qed.

(** What one assignment does to the frame. *)
Lemma assign_rows_Ok (mask : list bool) (df df' : DataFrame) (n : string)
    (v : list (option Q)) :
  assign_rows mask df (n, v) = Ok df' →
  nrows df' = nrows df
  ∧ (∀ n', n ≠ n' → assoc n' (columns df') = assoc n' (columns df))
  ∧ (∃ old, assoc n (columns df') = Some (Num (scatter mask v old))
            ∧ (df_wf df → length old = nrows df)
            ∧ (∀ c, assoc n (columns df) = Some (Num c) → old = c)).
Proof.
  unfold assign_rows, df_loc_set; simpl. intros H. inv_bind H as old Hold. inv_ok.
  split; [apply ensure_col_nrows|]. split.
  - intros n' Hne. rewrite df_set_get_ne by done. by apply ensure_col_other.
  - exists old. split; [apply df_set_get_eq|]. split.
    + intros Hwf. rewrite <- (ensure_col_nrows n df).
      eapply df_float_length; [|done]. by apply ensure_col_wf.
    + intros c Hc. apply (ensure_col_same n) in Hc.
      apply df_float_Num in Hc. congruence.
Qed.

Lemma assign_rows_wf (mask : list bool) (df df' : DataFrame)
    (job : string * list (option Q)) :
  df_wf df → assign_rows mask df job = Ok df' → df_wf df'.
Proof.
  intros Hwf H. unfold assign_rows, df_loc_set in H. inv_bind H as old Hold. inv_ok.
  apply df_wf_set; [by apply ensure_col_wf|]. simpl. rewrite scatter_length.
  eapply df_float_length; [|done]. by apply ensure_col_wf.
Qed.

Lemma assign_loop_frame (mask : list bool) (jobs : list (string * list (option Q)))
    (df df' : DataFrame) :
  foldM (assign_rows mask) df jobs = Ok df' →
  nrows df' = nrows df
  ∧ (df_wf df → df_wf df')
  ∧ (∀ n, n ∉ jobs.*1 → assoc n (columns df') = assoc n (columns df)).
Proof.
  revert df. induction jobs as [|[n v] jobs IH]; intros df H; simpl in H.
  - inv_ok. done.
  - inv_bind H as d1 Hd1. destruct (IH _ H) as (Hn & Hwf & Hother).
    destruct (assign_rows_Ok _ _ _ _ _ Hd1) as (Hn1 & Hother1 & _).
    split; [congruence|]. split.
    + intros ?. apply Hwf. eapply assign_rows_wf; eauto.
    + intros n' Hn'. rewrite fmap_cons, not_elem_of_cons in Hn'. simpl in Hn'.
      destruct Hn' as [Hne Hn']. rewrite Hother by done. apply Hother1. congruence.
Qed.

(** Rows outside the mask keep their values. *)
Lemma assign_loop_other_rows (mask mask2 : list bool)
    (jobs : list (string * list (option Q))) (df df' : DataFrame) (n : string)
    (c : list (option Q)) :
  foldM (assign_rows mask) df jobs = Ok df' →
  Forall2 (λ a b, a && b = false) mask mask2 →
  assoc n (columns df) = Some (Num c) →
  ∃ c', assoc n (columns df') = Some (Num c') ∧ sel mask2 c' = sel mask2 c.
Proof.
  intros H Hd. revert df c H. induction jobs as [|[n1 v] jobs IH]; intros df c H Hc;
    simpl in H.
  - inv_ok. eauto.
  - inv_bind H as d1 Hd1.
    destruct (assign_rows_Ok _ _ _ _ _ Hd1) as (_ & Hother1 & old & Hnew & _ & Hold).
    destruct (decide (n1 = n)) as [->|Hne].
    + specialize (Hold _ Hc) as ->.
      destruct (IH _ _ H Hnew) as (c' & Hc' & Hsel). exists c'. split; [done|].
      rewrite Hsel. by apply sel_scatter_disjoint.
    + apply (IH d1 c H). rewrite Hother1 by done. done.
Qed.

(** The rows of the mask hold the values of the job. *)
Lemma assign_loop_rows (mask : list bool) (jobs : list (string * list (option Q)))
    (df df' : DataFrame) (n : string) (v : list (option Q)) :
  foldM (assign_rows mask) df jobs = Ok df' →
  df_wf df → length mask = nrows df →
  (∀ v', (n, v') ∈ jobs → v' = v) →
  length v = count_true mask →
  (n, v) ∈ jobs ∨ (∃ c, assoc n (columns df) = Some (Num c) ∧ sel mask c = v) →
  ∃ c, assoc n (columns df') = Some (Num c) ∧ sel mask c = v.
Proof.
  intros H Hwf Hm Hsame Hv. revert df H Hwf Hm.
  induction jobs as [|[n1 v1] jobs IH]; intros df H Hwf Hm Hstart; simpl in H.
  - inv_ok. destruct Hstart as [Hin|?]; [|done]. by apply elem_of_nil in Hin.
  - inv_bind H as d1 Hd1.
    destruct (assign_rows_Ok _ _ _ _ _ Hd1) as (Hn1 & Hother1 & old & Hnew & Hlen & _).
    assert (Hwf1 : df_wf d1) by eauto using assign_rows_wf.
    apply (IH (λ v' Hin, Hsame v' (list_elem_of_further _ _ _ Hin)) d1 H Hwf1);
      [congruence|].
    destruct (decide (n1 = n)) as [->|Hne].
    + right. rewrite (Hsame v1) in * by (by left).
      eexists. split; [done|]. apply sel_scatter_same; [|done].
      rewrite Hlen by done. done.
    + destruct Hstart as [Hin|(c & Hc & Hsel)].
      * left. apply elem_of_cons in Hin as [Heq|Hin]; [congruence|done].
      * right. exists c. by rewrite Hother1.
Qed.

(** ** Column names *)

Lemma dec_inj (a b : Z) : dec a = dec b → a = b.
Proof.
  unfold dec. intros H. apply to_int_inj.
  assert (Hnz : ∀ z, Z.to_int z ≠ Decimal.Pos Decimal.Nil ∧ Z.to_int z ≠ Decimal.Neg Decimal.Nil).
  { intros z. pose proof (to_of (Z.to_int z)) as Hn. rewrite of_to in Hn.
    split; intros Heq; rewrite Heq in Hn; discriminate Hn. }
  pose proof (NilZero.isi _ (proj1 (Hnz a)) (proj2 (Hnz a))) as Ha.
  pose proof (NilZero.isi _ (proj1 (Hnz b)) (proj2 (Hnz b))) as Hb.
  rewrite H in Ha. congruence.
Qed.

Lemma append_inj_l (p s1 s2 : string) : p +:+ s1 = p +:+ s2 → s1 = s2.
Proof. induction p as [|c p IH]; simpl; [done|]. intros H. injection H as H. auto. Qed.

Lemma append_length (s t : string) :
  String.length (s +:+ t) = (String.length s + String.length t)%nat.
Proof. induction s as [|c s IH]; simpl; [done|]. by rewrite IH. Qed.

Lemma append_inj_r (s1 s2 t : string) : s1 +:+ t = s2 +:+ t → s1 = s2.
Proof.
  intros H.
  assert (Hlen : String.length s1 = String.length s2).
  { apply (f_equal String.length) in H. rewrite !append_length in H. lia. }
  revert s2 H Hlen. induction s1 as [|c s1 IH]; intros [|c2 s2] H Hlen; simpl in *;
    try done.
  injection H as -> H. f_equal. apply IH; [done|lia].
Qed.


Lemma target_name_inj (a b : Z) : target_name a = target_name b → a = b.
Proof.
  unfold target_name. intros H%append_inj_l%append_inj_r. by apply dec_inj.
Qed.





Lemma rolling_mean_name_base (a : Z) :
  rolling_mean_name a ∉ ["station_id"; "measured_at"; "water_level"].
Proof.
  unfold rolling_mean_name. rewrite !not_elem_of_cons. simpl.
  repeat split; try discriminate. apply not_elem_of_nil.
Qed.

Lemma rolling_std_name_base (a : Z) :
  rolling_std_name a ∉ ["station_id"; "measured_at"; "water_level"].
Proof.
  unfold rolling_std_name. rewrite !not_elem_of_cons. simpl.
  repeat split; try discriminate. apply not_elem_of_nil.
Qed.

Lemma target_name_base (a : Z) :
  target_name a ∉ ["station_id"; "measured_at"; "water_level"].
Proof.
  unfold target_name. rewrite !not_elem_of_cons. simpl.
  repeat split; try discriminate. apply not_elem_of_nil.
Qed.

(** ** Station groups *)

Lemma unique_elem (x : Z) (l : list Z) : x ∈ unique l ↔ x ∈ l.
Proof.
  induction l as [|y l IH]; simpl; [done|].
  rewrite !elem_of_cons, list_elem_of_filter, IH.
  destruct (decide (x = y)) as [->|Hne]; [by split; left|].
  split; [intros [?|[_ ?]]|intros [?|?]]; auto.
Qed.

Lemma unique_NoDup (l : list Z) : NoDup (unique l).
Proof.
  induction l as [|y l IH]; simpl; constructor.
  - rewrite list_elem_of_filter. by intros [Hne _].
  - by apply NoDup_filter.
Qed.

(** With at most one distinct station every row belongs to it. *)
Lemma single_station_mask (s : Z) (ids : list Z) :
  (length (unique ids) ≤ 1)%nat → s ∈ ids →
  station_mask s ids = replicate (length ids) true.
Proof.
  intros Hu Hs. destruct ids as [|i ids]; [by apply elem_of_nil in Hs|].
  simpl in Hu. assert (Hnil : filter (λ y, y ≠ i) (unique ids) = []).
  { destruct (filter _ _); [done|simpl in Hu; lia]. }
  assert (Hall : ∀ x, x ∈ i :: ids → x = i).
  { intros x [->|Hx]%elem_of_cons; [done|].
    destruct (decide (x = i)) as [|Hne]; [done|].
    assert (x ∈ filter (λ y, y ≠ i) (unique ids)) as Hin
      by (apply list_elem_of_filter; split; [done|by apply unique_elem]).
    rewrite Hnil in Hin. by apply elem_of_nil in Hin. }
  rewrite (Hall s Hs). unfold station_mask.
  assert (Hall' : Forall (λ x, x = i) (i :: ids)) by (by apply Forall_forall).
  clear -Hall'. induction Hall' as [|x l -> _ IH]; simpl; [done|].
  by rewrite Z.eqb_refl, IH.
Qed.

(** ** The per-station loops

    The lag, rolling and rate-of-change transforms run, for each station,
    a sequence of masked assignments computed from the station's
    [measured_at] and [water_level].  Stations own disjoint rows, so after
    the loop every station's rows hold the values of its own pass. *)

Section station_loop.
Variable pass : DataFrame → Z → result DataFrame.
Variable df0 : DataFrame.
Variable ids : list Z.
Variable jobs_of : Z → list (string * list (option Q)) → Prop.

Hypothesis ids_len : length ids = nrows df0.
Hypothesis pass_spec : ∀ d s d',
  (∀ n, n ∈ ["station_id"; "measured_at"; "water_level"] →
        assoc n (columns d) = assoc n (columns df0)) →
  df_wf d → nrows d = nrows df0 → pass d s = Ok d' →
  ∃ jobs, jobs_of s jobs ∧ foldM (assign_rows (station_mask s ids)) d jobs = Ok d'.
Hypothesis jobs_ok : ∀ s jobs, jobs_of s jobs →
  Forall (λ j, (j.1 ∉ ["station_id"; "measured_at"; "water_level"])
               ∧ length j.2 = count_true (station_mask s ids)) jobs.

Lemma station_loop_result (stations : list Z) (df' : DataFrame) :
  NoDup stations → df_wf df0 → foldM pass df0 stations = Ok df' →
  (∀ n, n ∈ ["station_id"; "measured_at"; "water_level"] →
        assoc n (columns df') = assoc n (columns df0))
  ∧ df_wf df' ∧ nrows df' = nrows df0
  ∧ ∀ s, s ∈ stations → ∃ jobs, jobs_of s jobs ∧
      ∀ n v, (n, v) ∈ jobs → (∀ v', (n, v') ∈ jobs → v' = v) →
        ∃ c, assoc n (columns df') = Some (Num c) ∧ sel (station_mask s ids) c = v.
Proof.
  intros Hnd Hwf0. revert df' Hnd.
  induction stations as [|s stations IH] using rev_ind; intros df' Hnd Hrun.
  - simpl in Hrun. inv_ok. repeat split; auto.
    intros s Hs. by apply elem_of_nil in Hs.
  - rewrite foldM_app in Hrun. inv_bind Hrun as d1 Hd1. simpl in Hrun.
    inv_bind Hrun as d2 Hd2. inv_ok.
    apply NoDup_app in Hnd as (Hnd & Hfresh & _).
    destruct (IH d1 Hnd Hd1) as (Hbase & Hwf1 & Hn1 & Hdone).
    destruct (pass_spec d1 s df' Hbase Hwf1 Hn1 Hd2) as (jobs & Hjobs & Hfold).
    pose proof (jobs_ok s jobs Hjobs) as Hok. rewrite Forall_forall in Hok.
    destruct (assign_loop_frame _ _ _ _ Hfold) as (Hn2 & Hwf2 & Hother).
    split; [|split; [auto|split; [congruence|]]].
    + intros n Hn. rewrite Hother; [by apply Hbase|].
      intros ([n' v'] & -> & Hin)%list_elem_of_fmap. by apply (Hok _ Hin).
    + intros s' [Hs'|Hs']%elem_of_app.
      * destruct (Hdone s' Hs') as (jobs' & Hjobs' & Hcols).
        exists jobs'. split; [done|]. intros n v Hin Hsame.
        destruct (Hcols n v Hin Hsame) as (c & Hc & Hsel).
        destruct (assign_loop_other_rows _ (station_mask s' ids) _ _ _ n c Hfold)
          as (c' & Hc' & Hsel'); [|done|].
        { apply station_mask_disjoint. intros ->. apply (Hfresh s'); [done|]. by left. }
        exists c'. split; [done|congruence].
      * apply list_elem_of_singleton in Hs' as ->.
        exists jobs. split; [done|]. intros n v Hin Hsame.
        eapply assign_loop_rows; eauto.
        -- rewrite station_mask_length. congruence.
        -- by apply (Hok _ Hin).
Qed.
End station_loop.

(** Facts about a frame that agrees with [df0] on the columns the loops
    read. *)
Lemma same_base_float (df0 d : DataFrame) (name : string) :
  assoc name (columns d) = assoc name (columns df0) →
  df_float name d = df_float name df0.
Proof. intros H. unfold df_float, df_col. by rewrite H. Qed.

Lemma station_ids_Ok (df : DataFrame) (ids : list Z) :
  station_ids df = Ok ids ↔ assoc "station_id" (columns df) = Some (Int ids).
Proof.
  unfold station_ids, df_col. destruct (assoc "station_id" (columns df)) as [[]|]; simpl;
    split; intros; by simplify_eq.
Qed.

Lemma df_filter_nrows (m : list bool) (df : DataFrame) :
  length m = nrows df → nrows (df_filter m df) = count_true m.
Proof. intros Hm. unfold df_filter; simpl. by rewrite take_length_id. Qed.

(** ** Lag features *)





Lemma has_multiple_true (df : DataFrame) :
  has_multiple_stations df = Ok true →
  ∃ ids, assoc "station_id" (columns df) = Some (Int ids) ∧ (1 < length (unique ids))%nat.
Proof.
  unfold has_multiple_stations. destruct (df_has "station_id" df); [|discriminate].
  intros H. inv_bind H as ids Hids. inv_ok. exists ids.
  split; [by apply station_ids_Ok|]. by apply Nat.ltb_lt.
Qed.

Lemma has_multiple_false (df : DataFrame) (s : Z) :
  has_multiple_stations df = Ok false → df_wf df →
  (0 < count_true (group_mask s df))%nat →
  group_mask s df = replicate (nrows df) true.
Proof.
  unfold has_multiple_stations, group_mask. intros H Hwf Hcount.
  destruct (df_has "station_id" df) eqn:Hhas.
  - inv_bind H as ids Hids. inv_ok. apply station_ids_Ok in Hids.
    rewrite Hids in *. apply Nat.ltb_ge in H.
    rewrite single_station_mask; [|done|by apply count_true_station_mask].
    f_equal. apply (df_wf_lookup df _ _ Hwf Hids).
  - apply df_has_false in Hhas. by rewrite Hhas.
Qed.


(** The product is truncated as the double it is.  At an 11-minute
    interval [60 / 11] is rounded down and eleven hours are 59 periods,
    where the exact quotient gives 60; at 15 minutes one hour is 4
    periods.  A zero interval gives an infinity, which [int] refuses. *)
Lemma to_periods_on_doubles :
  to_periods 11 (periods_per_hour 11) = Ok 59
  ∧ to_periods 13 (periods_per_hour 13) = Ok 59
  ∧ to_periods 11 (periods_per_hour 22) = Ok 29
  ∧ to_periods 1 (periods_per_hour 15) = Ok 4
  ∧ to_periods 2 (periods_per_hour 45) = Ok 2
  ∧ to_periods 3 (periods_per_hour 0) = Err OverflowError
  ∧ to_periods 0 (periods_per_hour 0)
    = Err (ValueError "cannot convert float NaN to integer").
Proof. repeat split; vm_compute; reflexivity. Qed.




(** ** Grouped transforms *)

Lemma group_loop (ids : list Z) (g : list (option Q) → list (option Q))
    (col : list (option Q)) (stations : list Z) (acc res : list (option Q)) :
  (∀ l, length (g l) = length l) →
  length ids = length col → length acc = length col →
  NoDup stations →
  foldM (λ acc sid, let* vals := Ok (g (sel (station_mask sid ids) col)) in
                    Ok (scatter (station_mask sid ids) vals acc)) acc stations = Ok res →
  length res = length col
  ∧ (∀ s, s ∈ stations → sel (station_mask s ids) res = g (sel (station_mask s ids) col))
  ∧ (∀ m2, (∀ s, s ∈ stations → Forall2 (λ a b, a && b = false) (station_mask s ids) m2) →
           sel m2 res = sel m2 acc).
Proof.
  intros Hg Hids Hacc. revert res.
  induction stations as [|s stations IH] using rev_ind; intros res Hnd H.
  - simpl in H. inv_ok. repeat split; auto. intros s Hs. by apply elem_of_nil in Hs.
  - rewrite foldM_app in H. inv_bind H as r1 Hr1. simpl in H. inv_ok.
    apply NoDup_app in Hnd as (Hnd & Hfresh & _).
    destruct (IH r1 Hnd Hr1) as (Hlen & Hdone & Hother).
    split; [by rewrite scatter_length|]. split.
    + intros s' [Hs'|Hs']%elem_of_app.
      * rewrite sel_scatter_disjoint; [by apply Hdone|].
        apply station_mask_disjoint. intros ->. apply (Hfresh s'); [done|]. by left.
      * apply list_elem_of_singleton in Hs' as ->.
        apply sel_scatter_same.
        -- rewrite station_mask_length. congruence.
        -- rewrite Hg. apply sel_length. rewrite station_mask_length. congruence.
    + intros m2 Hm2. rewrite sel_scatter_disjoint.
      * apply Hother. intros s' Hs'. apply Hm2, elem_of_app. by left.
      * apply Hm2, elem_of_app. right. by left.
Qed.

(** Each station's rows of the result are the transform of that station's
    rows. *)
Lemma group_transform_rows (ids : list Z) (g : list (option Q) → list (option Q))
    (col res : list (option Q)) :
  (∀ l, length (g l) = length l) →
  length ids = length col →
  group_transform ids (λ l, Ok (g l)) col = Ok res →
  length res = length col
  ∧ ∀ s, s ∈ ids → sel (station_mask s ids) res = g (sel (station_mask s ids) col).
Proof.
  intros Hg Hids H. unfold group_transform in H.
  destruct (group_loop ids g col (unique ids) (replicate (length col) None) res Hg Hids)
    as (Hlen & Hrows & _); auto using unique_NoDup, length_replicate.
  split; [done|]. intros s Hs. by apply Hrows, unique_elem.
Qed.

Lemma has_multiple_same (df0 d : DataFrame) :
  assoc "station_id" (columns d) = assoc "station_id" (columns df0) →
  has_multiple_stations d = has_multiple_stations df0.
Proof.
  intros H. unfold has_multiple_stations, df_has, station_ids, df_col. by rewrite H.
Qed.

Lemma group_mask_same (df0 d : DataFrame) (s : Z) :
  assoc "station_id" (columns d) = assoc "station_id" (columns df0) →
  nrows d = nrows df0 →
  group_mask s d = group_mask s df0.
Proof. intros H Hn. unfold group_mask. by rewrite H, Hn. Qed.

Lemma group_mask_length (df : DataFrame) (s : Z) :
  df_wf df → length (group_mask s df) = nrows df.
Proof.
  intros Hwf. unfold group_mask.
  destruct (assoc "station_id" (columns df)) as [[]|] eqn:E;
    rewrite ?length_replicate; try done.
  rewrite station_mask_length. apply (df_wf_lookup df _ _ Hwf E).
Qed.

(** ** Target constructor *)

Lemma target_step_col (multi : bool) (d d' : DataFrame) (h : Z) (wl : list (option Q)) :
  df_wf d →
  has_multiple_stations d = Ok multi →
  df_float "water_level" d = Ok wl →
  target_step multi d h = Ok d' →
  ∃ col, d' = df_set (target_name h) (Num col) d
         ∧ length col = nrows d
         ∧ ∀ s, (0 < count_true (group_mask s d))%nat →
                sel (group_mask s d) col
                = shift (- (h / data_interval_minutes)) (sel (group_mask s d) wl).
Proof.
  intros Hwf Hmulti Hwl H. unfold target_step in H.
  assert (Hwl_len : length wl = nrows d) by eauto using df_float_length.
  inv_bind H as vals Hvals. inv_ok. exists vals. split; [done|].
  destruct multi.
  - destruct (has_multiple_true _ Hmulti) as (ids & Hids & _).
    rewrite (proj2 (station_ids_Ok d ids) Hids), Hwl in Hvals. cbn [bind] in Hvals.
    assert (Hids_len : length ids = nrows d) by apply (df_wf_lookup d _ _ Hwf Hids).
    apply group_transform_rows in Hvals as [Hlen Hrows];
      [|intros; apply shift_length|congruence].
    split; [congruence|]. intros s Hs.
    unfold group_mask in *. rewrite Hids in *.
    apply Hrows. by apply count_true_station_mask.
  - rewrite Hwl in Hvals. cbn [bind] in Hvals. inv_ok.
    split; [by rewrite shift_length|]. intros s Hs.
    rewrite (has_multiple_false d s) by done.
    rewrite !sel_all_true; [done|lia|rewrite shift_length; lia].
Qed.

Lemma target_loop (multi : bool) (df0 : DataFrame) (wl : list (option Q))
    (horizons : list Z) (h : Z) (d d' : DataFrame) :
  has_multiple_stations df0 = Ok multi →
  df_float "water_level" df0 = Ok wl →
  (∀ n, n ∈ ["station_id"; "measured_at"; "water_level"] →
        assoc n (columns d) = assoc n (columns df0)) →
  nrows d = nrows df0 → df_wf d →
  foldM (target_step multi) d horizons = Ok d' →
  h ∈ horizons
  ∨ (∃ col, assoc (target_name h) (columns d) = Some (Num col)
            ∧ ∀ s, (0 < count_true (group_mask s df0))%nat →
                   sel (group_mask s df0) col
                   = shift (- (h / data_interval_minutes)) (sel (group_mask s df0) wl)) →
  ∃ col, assoc (target_name h) (columns d') = Some (Num col)
         ∧ ∀ s, (0 < count_true (group_mask s df0))%nat →
                sel (group_mask s df0) col
                = shift (- (h / data_interval_minutes)) (sel (group_mask s df0) wl).
Proof.
  intros Hmulti Hwl. revert d.
  induction horizons as [|h1 horizons IH]; intros d Hbase Hn Hwf H Hstart; simpl in H.
  - inv_ok. destruct Hstart as [Hin|?]; [|done]. by apply elem_of_nil in Hin.
  - inv_bind H as d1 Hd1.
    assert (Hsid : assoc "station_id" (columns d) = assoc "station_id" (columns df0))
      by (apply Hbase; by left).
    assert (Hwl' : df_float "water_level" d = Ok wl).
    { rewrite <- Hwl. apply same_base_float, Hbase. right. right. by left. }
    destruct (target_step_col multi d d1 h1 wl) as (col1 & -> & Hlen1 & Hcol1); auto.
    { by rewrite (has_multiple_same df0 d). }
    refine (IH _ _ _ _ H _).
    + intros n Hn'. rewrite df_set_get_ne; [by apply Hbase|].
      intros Heq. apply (target_name_base h1). by rewrite Heq.
    + done.
    + apply df_wf_set; [done|exact Hlen1].
    + destruct (decide (target_name h1 = target_name h)) as [Heq|Hne].
      * right. apply target_name_inj in Heq as ->. exists col1.
        split; [apply df_set_get_eq|]. intros s Hs.
        rewrite <- (group_mask_same df0 d s) in * by done. by apply Hcol1.
      * destruct Hstart as [Hin|(col & Hc & Hsel)].
        -- left. apply elem_of_cons in Hin as [->|Hin]; done.
        -- right. exists col. by rewrite df_set_get_ne.
Qed.

(** C2.  For every requested horizon [h] the target constructor sets
    [target_{h}min] at row [t] of a station group to the [water_level] of
    row [t + h // 15] of the same group (the 15-minute grid is fixed,
    whatever interval the station reports at), and to null when that row
    does not exist. *)
Theorem target_is_future_water_level
    (df df' : DataFrame) (config hz : json) (horizons : list Z)
    (wl : list (option Q)) (s h : Z) :
  df_wf df →
  df_float "water_level" df = Ok wl →
  dict_get config "prediction_horizons" (ints [15; 30; 45; 60; 90]) = Ok hz →
  as_int_list hz = Ok horizons →
  h ∈ horizons →
  create_targets df config = Ok df' →
  ∃ col,
    assoc (target_name h) (columns df') = Some (Num col)
    ∧ (∀ t, 0 ≤ t < Z.of_nat (count_true (group_mask s df)) →
            cell_at (sel (group_mask s df) col) t
            = cell_at (sel (group_mask s df) wl) (t + h / 15))
    ∧ (∀ t, 0 ≤ t < Z.of_nat (count_true (group_mask s df)) →
            Z.of_nat (count_true (group_mask s df)) ≤ t + h / 15 →
            cell_at (sel (group_mask s df) col) t = None).
Proof.
  intros Hwf Hwl Hhz Hhs Hh H.
  assert (Hwl_len : length wl = nrows df) by eauto using df_float_length.
  unfold create_targets in H. rewrite Hhz in H. cbn [bind] in H.
  inv_bind H as multi Hmulti. rewrite Hhs in H. cbn [bind] in H.
  destruct (target_loop multi df wl horizons h df df' Hmulti Hwl) as (col & Hcol & Hsel);
    auto.
  exists col. split; [done|].
  assert (Hl : length (sel (group_mask s df) wl) = count_true (group_mask s df)).
  { apply sel_length. rewrite group_mask_length by done. congruence. }
  assert (Hcell : ∀ t, 0 ≤ t < Z.of_nat (count_true (group_mask s df)) →
            cell_at (sel (group_mask s df) col) t
            = cell_at (sel (group_mask s df) wl) (t + h / 15)).
  { intros t Ht. rewrite Hsel by lia. rewrite cell_at_shift by lia.
    unfold data_interval_minutes. f_equal. lia. }
  split; [done|]. intros t Ht Hbeyond. rewrite Hcell by done.
  apply cell_at_beyond. lia.
Qed.

(** The theorem at station 2 of [frame_two_stations] and the 30-minute
    horizon. *)
Lemma target_is_future_water_level_witness :
  ∃ col,
    assoc (target_name 30)
          (columns (ok_or frame_two_stations
                          (create_targets frame_two_stations horizons_30_45)))
    = Some (Num col)
    ∧ (∀ t, 0 ≤ t < Z.of_nat (count_true (group_mask 2 frame_two_stations)) →
            cell_at (sel (group_mask 2 frame_two_stations) col) t
            = cell_at (sel (group_mask 2 frame_two_stations)
                           [level 10; level 20; level 11; level 12; level 21; level 13;
                            level 14; level 22; level 15; level 16]) (t + 30 / 15))
    ∧ (∀ t, 0 ≤ t < Z.of_nat (count_true (group_mask 2 frame_two_stations)) →
            Z.of_nat (count_true (group_mask 2 frame_two_stations)) ≤ t + 30 / 15 →
            cell_at (sel (group_mask 2 frame_two_stations) col) t = None).
Proof.
  apply (target_is_future_water_level frame_two_stations _ horizons_30_45
           (ints [30; 45]) [30; 45]).
  - repeat constructor.
  - reflexivity.
  - reflexivity.
  - reflexivity.
  - apply list_elem_of_here.
  - vm_compute. reflexivity.
Defined.

(** ** Interval estimator *)

Lemma insert_by_elem {A} (le : A → A → bool) (a x : A) (l : list A) :
  x ∈ insert_by le a l ↔ x = a ∨ x ∈ l.
Proof.
  induction l as [|y l IH]; simpl.
  - rewrite list_elem_of_singleton, elem_of_nil. tauto.
  - destruct (le a y); rewrite !elem_of_cons; [tauto|]. rewrite IH. tauto.
Qed.

Lemma sort_by_elem {A} (le : A → A → bool) (x : A) (l : list A) :
  x ∈ sort_by le l ↔ x ∈ l.
Proof.
  unfold sort_by. induction l as [|y l IH]; simpl; [done|].
  rewrite insert_by_elem, elem_of_cons, IH. tauto.
Qed.

Lemma insert_by_sorted (a : Q) (l : list Q) :
  StronglySorted Qle l → StronglySorted Qle (insert_by Qle_bool a l).
Proof.
  induction 1 as [|y l Hs IH Hy]; simpl; [by repeat constructor|].
  destruct (Qle_bool a y) eqn:E.
  - apply Qle_bool_iff in E. constructor; [by constructor|].
    constructor; [done|]. eapply Forall_impl; [exact Hy|].
    intros z Hz. by apply Qle_trans with y.
  - assert (Hya : Qle y a).
    { apply Qlt_le_weak, Qnot_le_lt. intros Hle. apply Qle_bool_iff in Hle. congruence. }
    constructor; [done|]. apply Forall_forall. intros z Hz.
    apply insert_by_elem in Hz as [->|Hz]; [done|].
    rewrite Forall_forall in Hy. by apply Hy.
Qed.

Lemma sort_by_Qle_sorted (l : list Q) : StronglySorted Qle (sort_by Qle_bool l).
Proof.
  unfold sort_by. induction l as [|y l IH]; simpl; [constructor|].
  by apply insert_by_sorted.
Qed.

Lemma sort_by_head_min (l : list Q) (m : Q) (rest : list Q) :
  sort_by Qle_bool l = m :: rest → ∀ y, y ∈ l → Qle m y.
Proof.
  intros Hs y Hy. pose proof (sort_by_Qle_sorted l) as Hsorted.
  apply (sort_by_elem Qle_bool) in Hy. rewrite Hs in *.
  apply StronglySorted_inv in Hsorted as [_ Hall].
  apply elem_of_cons in Hy as [->|Hy]; [apply Qle_refl|].
  rewrite Forall_forall in Hall. by apply Hall.
Qed.

Lemma q_dedup_sub (x : Q) (l : list Q) : x ∈ q_dedup l → x ∈ l.
Proof.
  induction l as [|y l IH]; simpl; [done|].
  rewrite !elem_of_cons, list_elem_of_filter. intros [?|[_ ?]]; auto.
Qed.

Lemma q_dedup_rep (x : Q) (l : list Q) :
  x ∈ l → ∃ r, r ∈ q_dedup l ∧ Qeq r x.
Proof.
  induction l as [|y l IH]; simpl; [by intros ?%elem_of_nil|].
  intros [->|Hx]%elem_of_cons.
  - exists y. split; [by left|apply Qeq_refl].
  - destruct (IH Hx) as (r & Hr & Hrx).
    destruct (Qeq_bool y r) eqn:E.
    + exists y. split; [by left|]. apply Qeq_bool_iff in E. by rewrite E.
    + exists r. split; [|done]. right. by apply list_elem_of_filter.
Qed.

Lemma max_fold_bound {A} (f : A → nat) (l : list A) (y : A) :
  y ∈ l → (f y ≤ foldr (λ x m, Nat.max (f x) m) 0%nat l)%nat.
Proof.
  induction l as [|x l IH]; simpl; [by intros ?%elem_of_nil|].
  intros [->|Hy]%elem_of_cons; [lia|]. specialize (IH Hy). lia.
Qed.

Lemma max_fold_attained {A} (f : A → nat) (l : list A) :
  l ≠ [] → ∃ x, x ∈ l ∧ f x = foldr (λ x m, Nat.max (f x) m) 0%nat l.
Proof.
  induction l as [|x l IH]; [done|]. intros _. simpl.
  destruct l as [|x' l'].
  - exists x. split; [by left|]. simpl. lia.
  - destruct IH as (z & Hz & Hfz); [done|].
    destruct (Nat.max_spec (f x) (foldr (λ x m, Nat.max (f x) m) 0%nat (x' :: l')))
      as [[_ ->]|[_ ->]].
    + exists z. split; [by right|done].
    + exists x. split; [by left|done].
Qed.

Lemma q_count_bound (xs : list Q) (y : Q) :
  y ∈ xs → (q_count y xs ≤ max_count xs)%nat.
Proof. apply (max_fold_bound (λ x, q_count x xs)). Qed.

Lemma q_count_Qeq (x y : Q) (l : list Q) : Qeq x y → q_count x l = q_count y l.
Proof.
  intros Hxy. unfold q_count. f_equal. apply list_filter_iff. intros z.
  rewrite !Qeq_bool_iff. by rewrite Hxy.
Qed.

(** The modes are non-empty for a non-empty series, and their head is the
    least of the most frequent values. *)
Lemma series_mode_head (s : list (option Q)) :
  dropna s ≠ [] →
  ∃ m rest, series_mode s = m :: rest
    ∧ m ∈ dropna s
    ∧ q_count m (dropna s) = max_count (dropna s)
    ∧ ∀ y, y ∈ dropna s → q_count y (dropna s) = max_count (dropna s) → Qle m y.
Proof.
  intros Hne. unfold series_mode. set (xs := dropna s) in *.
  set (top := filter (λ x, q_count x xs = max_count xs) xs).
  destruct (max_fold_attained (λ x, q_count x xs) xs Hne) as (x0 & Hx0 & Hc0).
  assert (Htop0 : x0 ∈ top) by (by apply list_elem_of_filter).
  destruct (q_dedup_rep x0 top Htop0) as (r0 & Hr0 & _).
  destruct (sort_by Qle_bool (q_dedup top)) as [|m rest] eqn:Hs.
  { apply (sort_by_elem Qle_bool) in Hr0. rewrite Hs in Hr0. by apply elem_of_nil in Hr0. }
  exists m, rest. split; [done|].
  assert (Hm : m ∈ top).
  { apply q_dedup_sub, (sort_by_elem Qle_bool). rewrite Hs. by left. }
  apply list_elem_of_filter in Hm as [Hmc Hmx].
  split; [done|]. split; [done|]. intros y Hy Hyc.
  assert (Hytop : y ∈ top) by (by apply list_elem_of_filter).
  destruct (q_dedup_rep y top Hytop) as (r & Hr & Hry).
  rewrite <- Hry. by apply (sort_by_head_min _ _ _ Hs).
Qed.

Lemma unique_length_le (l : list Z) : (length (unique l) ≤ length l)%nat.
Proof.
  induction l as [|x l IH]; simpl; [done|].
  pose proof (length_filter (λ y, y ≠ x) (unique l)). lia.
Qed.

(** A frame of at most one row has no interval to detect: the lag
    transform leaves it as it is. *)
Lemma lag_short_frame (df : DataFrame) (d : list (string * json)) :
  df_wf df → (nrows df ≤ 1)%nat →
  is_ok (has_multiple_stations df) = true →
  apply_lag_features df (JDict d) = Ok df.
Proof.
  intros Hwf Hn Hok. unfold apply_lag_features. simpl.
  destruct (has_multiple_stations df) as [multi|] eqn:Hmulti; [|done]. cbn [bind].
  destruct multi.
  - destruct (has_multiple_true _ Hmulti) as (ids & Hids & Hu).
    pose proof (df_wf_lookup df _ _ Hwf Hids) as Hlen. simpl in Hlen.
    pose proof (unique_length_le ids). lia.
  - by destruct (Nat.ltb_spec 1 (nrows df)); [lia|].
Qed.

(** C7 (amended).  The interval estimator takes the consecutive deltas of
    the timestamps, in minutes, and returns the least of the most frequent
    deltas; the 30-minute default is used only when there is no delta at
    all, which does not happen when the first two timestamps are present;
    [periods_per_hour] is [60 / modal_interval].  A frame of fewer than two
    rows is not given to the estimator: the lag transform returns it
    unchanged. *)
Theorem interval_estimator_takes_least_mode (ts : list (option Z)) :
  (dropna (time_diffs ts) = [] → mode_interval (time_diffs ts) = 30%Q)
  ∧ (dropna (time_diffs ts) ≠ [] →
       mode_interval (time_diffs ts) ∈ dropna (time_diffs ts)
       ∧ q_count (mode_interval (time_diffs ts)) (dropna (time_diffs ts))
         = max_count (dropna (time_diffs ts))
       ∧ (∀ y, y ∈ dropna (time_diffs ts) →
               (q_count y (dropna (time_diffs ts))
                ≤ q_count (mode_interval (time_diffs ts)) (dropna (time_diffs ts)))%nat)
       ∧ (∀ y, y ∈ dropna (time_diffs ts) →
               q_count y (dropna (time_diffs ts)) = max_count (dropna (time_diffs ts)) →
               Qle (mode_interval (time_diffs ts)) y))
  ∧ (∀ a b rest, ts = Some a :: Some b :: rest → dropna (time_diffs ts) ≠ [])
  ∧ (¬ Qeq (mode_interval (time_diffs ts)) 0 →
       series_pph ts = Finite (Qred (60 / mode_interval (time_diffs ts))))
  ∧ (∀ df d, df_wf df → (nrows df ≤ 1)%nat →
             is_ok (has_multiple_stations df) = true →
             apply_lag_features df (JDict d) = Ok df).
Proof.
  split; [|split; [|split; [|split]]].
  - intros Hnil. unfold mode_interval, series_mode. by rewrite Hnil.
  - intros Hne. destruct (series_mode_head _ Hne) as (m & rest & Hs & Hin & Hc & Hmin).
    unfold mode_interval. rewrite Hs. repeat split; trivial.
    intros y Hy. rewrite Hc. by apply q_count_bound.
  - intros a b rest ->. unfold time_diffs, diff_time, shift. simpl. discriminate.
  - intros Hnz. unfold series_pph, periods_per_hour.
    destruct (Qeq_bool (mode_interval (time_diffs ts)) 0) eqn:E; [|done].
    by apply Qeq_bool_iff in E.
  - intros df d. apply lag_short_frame.
Qed.

(** C7 as stated fails: three timestamps 10 and 20 minutes apart have no
    repeated delta, and the estimator returns 10 minutes (6 periods per
    hour), not the 30-minute default. *)
Lemma interval_default_counterexample :
  (∀ x, x ∈ dropna (time_diffs [Some 0; Some 600; Some 1800]) →
        q_count x (dropna (time_diffs [Some 0; Some 600; Some 1800])) = 1%nat)
  ∧ mode_interval (time_diffs [Some 0; Some 600; Some 1800]) = 10%Q
  ∧ ¬ Qeq (mode_interval (time_diffs [Some 0; Some 600; Some 1800])) 30
  ∧ series_pph [Some 0; Some 600; Some 1800] = Finite 6.
Proof.
  split; [|split; [reflexivity|split; [|reflexivity]]].
  - intros x Hx. vm_compute in Hx.
    apply elem_of_cons in Hx as [->|Hx]; [reflexivity|].
    apply elem_of_cons in Hx as [->|Hx]; [reflexivity|].
    by apply elem_of_nil in Hx.
  - vm_compute. discriminate.
Qed.

(** Fifteen-minute readings with one 45-minute gap are detected as a
    15-minute series. *)
Example interval_with_one_gap :
  mode_interval (time_diffs [Some 0; Some 900; Some 1800; Some 4500; Some 5400; Some 6300])
  = 15%Q.
Proof. reflexivity. Qed.

(** ** Missing input columns *)

Lemma sort_values_missing (name : string) (df : DataFrame) :
  df_has name df = false → sort_values name df = Err (KeyError name).
Proof. intros H. unfold sort_values. by rewrite (df_col_missing _ _ H). Qed.

Lemma df_filter_has (m : list bool) (name : string) (df : DataFrame) :
  df_has name (df_filter m df) = df_has name df.
Proof. unfold df_has. rewrite df_filter_get. by destruct (assoc name (columns df)). Qed.

Lemma foldM_first_Err {S X} (body : S → X → result S) (st : S) (x : X) (xs : list X)
    (e : error) :
  body st x = Err e → foldM body st (x :: xs) = Err e.
Proof. intros H. simpl. by rewrite H. Qed.

Lemma lag_without_measured_at (df : DataFrame) (d : list (string * json)) :
  df_has "measured_at" df = false → (1 < nrows df)%nat →
  is_ok (has_multiple_stations df) = true →
  apply_lag_features df (JDict d) = Err (KeyError "measured_at").
Proof.
  intros Hno Hn Hok. unfold apply_lag_features. simpl.
  destruct (has_multiple_stations df) as [multi|] eqn:Hmulti; [|done]. cbn [bind].
  destruct multi.
  - destruct (has_multiple_true _ Hmulti) as (ids & Hids & Hu).
    apply station_ids_Ok in Hids. rewrite Hids. cbn [bind].
    destruct (unique ids) as [|s rest]; [simpl in Hu; lia|].
    apply foldM_first_Err. unfold lag_station. rewrite Hids. cbn [bind].
    rewrite sort_values_missing; [done|]. by rewrite df_filter_has.
  - destruct (Nat.ltb_spec 1 (nrows df)); [|lia].
    by rewrite sort_values_missing.
Qed.

(** C5 (amended).  The transforms over optional weather columns are
    guarded: without [rainfall_1h] the rainfall transform, and without
    [temperature]/[humidity] and [pressure] the weather-interaction
    transform, return the frame unchanged.  The transforms over the core
    columns are not: the time transform without [measured_at], the lag
    transform on more than one row without [measured_at], and the
    station-statistics transform without [water_level] raise [KeyError]. *)
Theorem optional_columns_are_guarded `{Numpy} (df : DataFrame) (config : json) :
  (df_has "rainfall_1h" df = false → apply_rainfall_features df config = Ok df)
  ∧ (df_has "temperature" df && df_has "humidity" df = false →
     df_has "pressure" df = false →
     apply_weather_interactions df config = Ok df)
  ∧ (df_has "measured_at" df = false →
     apply_time_features df config = Err (KeyError "measured_at"))
  ∧ (df_has "measured_at" df = false → (1 < nrows df)%nat →
     is_ok (has_multiple_stations df) = true →
     ∀ d, apply_lag_features df (JDict d) = Err (KeyError "measured_at"))
  ∧ (df_has "water_level" df = false →
     is_ok (has_multiple_stations df) = true →
     apply_station_statistics df config = Err (KeyError "water_level")).
Proof.
  split; [|split; [|split; [|split]]].
  - intros Hno. unfold apply_rainfall_features. by rewrite Hno.
  - intros Hth Hp. unfold apply_weather_interactions. rewrite Hth. cbn [bind].
    by rewrite Hp.
  - intros Hno. unfold apply_time_features, df_time.
    by rewrite (df_col_missing _ _ Hno).
  - intros Hno Hn Hok d. by apply lag_without_measured_at.
  - intros Hno Hok. unfold apply_station_statistics.
    destruct (has_multiple_stations df) as [multi|] eqn:Hmulti; [|done]. cbn [bind].
    destruct multi.
    + destruct (has_multiple_true _ Hmulti) as (ids & Hids & _).
      apply station_ids_Ok in Hids. rewrite Hids. cbn [bind].
      unfold df_float. by rewrite (df_col_missing _ _ Hno).
    + unfold df_float. by rewrite (df_col_missing _ _ Hno).
Qed.

(** The theorem on frames that lack the columns in question. *)
Lemma optional_columns_are_guarded_witness :
  (df_has "rainfall_1h" frame_45min = false →
   apply_rainfall_features frame_45min (JDict []) = Ok frame_45min)
  ∧ (df_has "temperature" frame_45min && df_has "humidity" frame_45min = false →
     df_has "pressure" frame_45min = false →
     apply_weather_interactions frame_45min (JDict []) = Ok frame_45min)
  ∧ apply_rainfall_features frame_45min (JDict []) = Ok frame_45min
  ∧ apply_weather_interactions frame_45min (JDict []) = Ok frame_45min.
Proof.
  pose proof (@optional_columns_are_guarded approx_numpy frame_45min (JDict []))
    as (Hrain & Hweather & _).
  split; [exact Hrain|]. split; [exact Hweather|]. split.
  - apply Hrain. reflexivity.
  - apply Hweather; reflexivity.
Defined.

(** C5 as stated fails: the lag transform on a frame without
    [water_level] and the time transform on a frame without [measured_at]
    raise [KeyError]. *)
Lemma unguarded_transform_counterexample :
  apply_lag_features frame_no_water_level (JDict []) = Err (KeyError "water_level")
  ∧ @apply_time_features approx_numpy frame_no_measured_at (JDict [])
    = Err (KeyError "measured_at").
Proof. split; reflexivity. Qed.

(** ** Orchestrator *)

Lemma bind_ext {A B} (m m' : result A) (k k' : A → result B) :
  m = m' → (∀ a, k a = k' a) → bind m k = bind m' k'.
Proof. intros -> Hk. destruct m'; simpl; auto. Qed.

Lemma staged_cons `{Numpy} (configs : gmap string json) (hz : list Z) (s : stage)
    (rest : list stage) (df : DataFrame) :
  foldM (λ df s, apply_stage configs hz s df) df
        (filter (λ s, stage_selected configs s = true) (s :: rest))
  = let* df := if stage_selected configs s then apply_stage configs hz s df else Ok df in
    foldM (λ df s, apply_stage configs hz s df) df
          (filter (λ s, stage_selected configs s = true) rest).
Proof.
  rewrite filter_cons. destruct (stage_selected configs s) eqn:E.
  - by rewrite decide_True.
  - by rewrite decide_False.
Qed.

Lemma keyed_stage_step (configs : gmap string json) (key : string)
    (f : json → result DataFrame) (df : DataFrame) :
  match configs !! key with Some c => f c | None => Ok df end
  = if bool_decide (is_Some (configs !! key))
    then f (default (JDict []) (configs !! key)) else Ok df.
Proof.
  destruct (configs !! key) eqn:E.
  - by rewrite bool_decide_eq_true_2 by eauto.
  - by rewrite bool_decide_eq_false_2 by (by intros [? ?]).
Qed.

Lemma configs_from_rows (rows : list PreprocessingConfig) (k : string)
    (m : gmap string json) :
  (∀ row, row ∈ rows → method_id row ≠ k) →
  foldl (λ (configs : gmap string json) row, <[method_id row := config row]> configs) m rows
  !! k = m !! k.
Proof.
  revert m. induction rows as [|r rows IH]; intros m Hne; simpl; [done|].
  rewrite IH.
  - apply lookup_insert_ne, Hne. by left.
  - intros row Hrow. apply Hne. by right.
Qed.

(** C6 (amended).  For every effective config map the orchestrator is the
    sequence of the selected stages in the order time features, lag
    features, rolling statistics, rate of change, rainfall features,
    weather interactions, station statistics, target creation, cleaning.
    A stage is selected exactly when its key is in the map; the
    time-features stage is in addition skipped when its config carries a
    false [enabled] entry.  The configs read from the database contain no
    method whose rows are all disabled. *)
Theorem stages_run_in_fixed_order `{Numpy} (configs : gmap string json)
    (prediction_horizons : list Z) (df : DataFrame) :
  run_stages configs prediction_horizons df
  = staged_pipeline configs prediction_horizons df
  ∧ (∀ s, configs !! stage_key s = None → stage_selected configs s = false)
  ∧ (∀ s, s ≠ TimeFeatures → is_Some (configs !! stage_key s) →
          stage_selected configs s = true)
  ∧ (∀ d, configs !! "time_features" = Some (JDict d) →
          stage_selected configs TimeFeatures
          = truthy (default (JBool true) (assoc "enabled" d)))
  ∧ (∀ env k, (∀ row, row ∈ preprocessing_configs env →
                      method_id row = k → enabled row = false) →
              get_preprocessing_configs env !! k = None).
Proof.
  split; [|split; [|split; [|split]]].
  - unfold staged_pipeline, stage_order, run_stages.
    rewrite staged_cons. apply bind_ext.
    { simpl. by destruct (time_features_selected configs). }
    intros d1. rewrite staged_cons. apply bind_ext; [apply keyed_stage_step|].
    intros d2. rewrite staged_cons. apply bind_ext; [apply keyed_stage_step|].
    intros d3. rewrite staged_cons. apply bind_ext; [apply keyed_stage_step|].
    intros d4. rewrite staged_cons. apply bind_ext; [apply keyed_stage_step|].
    intros d5. rewrite staged_cons. apply bind_ext; [apply keyed_stage_step|].
    intros d6. rewrite staged_cons. apply bind_ext; [apply keyed_stage_step|].
    intros d7. rewrite staged_cons. apply bind_ext.
    { apply (keyed_stage_step configs "target_creation"
               (λ c, let* target_config :=
                       dict_set_item c "prediction_horizons" (ints prediction_horizons) in
                     create_targets d7 target_config)). }
    intros d8. rewrite staged_cons.
    rewrite (keyed_stage_step configs "data_cleaning" (clean_data d8)). simpl.
    destruct (bool_decide _); [|done].
    by destruct (clean_data d8 _).
  - intros s Hs. destruct s; simpl in *;
      try (rewrite Hs; apply bool_decide_eq_false_2; by intros [? ?]).
    unfold time_features_selected. by rewrite Hs.
  - intros s Hs Hsome. destruct s; try done; simpl; by apply bool_decide_eq_true_2.
  - intros d Hd. simpl. unfold time_features_selected. by rewrite Hd.
  - intros env k Hrows. unfold get_preprocessing_configs.
    rewrite configs_from_rows; [apply lookup_empty|].
    intros row [Hen Hrow]%list_elem_of_filter Hk.
    rewrite (Hrows row Hrow Hk) in Hen. discriminate.
Qed.

(** The theorem on a map that disables the time stage. *)
Lemma stages_run_in_fixed_order_witness :
  @run_stages approx_numpy time_disabled [15] frame_45min
  = @staged_pipeline approx_numpy time_disabled [15] frame_45min
  ∧ stage_selected time_disabled LagFeatures = false
  ∧ stage_selected time_disabled TimeFeatures = false.
Proof.
  pose proof (@stages_run_in_fixed_order approx_numpy time_disabled [15] frame_45min)
    as (Hrun & Habsent & _ & Htime & _).
  split; [exact Hrun|]. split.
  - apply Habsent. reflexivity.
  - rewrite (Htime [("enabled", JBool false)]); reflexivity.
Defined.

(** C6 as stated fails for a stage other than the time stage: a
    [lag_features] config that carries [enabled: false] still runs, while
    the same entry switches the time stage off. *)
Lemma disabled_stage_counterexample :
  (∃ df' col,
     @run_stages approx_numpy lag_disabled [15] frame_45min = Ok df'
     ∧ assoc "water_level_lag_1h" (columns df') = Some (Num col)
     ∧ df_has "water_level_lag_1h" frame_45min = false)
  ∧ @run_stages approx_numpy time_disabled [15] frame_45min = Ok frame_45min.
Proof.
  split; [|vm_compute; reflexivity].
  eexists _, _. split; [vm_compute; reflexivity|]. split; reflexivity.
Qed.

(** ** Data cleaner *)

Lemma insert_by_length {A} (le : A → A → bool) (a : A) (l : list A) :
  length (insert_by le a l) = S (length l).
Proof.
  induction l as [|y l IH]; simpl; [done|]. destruct (le a y); simpl; [done|]. by rewrite IH.
Qed.

Lemma sort_by_length {A} (le : A → A → bool) (l : list A) :
  length (sort_by le l) = length l.
Proof.
  unfold sort_by. induction l as [|y l IH]; simpl; [done|].
  by rewrite insert_by_length, IH.
Qed.

Lemma col_median_Some (v : list (option Q)) :
  dropna v ≠ [] → is_Some (col_median v).
Proof.
  intros Hne. unfold col_median.
  pose proof (sort_by_length Qle_bool (dropna v)) as Hlen.
  set (xs := sort_by Qle_bool (dropna v)) in *.
  assert (Hpos : (0 < length xs)%nat).
  { rewrite Hlen. destruct (dropna v); [done|simpl; lia]. }
  destruct (Nat.eqb_spec (length xs) 0) as [?|_]; [lia|].
  assert (Hhalf : (length xs / 2 < length xs)%nat) by (apply Nat.div_lt; lia).
  destruct (Nat.odd (length xs)).
  - by apply lookup_lt_is_Some.
  - destruct (lookup_lt_is_Some_2 xs (length xs / 2 - 1)) as [a ->]; [lia|].
    destruct (lookup_lt_is_Some_2 xs (length xs / 2)) as [b ->]; [lia|].
    by eexists.
Qed.

Lemma col_median_None (v : list (option Q)) :
  dropna v = [] → col_median v = None.
Proof. intros H. unfold col_median. by rewrite H. Qed.

Lemma dropna_nil_all_null {A} (v : list (option A)) :
  dropna v = [] → Forall (λ c, c = None) v.
Proof.
  unfold dropna. induction v as [|[x|] v IH]; simpl; intros H; try done; constructor; auto.
Qed.

Lemma fillna_no_null (x : Q) (v : list (option Q)) :
  Forall (λ c, c ≠ None) (fillna (Some x) v).
Proof.
  simpl. apply Forall_forall. intros c [c0 [-> _]]%list_elem_of_fmap.
  by destruct c0.
Qed.

Lemma fillna_without_null (x : option Q) (v : list (option Q)) :
  existsb (λ c, match c with None => true | Some _ => false end) v = false →
  fillna x v = v.
Proof.
  intros H. destruct x as [x|]; [|done]. simpl.
  induction v as [|[c|] v IH]; simpl in *; try done. by rewrite IH.
Qed.

Lemma fillna_again (stat : list (option Q) → option Q) (v : list (option Q)) :
  existsb (λ c, match c with None => true | Some _ => false end) (fillna (stat v) v) = true →
  fillna (stat (fillna (stat v) v)) (fillna (stat v) v) = fillna (stat v) v.
Proof.
  destruct (stat v) as [x|] eqn:E.
  - intros H. apply existsb_exists in H as (c & Hc & Hnull).
    pose proof (fillna_no_null x v) as Hall. rewrite Forall_forall in Hall.
    apply list_elem_of_In in Hc. specialize (Hall c Hc). by destruct c.
  - simpl. by rewrite E.
Qed.

Lemma impute_loop (stat : list (option Q) → option Q) (names : list string)
    (n : string) (v : list (option Q)) (d d' : DataFrame) :
  foldM (impute stat) d names = Ok d' →
  assoc n (columns d) = Some (Num v) ∧ n ∈ names
  ∨ assoc n (columns d) = Some (Num (fillna (stat v) v)) →
  assoc n (columns d') = Some (Num (fillna (stat v) v)).
Proof.
  revert d. induction names as [|n1 names IH]; intros d H Hstart; simpl in H.
  - inv_ok. destruct Hstart as [[_ Hin]|?]; [|done]. by apply elem_of_nil in Hin.
  - inv_bind H as d1 Hd1. apply (IH d1 H). clear IH H.
    unfold impute in Hd1. inv_bind Hd1 as c Hc. apply df_col_Ok in Hc.
    destruct (decide (n1 = n)) as [->|Hne].
    + right. destruct Hstart as [[Hv _]|Hv]; rewrite Hv in Hc; simplify_eq.
      * destruct (existsb _ v) eqn:E; inv_ok.
        -- apply df_set_get_eq.
        -- by rewrite (fillna_without_null _ _ E).
      * destruct (existsb _ (fillna (stat v) v)) eqn:E; inv_ok; [|done].
        rewrite df_set_get_eq. by rewrite fillna_again.
    + assert (Hsame : assoc n (columns d1) = assoc n (columns d)).
      { destruct c; inv_ok; try done.
        destruct (existsb _ v0); inv_ok; [|done]. by apply df_set_get_ne. }
      rewrite Hsame. destruct Hstart as [[Hv Hin]|Hv]; [left|by right].
      split; [done|]. apply elem_of_cons in Hin as [?|?]; [congruence|done].
Qed.

Lemma target_name_not_excluded (h : Z) :
  str_in (target_name h) clean_exclude_cols = false.
Proof. reflexivity. Qed.

(** C10 (amended).  With the default cleaning config the imputation step
    also applies to the target columns: after cleaning, a numeric
    [target_{h}min] column holds the values of the rows kept by the
    lag-based drop with every null replaced by the column's median over
    those rows, so it has no nulls whenever at least one kept row has a
    target; when no kept row has one, the median is null too and the
    column stays entirely null. *)
Theorem cleaned_target_is_imputed (df df' : DataFrame) (h : Z) (v0 : list (option Q)) :
  df_wf df →
  assoc (target_name h) (columns df) = Some (Num v0) →
  clean_data df (JDict []) = Ok df' →
  assoc (target_name h) (columns df')
  = Some (Num (fillna (col_median (sel (lag_complete_rows df) v0))
                      (sel (lag_complete_rows df) v0)))
  ∧ (dropna (sel (lag_complete_rows df) v0) ≠ [] →
     Forall (λ c, c ≠ None)
            (fillna (col_median (sel (lag_complete_rows df) v0))
                    (sel (lag_complete_rows df) v0)))
  ∧ (dropna (sel (lag_complete_rows df) v0) = [] →
     Forall (λ c, c = None)
            (fillna (col_median (sel (lag_complete_rows df) v0))
                    (sel (lag_complete_rows df) v0))).
Proof.
  intros Hwf Hv0 H. set (v1 := sel (lag_complete_rows df) v0).
  split; [|split].
  - unfold clean_data in H. simpl in H.
    match type of H with
    | foldM _ ?d1 ?names = _ =>
        assert (Hv1 : assoc (target_name h) (columns d1) = Some (Num v1));
        [|apply (impute_loop col_median names _ v1 d1 df' H); left; split; [done|]]
    end.
    + unfold v1, lag_complete_rows.
      destruct (filter _ (columns df)) as [|c cs].
      * rewrite Hv0, sel_all_true; [done|].
        pose proof (df_wf_lookup df _ _ Hwf Hv0) as Hl. simpl in Hl. lia.
      * by rewrite df_filter_get, Hv0.
    + apply list_elem_of_filter. split; [exact (target_name_not_excluded h)|].
      apply list_elem_of_fmap. exists (target_name h, Num v1). split; [done|].
      apply list_elem_of_filter. split; [done|]. by apply assoc_elem.
  - intros Hne. destruct (col_median_Some v1 Hne) as [m ->]. apply fillna_no_null.
  - intros Hnil. rewrite (col_median_None v1 Hnil). simpl.
    by apply dropna_nil_all_null.
Qed.

(** The theorem on the 30-minute target of [frame_with_targets]: the two
    rows without a future observation receive the median 503. *)
Lemma cleaned_target_is_imputed_witness :
  assoc (target_name 30)
        (columns (ok_or frame_with_targets (clean_data frame_with_targets (JDict []))))
  = Some (Num [level 502; level 503; level 504; level 503; level 503])
  ∧ Forall (λ c, c ≠ None) [level 502; level 503; level 504; level 503; level 503].
Proof.
  pose proof (cleaned_target_is_imputed frame_with_targets
                (ok_or frame_with_targets (clean_data frame_with_targets (JDict [])))
                30 [level 502; level 503; level 504; None; None])
    as (Hcol & Hfull & _).
  - vm_compute. repeat constructor.
  - reflexivity.
  - vm_compute. reflexivity.
  - split; [exact Hcol|]. apply Hfull. vm_compute. discriminate.
Defined.

(** C10 as stated fails: on five rows the 90-minute target (six rows
    ahead) is null everywhere, its median is null, and the nulls survive
    the cleaning. *)
Lemma null_targets_survive_counterexample :
  assoc (target_name 90) (columns frame_with_far_target)
  = Some (Num [None; None; None; None; None])
  ∧ ∃ df', clean_data frame_with_far_target (JDict []) = Ok df'
           ∧ nrows df' = 5%nat
           ∧ assoc (target_name 90) (columns df')
             = Some (Num [None; None; None; None; None]).
Proof.
  split; [reflexivity|]. eexists. split; [vm_compute; reflexivity|].
  split; reflexivity.
Qed.

(** ** Inference feature preparer *)

Lemma select_columns_get (names : list string) (df f : DataFrame) (n : string) :
  select_columns names df = Ok f → n ∈ names →
  assoc n (columns f) = assoc n (columns df) ∧ nrows f = nrows df.
Proof.
  unfold select_columns. intros H Hin. inv_bind H as cols Hcols. inv_ok. simpl.
  split; [|done]. revert cols Hcols.
  induction names as [|n1 names IH]; intros cols Hcols; simpl in Hcols.
  - by apply elem_of_nil in Hin.
  - inv_bind Hcols as nc Hnc. inv_bind Hcols as cols' Hcols'. inv_ok.
    inv_bind Hnc as c Hc. apply df_col_Ok in Hc.
    assert (nc = (n1, c)) as -> by congruence. simpl.
    destruct (String.eqb n n1) eqn:E.
    + apply String.eqb_eq in E as ->. done.
    + apply String.eqb_neq in E. apply elem_of_cons in Hin as [?|Hin]; [done|].
      by apply IH.
Qed.

Lemma last_row_get (f : DataFrame) (n : string) :
  assoc n (columns (last_row f))
  = option_map (col_drop (nrows f - 1)) (assoc n (columns f)).
Proof. unfold last_row; simpl. apply assoc_map_snd. Qed.

Lemma fill_latest_other (df X X' : DataFrame) (col n : string) :
  fill_latest df X col = Ok X' → col ≠ n →
  assoc n (columns X') = assoc n (columns X).
Proof.
  unfold fill_latest. intros H Hne. inv_bind H as hist Hhist. inv_bind H as x Hx.
  destruct hist, x; try discriminate.
  destruct (col_mean v); inv_ok; by apply df_set_get_ne.
Qed.

Lemma fill_latest_loop (df : DataFrame) (names : list string) (n : string)
    (v : list (option Q)) (X X' : DataFrame) :
  assoc n (columns df) = Some (Num v) →
  foldM (fill_latest df) X names = Ok X' →
  assoc n (columns X) = Some (Num [None]) ∧ n ∈ names
  ∨ assoc n (columns X) = Some (Num [Some (default 0%Q (col_mean v))]) →
  assoc n (columns X') = Some (Num [Some (default 0%Q (col_mean v))]).
Proof.
  intros Hv. revert X. induction names as [|n1 names IH]; intros X H Hstart; simpl in H.
  - inv_ok. destruct Hstart as [[_ Hin]|?]; [|done]. by apply elem_of_nil in Hin.
  - inv_bind H as X1 HX1. apply (IH X1 H). clear IH H.
    destruct (decide (n1 = n)) as [->|Hne].
    + right. unfold fill_latest in HX1. unfold df_col in HX1. rewrite Hv in HX1.
      cbn [bind] in HX1.
      destruct Hstart as [[Hx _]|Hx]; rewrite Hx in HX1; cbn [bind] in HX1;
        destruct (col_mean v); inv_ok; apply df_set_get_eq.
    + rewrite (fill_latest_other _ _ _ _ n HX1 Hne).
      destruct Hstart as [[Hx Hin]|Hx]; [left|by right].
      split; [done|]. apply elem_of_cons in Hin as [?|?]; [congruence|done].
Qed.

(** C9 (amended).  When the preparer succeeds, every numeric feature that
    is null in the extracted latest row is filled with the mean of that
    feature's column over the frame processed for the same window; when
    the column has no value at all, so that the mean is null too, it is
    filled with the constant 0. *)
Theorem latest_nulls_filled_with_mean {np : Numpy} (env : Env) (station_id : option Z)
    (X : DataFrame) (names : list string) :
  prepare_latest_data_for_prediction env station_id = Ok (Some (X, names)) →
  ∃ res,
    preprocess_data env station_id
                    (Some (DateTime (utcnow env - 30 * 86400)))
                    (Some (DateTime (utcnow env))) [15] None = Ok res
    ∧ ∀ n v, n ∈ names →
        assoc n (columns (processed_data res)) = Some (Num v) →
        drop (nrows (processed_data res) - 1)%nat v = [None] →
        (∀ m, col_mean v = Some m → assoc n (columns X) = Some (Num [Some m]))
        ∧ (col_mean v = None → assoc n (columns X) = Some (Num [Some 0%Q])).
Proof.
  unfold prepare_latest_data_for_prediction. intros H.
  inv_bind H as res Hres. exists res. split; [done|].
  destruct (nrows (processed_data res) =? 0)%nat; [discriminate|].
  inv_bind H as features Hf. inv_bind H as X' HX'. inv_ok.
  intros n v Hn Hv Hlast.
  destruct (select_columns_get _ _ _ n Hf Hn) as [Hget Hrows].
  assert (Hfilled : assoc n (columns X) = Some (Num [Some (default 0%Q (col_mean v))])).
  { apply (fill_latest_loop _ _ n v _ _ Hv HX'). left.
    assert (Hx0 : assoc n (columns (last_row features)) = Some (Num [None])).
    { rewrite last_row_get, Hget, Hv, Hrows. simpl. by rewrite Hlast. }
    split; [done|]. apply list_elem_of_fmap. exists (n, Num [None]). split; [done|].
    apply list_elem_of_filter. split; [done|]. by apply assoc_elem. }
  split.
  - intros m Hm. by rewrite Hm in Hfilled.
  - intros Hnone. by rewrite Hnone in Hfilled.
Qed.

(** The theorem on an environment with one temperature reading: the null
    in the latest row becomes the mean 20. *)
Lemma latest_nulls_filled_with_mean_witness :
  ∃ res,
    @preprocess_data approx_numpy (env_with_temperature [level 20; None]) (Some 2)
                     (Some (DateTime (1800 - 30 * 86400))) (Some (DateTime 1800)) [15] None
    = Ok res
    ∧ ∀ n v, n ∈ ["station_id"; "water_level"; "temperature"] →
        assoc n (columns (processed_data res)) = Some (Num v) →
        drop (nrows (processed_data res) - 1)%nat v = [None] →
        (∀ m, col_mean v = Some m →
              assoc n (columns (mkDF 1 [("station_id", Int [2]);
                                        ("water_level", Num [level 501]);
                                        ("temperature", Num [level 20])]))
              = Some (Num [Some m]))
        ∧ (col_mean v = None →
           assoc n (columns (mkDF 1 [("station_id", Int [2]);
                                     ("water_level", Num [level 501]);
                                     ("temperature", Num [level 20])]))
           = Some (Num [Some 0%Q])).
Proof.
  apply (@latest_nulls_filled_with_mean approx_numpy
           (env_with_temperature [level 20; None]) (Some 2)).
  vm_compute. reflexivity.
Defined.

(** C9 as stated fails: when the feature has no value over the whole
    window its mean is null and the latest row is filled with the
    hard-coded 0. *)
Lemma zero_fill_counterexample :
  ∃ X names,
    @prepare_latest_data_for_prediction approx_numpy
      (env_with_temperature [None; None]) None = Ok (Some (X, names))
    ∧ "temperature" ∈ names
    ∧ col_mean [None; None] = None
    ∧ assoc "temperature" (columns X) = Some (Num [Some 0%Q]).
Proof.
  eexists _, _. split; [vm_compute; reflexivity|].
  split; [|split; reflexivity]. right. right. apply list_elem_of_here.
Qed.

(** ** The [station_id] column through the pipeline *)

(** Breaks successful monadic code in the hypotheses into its steps. *)
Ltac crunch :=
  repeat match goal with
         | H : bind _ _ = Ok _ |- _ => apply bind_Ok in H as (? & ? & H)
         | H : (if ?b then _ else _) = Ok _ |- _ => destruct b eqn:?
         | H : Ok _ = Ok _ |- _ => injection H as H; subst
         | H : Err _ = Ok _ |- _ => discriminate H
         end.

(** A column name built by a transform is not [station_id]. *)
Ltac name_ne :=
  let E := fresh in
  intros E;
  unfold lag_name, rolling_mean_name, rolling_std_name, change_name,
         rainfall_sum_name, target_name in E;
  simpl in E; discriminate E.

Ltac keep_sets :=
  repeat first [ rewrite df_set_get_ne by name_ne
               | rewrite ensure_col_other by name_ne ];
  try done.

Lemma foldM_keeps {X} (body : DataFrame → X → result DataFrame) (xs : list X)
    (n : string) (d d' : DataFrame) :
  (∀ st x st', body st x = Ok st' → assoc n (columns st') = assoc n (columns st)) →
  foldM body d xs = Ok d' → assoc n (columns d') = assoc n (columns d).
Proof.
  intros Hstep H.
  apply (foldM_invariant (λ st, assoc n (columns st) = assoc n (columns d)) body xs)
    with (st := d) (st' := d'); auto.
  intros st x st' _ Hst Hb. rewrite <- Hst. eauto.
Qed.

Lemma df_loc_set_keeps (mask : list bool) (name : string) (vals : list (option Q))
    (d d' : DataFrame) :
  df_loc_set mask name vals d = Ok d' → name ≠ "station_id" →
  assoc "station_id" (columns d') = assoc "station_id" (columns d).
Proof. unfold df_loc_set. intros H Hne. crunch. by apply df_set_get_ne. Qed.

Lemma time_features_keeps `{Numpy} (df df' : DataFrame) (c : json) :
  apply_time_features df c = Ok df' →
  assoc "station_id" (columns df') = assoc "station_id" (columns df).
Proof. unfold apply_time_features. intros Hrun. crunch. keep_sets. Qed.

Lemma lag_features_keeps (df df' : DataFrame) (c : json) :
  apply_lag_features df c = Ok df' →
  assoc "station_id" (columns df') = assoc "station_id" (columns df).
Proof.
  unfold apply_lag_features. intros Hrun. crunch.
  - eapply foldM_keeps; [|eassumption]. clear. intros st s st' Hst.
    unfold lag_station in Hst. crunch; [|done].
    eapply foldM_keeps; [|eassumption]. clear. intros st x st' Hst.
    unfold lag_step in Hst. crunch.
    erewrite df_loc_set_keeps; [|eassumption|name_ne]. keep_sets.
  - eapply foldM_keeps; [|eassumption]. clear. intros st x st' Hst.
    unfold lag_single_step in Hst. crunch. keep_sets.
  - done.
Qed.

Lemma rolling_assign_keeps (agg : nat → list (option Q) → option Q) (wp : Z) (mp : json)
    (mask : list bool) (sdf : DataFrame) (name : string) (d d' : DataFrame) :
  rolling_assign agg wp mp mask sdf name d = Ok d' → name ≠ "station_id" →
  assoc "station_id" (columns d') = assoc "station_id" (columns d).
Proof.
  unfold rolling_assign. intros Hrun Hne. crunch.
  erewrite df_loc_set_keeps; [|eassumption|done]. by apply ensure_col_other.
Qed.

Lemma rolling_single_assign_keeps (agg : nat → list (option Q) → option Q) (wp : Z)
    (mp : json) (name : string) (d d' : DataFrame) :
  rolling_single_assign agg wp mp name d = Ok d' → name ≠ "station_id" →
  assoc "station_id" (columns d') = assoc "station_id" (columns d).
Proof. unfold rolling_single_assign. intros Hrun Hne. crunch. by apply df_set_get_ne. Qed.

Lemma rolling_statistics_keeps `{Numpy} (df df' : DataFrame) (c : json) :
  apply_rolling_statistics df c = Ok df' →
  assoc "station_id" (columns df') = assoc "station_id" (columns df).
Proof.
  unfold apply_rolling_statistics. intros Hrun. crunch.
  - eapply foldM_keeps; [|eassumption]. clear. intros st s st' Hst.
    unfold rolling_station in Hst. crunch; [|done].
    eapply foldM_keeps; [|eassumption]. clear. intros st x st' Hst.
    unfold rolling_step in Hst. crunch;
      repeat match goal with
             | Hr : rolling_assign _ _ _ _ _ _ _ = Ok _ |- _ =>
                 apply rolling_assign_keeps in Hr; [|name_ne]
             end; congruence.
  - eapply foldM_keeps; [|eassumption]. clear. intros st x st' Hst.
    unfold rolling_single_step in Hst. crunch;
      repeat match goal with
             | Hr : rolling_single_assign _ _ _ _ _ = Ok _ |- _ =>
                 apply rolling_single_assign_keeps in Hr; [|name_ne]
             end; congruence.
  - done.
Qed.

Lemma rate_of_change_keeps (df df' : DataFrame) (c : json) :
  apply_rate_of_change df c = Ok df' →
  assoc "station_id" (columns df') = assoc "station_id" (columns df).
Proof.
  unfold apply_rate_of_change. intros Hrun. crunch.
  - eapply foldM_keeps; [|eassumption]. clear. intros st s st' Hst.
    unfold change_station in Hst. crunch; [|done].
    eapply foldM_keeps; [|eassumption]. clear. intros st x st' Hst.
    unfold change_step in Hst. crunch.
    erewrite df_loc_set_keeps; [|eassumption|name_ne]. keep_sets.
  - eapply foldM_keeps; [|eassumption]. clear. intros st x st' Hst.
    unfold change_single_step in Hst. crunch. keep_sets.
  - done.
Qed.

Lemma rainfall_features_keeps (df df' : DataFrame) (c : json) :
  apply_rainfall_features df c = Ok df' →
  assoc "station_id" (columns df') = assoc "station_id" (columns df).
Proof.
  unfold apply_rainfall_features. intros Hrun. crunch; [done|].
  eapply foldM_keeps; [|eassumption]. clear. intros st x st' Hst.
  unfold rainfall_step in Hst. crunch; keep_sets.
Qed.

Lemma weather_interactions_keeps (df df' : DataFrame) (c : json) :
  apply_weather_interactions df c = Ok df' →
  assoc "station_id" (columns df') = assoc "station_id" (columns df).
Proof. unfold apply_weather_interactions. intros Hrun. crunch; keep_sets. Qed.

Lemma station_statistics_keeps `{Numpy} (df df' : DataFrame) (c : json) :
  apply_station_statistics df c = Ok df' →
  assoc "station_id" (columns df') = assoc "station_id" (columns df).
Proof. unfold apply_station_statistics. intros Hrun. crunch; keep_sets. Qed.

Lemma create_targets_keeps (df df' : DataFrame) (c : json) :
  create_targets df c = Ok df' →
  assoc "station_id" (columns df') = assoc "station_id" (columns df).
Proof.
  unfold create_targets. intros Hrun. crunch.
  eapply foldM_keeps; [|eassumption]. clear. intros st x st' Hst.
  unfold target_step in Hst. crunch; keep_sets.
Qed.

Lemma impute_keeps (stat : list (option Q) → option Q) (d d' : DataFrame) (col n : string) :
  impute stat d col = Ok d' → col ≠ n →
  assoc n (columns d') = assoc n (columns d).
Proof.
  unfold impute. intros Hrun Hne. crunch.
  destruct x; crunch; try done. by apply df_set_get_ne.
Qed.

Lemma clean_data_station_ids (df df' : DataFrame) (c : json) (ids : list Z) :
  clean_data df c = Ok df' →
  assoc "station_id" (columns df) = Some (Int ids) →
  ∃ mask, assoc "station_id" (columns df') = Some (Int (sel mask ids)).
Proof.
  unfold clean_data. intros Hrun Hids. apply bind_Ok in Hrun as (remove & _ & Hrun).
  apply bind_Ok in Hrun as (strategy & _ & Hrun).
  match type of Hrun with
  | context [foldM _ ?d1 ?names] =>
      assert (Hd1 : ∃ mask, assoc "station_id" (columns d1) = Some (Int (sel mask ids)));
      [|assert (Hnames : ∀ n, n ∈ names → n ≠ "station_id")]
  end.
  - destruct (truthy remove).
    + destruct (filter _ (columns df)).
      * exists (replicate (length ids) true). by rewrite sel_all_true.
      * eexists. by rewrite df_filter_get, Hids.
    + exists (replicate (length ids) true). by rewrite sel_all_true.
  - intros n [Hn _]%list_elem_of_filter ->. discriminate Hn.
  - destruct Hd1 as [mask Hd1]. exists mask. rewrite <- Hd1.
    destruct (json_eq_str "median" strategy); [|destruct (json_eq_str "mean" strategy)];
      [| |by inv_ok].
    + eapply (foldM_invariant (λ st, assoc "station_id" (columns st) = _)); [|reflexivity|exact Hrun].
      intros st x st' Hx Hst Himp. rewrite <- Hst. eapply impute_keeps; eauto.
    + eapply (foldM_invariant (λ st, assoc "station_id" (columns st) = _)); [|reflexivity|exact Hrun].
      intros st x st' Hx Hst Himp. rewrite <- Hst. eapply impute_keeps; eauto.
Qed.

(** Every stage keeps a [station_id] column free of a set of stations. *)
Lemma run_stages_station_ids `{Numpy} (configs : gmap string json) (hz : list Z)
    (df df' : DataFrame) (ids : list Z) (P : Z → Prop) :
  run_stages configs hz df = Ok df' →
  assoc "station_id" (columns df) = Some (Int ids) → Forall P ids →
  ∃ ids', assoc "station_id" (columns df') = Some (Int ids') ∧ Forall P ids'.
Proof.
  unfold run_stages. intros Hrun Hids HP.
  apply bind_Ok in Hrun as (d1 & H1 & Hrun). apply bind_Ok in Hrun as (d2 & H2 & Hrun).
  apply bind_Ok in Hrun as (d3 & H3 & Hrun). apply bind_Ok in Hrun as (d4 & H4 & Hrun).
  apply bind_Ok in Hrun as (d5 & H5 & Hrun). apply bind_Ok in Hrun as (d6 & H6 & Hrun).
  apply bind_Ok in Hrun as (d7 & H7 & Hrun). apply bind_Ok in Hrun as (d8 & H8 & Hrun).
  assert (E1 : assoc "station_id" (columns d1) = assoc "station_id" (columns df)).
  { destruct (time_features_selected configs); [by eapply time_features_keeps|by inv_ok]. }
  assert (E2 : assoc "station_id" (columns d2) = assoc "station_id" (columns d1)).
  { destruct (configs !! "lag_features"); [by eapply lag_features_keeps|by inv_ok]. }
  assert (E3 : assoc "station_id" (columns d3) = assoc "station_id" (columns d2)).
  { destruct (configs !! "rolling_statistics");
      [by eapply rolling_statistics_keeps|by inv_ok]. }
  assert (E4 : assoc "station_id" (columns d4) = assoc "station_id" (columns d3)).
  { destruct (configs !! "rate_of_change"); [by eapply rate_of_change_keeps|by inv_ok]. }
  assert (E5 : assoc "station_id" (columns d5) = assoc "station_id" (columns d4)).
  { destruct (configs !! "rainfall_features");
      [by eapply rainfall_features_keeps|by inv_ok]. }
  assert (E6 : assoc "station_id" (columns d6) = assoc "station_id" (columns d5)).
  { destruct (configs !! "weather_interactions");
      [by eapply weather_interactions_keeps|by inv_ok]. }
  assert (E7 : assoc "station_id" (columns d7) = assoc "station_id" (columns d6)).
  { destruct (configs !! "station_statistics");
      [by eapply station_statistics_keeps|by inv_ok]. }
  assert (E8 : assoc "station_id" (columns d8) = assoc "station_id" (columns d7)).
  { destruct (configs !! "target_creation"); [|by inv_ok].
    apply bind_Ok in H8 as (tc & _ & H8). by eapply create_targets_keeps. }
  assert (Hd8 : assoc "station_id" (columns d8) = Some (Int ids)) by congruence.
  destruct (configs !! "data_cleaning").
  - destruct (clean_data_station_ids _ _ _ _ Hrun Hd8) as [mask Hmask].
    exists (sel mask ids). split; [done|]. by apply sel_Forall.
  - inv_ok. by exists ids.
Qed.

(** ** Excluded stations *)

Lemma sel_not_excluded (ids : list Z) :
  Forall (λ s, isin s excluded_stations = false)
         (sel (map (λ s, negb (isin s excluded_stations)) ids) ids).
Proof.
  induction ids as [|i ids IH]; [constructor|]. cbn [sel map].
  destruct (isin i excluded_stations) eqn:E; cbn [negb]; [done|]. by constructor.
Qed.

Lemma sel_zip_and {A} (P : A → Prop) (m m' : list bool) (l : list A) :
  Forall P (sel m l) → Forall P (sel (zip_with andb m m') l).
Proof.
  revert m' l. induction m as [|b m IH]; intros [|b' m'] [|x l]; simpl; try constructor.
  destruct b, b'; simpl; intros H; try (apply Forall_cons in H as [? ?]);
    try constructor; auto.
Qed.

Lemma take_idx_Forall {A} (P : A → Prop) (idx : list nat) (l : list A) :
  Forall P l → Forall P (take_idx idx l).
Proof.
  intros H. unfold take_idx. induction idx as [|i idx IH]; simpl; [constructor|].
  destruct (l !! i) eqn:E; simpl; [|done]. constructor; [|done].
  rewrite Forall_forall in H. apply H. by eapply list_elem_of_lookup_2.
Qed.

Lemma sort_values_station_ids (name : string) (df df' : DataFrame) (ids : list Z)
    (P : Z → Prop) :
  sort_values name df = Ok df' →
  assoc "station_id" (columns df) = Some (Int ids) → Forall P ids →
  ∃ ids', assoc "station_id" (columns df') = Some (Int ids') ∧ Forall P ids'.
Proof.
  unfold sort_values. intros Hrun Hids HP. crunch. simpl.
  rewrite assoc_map_snd, Hids. simpl. eexists. split; [done|].
  by apply take_idx_Forall.
Qed.

Lemma drop_columns_other (names : list string) (df : DataFrame) (n : string) :
  str_in n names = false →
  assoc n (columns (drop_columns names df)) = assoc n (columns df).
Proof.
  intros Hn. unfold drop_columns; simpl.
  induction (columns df) as [|[k c] cols IH]; simpl; [done|].
  rewrite filter_cons. simpl. destruct (String.eqb n k) eqn:E.
  - apply String.eqb_eq in E as <-. rewrite decide_True by done. simpl.
    by rewrite String.eqb_refl.
  - destruct (decide (str_in k names = false)); simpl; [by rewrite E|done].
Qed.

Lemma excluded_request (env : Env) (sid : Z) (start_date end_date : option date_bound)
    (include_weather : bool) :
  isin sid excluded_stations = true →
  get_station_data env (Some sid) start_date end_date include_weather
  = Err (ValueError "Station is excluded from training/prediction").
Proof.
  intros Hsid. unfold get_station_data.
  assert (Hq : query_measurements env (Some sid) start_date end_date
               = Err (ValueError "Station is excluded from training/prediction")).
  { unfold query_measurements. by rewrite Hsid. }
  assert (Hm : ∀ df, merged_station_data env (Some sid) start_date end_date ≠ Ok df).
  { intros df Hrun. unfold merged_station_data in Hrun. rewrite Hsid in Hrun.
    apply bind_Ok in Hrun as (d0 & _ & Hrun). apply bind_Ok in Hrun as (ids & _ & Hrun).
    by apply bind_Ok in Hrun as (d1 & Hd1 & _). }
  destruct include_weather.
  - destruct (merged_station_data env (Some sid) start_date end_date) eqn:E.
    + by destruct (Hm a).
    + by rewrite Hq.
  - by rewrite Hq.
Qed.

(** The frame returned by [get_station_data] has no row of an excluded
    station. *)
Lemma station_data_not_excluded (env : Env) (station_id : option Z)
    (start_date end_date : option date_bound) (include_weather : bool) (df : DataFrame) :
  get_station_data env station_id start_date end_date include_weather = Ok df →
  ∃ ids, assoc "station_id" (columns df) = Some (Int ids)
         ∧ Forall (λ s, isin s excluded_stations = false) ids.
Proof.
  unfold get_station_data. intros Hrun.
  assert (Hmerged : ∀ d, merged_station_data env station_id start_date end_date = Ok d →
            ∃ ids, assoc "station_id" (columns d) = Some (Int ids)
                   ∧ Forall (λ s, isin s excluded_stations = false) ids).
  { clear. intros d Hrun. unfold merged_station_data in Hrun.
    apply bind_Ok in Hrun as (d0 & _ & Hrun).
    set (d00 := drop_columns _ (rename_columns _ d0)) in Hrun.
    apply bind_Ok in Hrun as (ids & Hids & Hrun). apply station_ids_Ok in Hids.
    set (d01 := df_filter _ d00) in Hrun.
    assert (H01 : assoc "station_id" (columns d01)
                  = Some (Int (sel (map (λ s, negb (isin s excluded_stations)) ids) ids)))
      by (unfold d01; by rewrite df_filter_get, Hids).
    apply bind_Ok in Hrun as (d1 & Hd1 & Hrun).
    assert (∃ ids1, assoc "station_id" (columns d1) = Some (Int ids1)
                    ∧ Forall (λ s, isin s excluded_stations = false) ids1)
      as (ids1 & Hids1 & HP1).
    { destruct station_id as [sid|].
      - destruct (isin sid excluded_stations); [discriminate|].
        apply bind_Ok in Hd1 as (x & Hx & Hd1). apply station_ids_Ok in Hx.
        destruct (nrows _ =? 0)%nat; [discriminate|]. injection Hd1 as <-.
        eexists. split; [by rewrite df_filter_get, Hx|].
        rewrite H01 in Hx. injection Hx as <-. apply sel_Forall, sel_not_excluded.
      - injection Hd1 as <-. eexists. split; [exact H01|apply sel_not_excluded]. }
    by eapply sort_values_station_ids. }
  destruct (if include_weather then merged_station_data env station_id start_date end_date
            else Err (ValueError "no weather")) as [d|e] eqn:E.
  - inv_ok. destruct include_weather; [by apply Hmerged|discriminate].
  - clear E Hmerged. apply bind_Ok in Hrun as (dq & Hq & Hrun).
    unfold query_measurements in Hq.
    apply bind_Ok in Hq as (eq_station & _ & Hq). apply bind_Ok in Hq as (ids & Hids & Hq).
    apply bind_Ok in Hq as (ts & _ & Hq). apply bind_Ok in Hq as (all_data & Hsort & Hq).
    destruct (nrows all_data =? 0)%nat; [discriminate|]. injection Hq as <-.
    apply station_ids_Ok in Hids.
    assert (∃ ids1, assoc "station_id" (columns all_data) = Some (Int ids1)
                    ∧ Forall (λ s, isin s excluded_stations = false) ids1)
      as (ids1 & Hids1 & HP1).
    { eapply (sort_values_station_ids _ _ _ _ _ Hsort).
      - by rewrite df_filter_get, Hids.
      - do 2 apply sel_zip_and. apply sel_not_excluded. }
    eapply (sort_values_station_ids _ _ _ _ _ Hrun); [|exact HP1].
    by rewrite drop_columns_other.
Qed.

Lemma isin_excluded (s : Z) : isin s excluded_stations = false → s ≠ 1 ∧ s ≠ 7.
Proof. unfold isin, excluded_stations. simpl. lia. Qed.

Lemma preprocess_data_not_excluded `{Numpy} (env : Env) (station_id : option Z)
    (start_date end_date : option date_bound) (hz : list Z)
    (custom : option (gmap string json)) (res : PreprocessResult) :
  preprocess_data env station_id start_date end_date hz custom = Ok res →
  ∃ ids, assoc "station_id" (columns (processed_data res)) = Some (Int ids)
         ∧ Forall (λ s, isin s excluded_stations = false) ids.
Proof.
  unfold preprocess_data. intros Hrun.
  apply bind_Ok in Hrun as (d0 & Hd0 & Hrun). apply bind_Ok in Hrun as (d1 & Hd1 & Hrun).
  apply bind_Ok in Hrun as (ts & _ & Hrun). inv_ok. simpl.
  destruct (station_data_not_excluded _ _ _ _ _ _ Hd0) as (ids & Hids & HP).
  by eapply run_stages_station_ids.
Qed.

Lemma fill_latest_keeps_int (df X X' : DataFrame) (names : list string) (ids idsX : list Z) :
  assoc "station_id" (columns df) = Some (Int ids) →
  foldM (fill_latest df) X names = Ok X' →
  assoc "station_id" (columns X) = Some (Int idsX) →
  assoc "station_id" (columns X') = Some (Int idsX).
Proof.
  intros Hids Hrun HX.
  eapply (foldM_invariant (λ st, assoc "station_id" (columns st) = Some (Int idsX)));
    [|exact HX|exact Hrun].
  intros st col st' _ Hst Hfill. rewrite <- Hst.
  apply (fill_latest_other df st st' col); [done|]. intros ->.
  unfold fill_latest, df_col in Hfill. rewrite Hids, Hst in Hfill. discriminate.
Qed.

(** C3.  Whatever the tables and the merge service hold, no row of a
    FeatureTable or of a LatestFeatureVector carries station 1 or 7, and a
    request that names station 1 or 7 fails with the error of its first
    step: [get_station_data] raises before [preprocess_data] runs any
    stage, and the forecast endpoint answers 400 before it prepares any
    feature. *)
Theorem excluded_stations_never_appear {np : Numpy} (env : Env) :
  (∀ station_id start_date end_date hz custom res,
     preprocess_data env station_id start_date end_date hz custom = Ok res →
     ∃ ids, assoc "station_id" (columns (processed_data res)) = Some (Int ids)
            ∧ Forall (λ s, s ≠ 1 ∧ s ≠ 7) ids)
  ∧ (∀ station_id X names,
       prepare_latest_data_for_prediction env station_id = Ok (Some (X, names)) →
       ∃ ids, assoc "station_id" (columns X) = Some (Int ids)
              ∧ Forall (λ s, s ≠ 1 ∧ s ≠ 7) ids)
  ∧ (∀ sid, sid = 1 ∨ sid = 7 →
       (∀ start_date end_date include_weather,
          get_station_data env (Some sid) start_date end_date include_weather
          = Err (ValueError "Station is excluded from training/prediction"))
       ∧ (∀ start_date end_date hz custom,
            preprocess_data env (Some sid) start_date end_date hz custom
            = Err (ValueError "Station is excluded from training/prediction"))
       ∧ (∀ reg request, req_station_id request = Some sid →
            generate_forecasts_endpoint env reg request
            = Err (HTTPException 400 "Station is excluded from predictions"))).
Proof.
  split; [|split].
  - intros station_id start_date end_date hz custom res Hrun.
    destruct (preprocess_data_not_excluded _ _ _ _ _ _ _ Hrun) as (ids & Hids & HP).
    exists ids. split; [done|]. eapply Forall_impl; [exact HP|]. apply isin_excluded.
  - intros station_id X names Hrun. unfold prepare_latest_data_for_prediction in Hrun.
    apply bind_Ok in Hrun as (res & Hres & Hrun).
    destruct (nrows (processed_data res) =? 0)%nat; [discriminate|].
    apply bind_Ok in Hrun as (features & Hf & Hrun).
    apply bind_Ok in Hrun as (X' & HX' & Hrun). injection Hrun as <- <-.
    destruct (preprocess_data_not_excluded _ _ _ _ _ _ _ Hres) as (ids & Hids & HP).
    destruct (select_columns_get _ _ _ "station_id" Hf) as [Hget Hrows].
    { apply list_elem_of_filter. split; [by split|].
      apply list_elem_of_fmap. exists ("station_id", Int ids). split; [done|].
      by apply assoc_elem. }
    exists (drop (nrows features - 1) ids). split.
    + eapply fill_latest_keeps_int; [exact Hids|exact HX'|].
      by rewrite last_row_get, Hget, Hids.
    + apply Forall_drop. eapply Forall_impl; [exact HP|]. apply isin_excluded.
  - intros sid Hsid.
    assert (Hin : isin sid excluded_stations = true) by (by destruct Hsid as [-> | ->]).
    split; [|split].
    + intros. by apply excluded_request.
    + intros. unfold preprocess_data. by rewrite excluded_request.
    + intros reg request Hreq. unfold generate_forecasts_endpoint.
      by rewrite Hreq, Hin.
Qed.

(** The station table of [env_mixed_stations] holds stations 1, 2 and 7:
    only station 2 reaches the processed frame, and a request for station
    7 is refused. *)
Example mixed_stations_are_filtered :
  option_map (λ res, assoc "station_id" (columns (processed_data res)))
             (match @preprocess_data approx_numpy env_mixed_stations None None None [15] None
              with Ok res => Some res | Err _ => None end)
  = Some (Some (Int [2; 2]))
  ∧ @preprocess_data approx_numpy env_mixed_stations (Some 7) None None [15] None
    = Err (ValueError "Station is excluded from training/prediction").
Proof. split; reflexivity. Qed.

(** ** Recursive predictor *)

Lemma df_set_scalar_nrows (n : string) (v : option Q) (X : DataFrame) :
  nrows (df_set_scalar n v X) = nrows X.
Proof. done. Qed.

Lemma df_has_set (n n' : string) (c : column) (X : DataFrame) :
  df_has n X = true → df_has n (df_set n' c X) = true.
Proof.
  intros H. apply df_has_true. apply df_has_true in H.
  destruct (decide (n' = n)) as [->|Hne].
  - rewrite df_set_get_eq. by eexists.
  - by rewrite df_set_get_ne.
Qed.

Lemma recursive_update_nrows (prev : option (option Q)) (X : DataFrame) :
  nrows (recursive_update prev X) = nrows X.
Proof.
  unfold recursive_update. destruct prev as [p|]; [|done].
  destruct (df_has "water_level" X); destruct (df_has "water_level_lag_1h" _); done.
Qed.

Lemma recursive_update_has (prev : option (option Q)) (X : DataFrame) (n : string) :
  df_has n X = true → df_has n (recursive_update prev X) = true.
Proof.
  intros H. unfold recursive_update. destruct prev as [p|]; [|done].
  destruct (df_has "water_level" X); destruct (df_has "water_level_lag_1h" _);
    unfold df_set_scalar; auto using df_has_set.
Qed.

(** The "recursive update" overwrites [water_level] and
    [water_level_lag_1h], when the frame has them, with the previous
    prediction. *)
Lemma recursive_update_value (p : option Q) (X : DataFrame) (n : string) :
  n = "water_level" ∨ n = "water_level_lag_1h" →
  df_has n X = true →
  assoc n (columns (recursive_update (Some p) X)) = Some (Num (replicate (nrows X) p)).
Proof.
  intros [-> | ->] H; unfold recursive_update.
  - rewrite H. destruct (df_has "water_level_lag_1h" _).
    + unfold df_set_scalar at 1. rewrite df_set_get_ne by discriminate.
      apply df_set_get_eq.
    + apply df_set_get_eq.
  - assert (Hh : df_has "water_level_lag_1h"
                   (if df_has "water_level" X
                    then df_set_scalar "water_level" p X else X) = true).
    { destruct (df_has "water_level" X); [|done]. by apply df_has_set. }
    rewrite Hh. unfold df_set_scalar at 1. rewrite df_set_get_eq.
    by destruct (df_has "water_level" X).
Qed.

Lemma add_missing_features (scaler : option Scaler) (names missing : list string)
    (X : DataFrame) (n : string) :
  n ∉ missing →
  assoc n (columns (foldl (λ X feat,
                             df_set_scalar feat
                               (Some (missing_feature_value scaler names feat)) X)
                          X missing))
  = assoc n (columns X)
  ∧ nrows (foldl (λ X feat,
                    df_set_scalar feat (Some (missing_feature_value scaler names feat)) X)
                 X missing) = nrows X.
Proof.
  revert X. induction missing as [|f missing IH]; intros X Hn; simpl; [done|].
  apply not_elem_of_cons in Hn as [Hne Hn].
  destruct (IH (df_set_scalar f (Some (missing_feature_value scaler names f)) X) Hn)
    as [-> ->].
  split; [|done]. unfold df_set_scalar. by apply df_set_get_ne.
Qed.

(** Alignment keeps a column that the frame has and the model expects. *)
Lemma align_features_keeps (model : Model) (scaler : option Scaler)
    (names : list string) (X X' : DataFrame) (n : string) :
  align_features model scaler names X = Ok X' →
  match feature_names_in_ model with Some fs => n ∈ fs | None => True end →
  df_has n X = true →
  assoc n (columns X') = assoc n (columns X) ∧ nrows X' = nrows X.
Proof.
  unfold align_features. intros Hrun Hkeep Hhas.
  destruct (feature_names_in_ model) as [fs|]; [|by inv_ok].
  destruct (select_columns_get _ _ _ n Hrun Hkeep) as [-> ->].
  apply add_missing_features. intros [Hmiss _]%list_elem_of_filter. congruence.
Qed.

(** One iteration either leaves the log and the previous prediction as
    they were, or calls a model on a frame whose [water_level] (and
    [water_level_lag_1h]) is the previous prediction. *)
Lemma forecast_step_cases (reg : Registry) (names : list string) (sid : option Z)
    (now : Z) (st : LoopState) (h : Z) (n : string) :
  n = "water_level" ∨ n = "water_level_lag_1h" →
  models_keep reg n →
  df_has n (X_current st) = true →
  df_has n (X_current (forecast_step reg names sid now st h)) = true
  ∧ (model_inputs (forecast_step reg names sid now st h) = model_inputs st
     ∧ previous_prediction (forecast_step reg names sid now st h) = previous_prediction st
     ∨ ∃ c, model_inputs (forecast_step reg names sid now st h) = model_inputs st ++ [c]
            ∧ previous_prediction (forecast_step reg names sid now st h)
              = Some (call_predicted c)
            ∧ call_horizon c = h
            ∧ ∀ p, previous_prediction st = Some p →
                   assoc n (columns (call_features c))
                   = Some (Num (replicate (nrows (call_features c)) p))).
Proof.
  intros Hn Hkeep Hhas. unfold forecast_step.
  set (X1 := recursive_update (previous_prediction st) (X_current st)).
  assert (Hhas1 : df_has n X1 = true) by (by apply recursive_update_has).
  destruct (find_model reg h _) as [model_name|]; [|split; [done|by left]].
  unfold use_model. simpl.
  destruct (search_model_versions reg model_name) as [vs|]; [|split; [done|by left]].
  destruct (latest_version vs) as [latest|]; [|split; [done|by left]].
  destruct (load_model reg model_name (version latest)) as [model|] eqn:Hload;
    [|split; [done|by left]].
  specialize (Hkeep _ _ _ Hload).
  destruct (align_features model _ names X1) as [X|] eqn:Halign; [|split; [done|by left]].
  destruct (align_features_keeps _ _ _ _ _ n Halign Hkeep Hhas1) as [HX Hrows].
  assert (HhasX : df_has n X = true).
  { apply df_has_true. rewrite HX. by apply df_has_true. }
  destruct (match load_scaler reg (run_id latest) with
            | Ok sc => Some sc
            | Err _ => None
            end) as [sc|].
  - destruct (scaler_transform sc X) as [Xs|]; [|split; [done|by left]].
    destruct (predict model Xs) as [preds|]; [|split; [done|by left]].
    simpl. split; [done|]. right. eexists. split; [done|]. split; [done|].
    split; [done|]. simpl. intros p Hp. rewrite HX, Hrows. unfold X1. rewrite Hp.
    rewrite recursive_update_nrows. by apply recursive_update_value.
  - destruct (predict model X) as [preds|]; [|split; [done|by left]].
    simpl. split; [done|]. right. eexists. split; [done|]. split; [done|].
    split; [done|]. simpl. intros p Hp. rewrite HX, Hrows. unfold X1. rewrite Hp.
    rewrite recursive_update_nrows. by apply recursive_update_value.
Qed.

Lemma forecast_loop_snoc (reg : Registry) (names : list string) (sid : option Z)
    (now : Z) (X : DataFrame) (hs : list Z) (h : Z) :
  forecast_loop reg names sid now X (hs ++ [h])
  = forecast_step reg names sid now (forecast_loop reg names sid now X hs) h.
Proof. unfold forecast_loop. by rewrite foldl_app. Qed.

(** The recursive update where it works.  For every horizon after the
    first at which a prediction was produced, the aligned feature vector
    given to the next model (before the scaler is applied) has
    [water_level] and [water_level_lag_1h] equal to the value predicted at
    the previous horizon, provided the latest feature vector has that
    column and every model that can be loaded lists it among its features
    (or has no feature list), so that no alignment drops it. *)
Theorem next_model_sees_previous_prediction (reg : Registry) (names : list string)
    (sid : option Z) (now : Z) (X_latest : DataFrame) (horizons : list Z) (n : string)
    (i : nat) (prev next : ModelCall) :
  n = "water_level" ∨ n = "water_level_lag_1h" →
  models_keep reg n →
  df_has n X_latest = true →
  model_inputs (forecast_loop reg names sid now X_latest horizons) !! i = Some prev →
  model_inputs (forecast_loop reg names sid now X_latest horizons) !! S i = Some next →
  assoc n (columns (call_features next))
  = Some (Num (replicate (nrows (call_features next)) (call_predicted prev))).
Proof.
  intros Hn Hkeep Hhas. revert i prev next.
  cut (df_has n (X_current (forecast_loop reg names sid now X_latest horizons)) = true
       ∧ previous_prediction (forecast_loop reg names sid now X_latest horizons)
         = option_map call_predicted
             (last (model_inputs (forecast_loop reg names sid now X_latest horizons)))
       ∧ ∀ i prev next,
           model_inputs (forecast_loop reg names sid now X_latest horizons) !! i = Some prev →
           model_inputs (forecast_loop reg names sid now X_latest horizons) !! S i = Some next →
           assoc n (columns (call_features next))
           = Some (Num (replicate (nrows (call_features next)) (call_predicted prev)))).
  { intros (_ & _ & H). exact H. }
  induction horizons as [|h hs IH] using rev_ind.
  - simpl. split; [done|]. split; [done|]. intros i prev next Hi. by destruct i.
  - rewrite forecast_loop_snoc.
    set (st := forecast_loop reg names sid now X_latest hs) in *.
    destruct IH as (Hhas_st & Hprev & Hpairs).
    destruct (forecast_step_cases reg names sid now st h n Hn Hkeep Hhas_st)
      as (Hhas' & [[Hlog Hpp]|(c & Hlog & Hpp & _ & Hfed)]).
    + split; [done|]. rewrite Hlog, Hpp. split; [done|]. exact Hpairs.
    + split; [done|]. rewrite Hlog, Hpp. split; [by rewrite last_snoc|].
      intros i prev next Hi HSi.
      destruct (decide (S i < length (model_inputs st))%nat) as [Hlt|Hge].
      * rewrite lookup_app_l in Hi by lia. rewrite lookup_app_l in HSi by lia. eauto.
      * assert (Hi_lt : (i < length (model_inputs st))%nat).
        { apply lookup_lt_Some in HSi. rewrite length_app in HSi. simpl in HSi.
          apply lookup_lt_Some in Hi as Hi'. rewrite length_app in Hi'. simpl in Hi'. lia. }
        assert (HSi_eq : S i = length (model_inputs st)) by lia.
        rewrite lookup_app_l in Hi by lia.
        rewrite HSi_eq, list_lookup_middle in HSi by done. injection HSi as <-.
        apply Hfed. rewrite Hprev.
        assert (Hlast : last (model_inputs st) = Some prev).
        { rewrite last_lookup. rewrite <- Hi. f_equal. lia. }
        by rewrite Hlast.
Qed.

Lemma registry_same_features_keeps (n : string) :
  n ∈ all_features → models_keep registry_same_features n.
Proof.
  intros Hn model_name v m Hload. unfold registry_same_features, two_model_registry in Hload.
  simpl in Hload. destruct (String.eqb model_name _); injection Hload as <-; exact Hn.
Qed.

(** The scenario of the specification: horizons 15 and 30, a model for
    each on the same features, a latest water level of 500 and a
    15-minute prediction of 495.  The 30-minute model is given
    [water_level = 495]. *)
Lemma next_model_sees_previous_prediction_witness :
  length (model_inputs run_same_features) = 2%nat
  ∧ assoc "water_level" (columns latest_features) = Some (Num [level 500])
  ∧ call_horizon (model_call 0 run_same_features) = 15
  ∧ call_predicted (model_call 0 run_same_features) = level 495
  ∧ call_horizon (model_call 1 run_same_features) = 30
  ∧ assoc "water_level" (columns (call_features (model_call 1 run_same_features)))
    = Some (Num [level 495]).
Proof.
  repeat (split; [reflexivity|]).
  refine (next_model_sees_previous_prediction registry_same_features all_features
            (Some 2) 0 latest_features [15; 30] "water_level" 0
            (model_call 0 run_same_features) (model_call 1 run_same_features) _ _ _ _ _).
  - by left.
  - apply registry_same_features_keeps. right. apply list_elem_of_here.
  - reflexivity.
  - vm_compute. reflexivity.
  - vm_compute. reflexivity.
Defined.

(** C4 (code bug).  The claim, and the comments of the loop ("each
    prediction will be used as input for the next horizon"), ask that the
    30-minute model be given [water_level = 495] once the 15-minute model
    has predicted 495 from a latest level of 500.  With a 15-minute model
    fitted without [water_level], the alignment to that model,
    [X_current = X_current[expected_features]], narrows the frame that is
    carried through the loop; the guarded overwrite of [water_level] is
    then skipped and the 30-minute model receives the fill value 0, not the
    prediction 495. *)
Lemma dropped_column_counterexample :
  length (model_inputs run_narrow_first) = 2%nat
  ∧ assoc "water_level" (columns latest_features) = Some (Num [level 500])
  ∧ call_horizon (model_call 0 run_narrow_first) = 15
  ∧ call_predicted (model_call 0 run_narrow_first) = level 495
  ∧ call_horizon (model_call 1 run_narrow_first) = 30
  ∧ assoc "water_level" (columns (call_features (model_call 1 run_narrow_first)))
    = Some (Num [level 0])
  ∧ assoc "water_level" (columns (call_scaled (model_call 1 run_narrow_first)))
    = Some (Num [level 0])
  ∧ assoc "water_level" (columns (call_features (model_call 1 run_narrow_first)))
    ≠ Some (Num [level 495]).
Proof.
  repeat (split; [reflexivity|]). vm_compute. discriminate.
Qed.

(** ** Rolling statistics *)

Lemma elem_of_concat {A} (x : A) (ls : list (list A)) :
  x ∈ concat ls ↔ ∃ l, x ∈ l ∧ l ∈ ls.
Proof.
  induction ls as [|l0 ls IH]; simpl.
  - split; [by intros ?%elem_of_nil|]. intros (l & _ & Hl). by apply elem_of_nil in Hl.
  - rewrite elem_of_app, IH. split.
    + intros [Hx|(l & Hx & Hl)]; [exists l0; split; [done|by left]|].
      exists l. split; [done|by right].
    + intros (l & Hx & [->|Hl]%elem_of_cons); [by left|]. right. by exists l.
Qed.

Lemma rolling_Ok (wp : Z) (agg : nat → list (option Q) → option Q)
    (l vals : list (option Q)) :
  rolling wp (JInt 1) agg l = Ok vals →
  1 ≤ wp
  ∧ length vals = length l
  ∧ ∀ t, (t < length l)%nat →
         cell_at vals (Z.of_nat t) = agg 1%nat (window_at (Z.to_nat wp) t l).
Proof.
  unfold rolling. intros H. simpl in H.
  destruct (Z.ltb_spec wp 1) as [?|Hwp]; [discriminate|]. simpl in H.
  destruct (Z.ltb_spec wp 0) as [?|_]; [lia|]. inv_ok.
  split; [done|]. split; [by rewrite length_map, length_seq|].
  intros t Ht. unfold cell_at. destruct (Z.ltb_spec (Z.of_nat t) 0) as [?|_]; [lia|].
  rewrite Nat2Z.id, list_lookup_fmap, lookup_seq_lt by done. done.
Qed.

Lemma rolling_length (wp : Z) (mp : json) (agg : nat → list (option Q) → option Q)
    (l vals : list (option Q)) :
  rolling wp mp agg l = Ok vals → length vals = length l.
Proof.
  unfold rolling. intros H. apply bind_Ok in H as (minp & _ & H).
  destruct (wp <? 0); [discriminate|]. inv_ok. by rewrite length_map, length_seq.
Qed.



Lemma rolling_assign_job (agg : nat → list (option Q) → option Q) (wp : Z) (mp : json)
    (mask : list bool) (sdf : DataFrame) (wl : list (option Q)) (name : string)
    (d d' : DataFrame) :
  df_float "water_level" sdf = Ok wl →
  rolling_assign agg wp mp mask sdf name d = Ok d' →
  ∃ vals, rolling wp mp agg wl = Ok vals ∧ assign_rows mask d (name, vals) = Ok d'.
Proof.
  intros Hwl H. unfold rolling_assign in H. rewrite Hwl in H. cbn [bind] in H.
  inv_bind H as vals Hvals. by exists vals.
Qed.

Lemma rolling_steps_jobs `{Numpy} (p : pph) (st mp : json) (mask : list bool)
    (sdf : DataFrame) (wl : list (option Q)) (ws : list Z) (d d' : DataFrame) :
  df_float "water_level" sdf = Ok wl →
  foldM (rolling_step p st mp mask sdf) d ws = Ok d' →
  ∃ jobss, mapM (rolling_jobs p st mp wl) ws = Ok jobss
           ∧ foldM (assign_rows mask) d (concat jobss) = Ok d'.
Proof.
  intros Hwl. revert d. induction ws as [|w ws IH]; intros d Hrun; simpl in Hrun.
  - inv_ok. by exists [].
  - inv_bind Hrun as d2 Hstep. destruct (IH _ Hrun) as (jobss & Hjobss & Hfold).
    unfold rolling_step in Hstep.
    inv_bind Hstep as wp Hwp. inv_bind Hstep as want_mean Hmean.
    inv_bind Hstep as d1 Hd1. inv_bind Hstep as want_std Hstd.
    assert (∃ mj, (if want_mean
                   then let* vals := rolling wp mp roll_mean wl in
                        Ok [(rolling_mean_name w, vals)]
                   else Ok []) = Ok mj
                  ∧ foldM (assign_rows mask) d mj = Ok d1) as (mj & Hmj & Hfm).
    { destruct want_mean; [|inv_ok; by exists []].
      destruct (rolling_assign_job _ _ _ _ _ _ _ _ _ Hwl Hd1) as (vals & Hv & Ha).
      exists [(rolling_mean_name w, vals)]. rewrite Hv. split; [done|].
      simpl. by rewrite Ha. }
    assert (∃ sj, (if want_std
                   then let* vals := rolling wp mp roll_std wl in
                        Ok [(rolling_std_name w, vals)]
                   else Ok []) = Ok sj
                  ∧ foldM (assign_rows mask) d1 sj = Ok d2) as (sj & Hsj & Hfs).
    { destruct want_std; [|inv_ok; by exists []].
      destruct (rolling_assign_job _ _ _ _ _ _ _ _ _ Hwl Hstep) as (vals & Hv & Ha).
      exists [(rolling_std_name w, vals)]. rewrite Hv. split; [done|].
      simpl. by rewrite Ha. }
    exists ((mj ++ sj) :: jobss). split.
    + simpl. unfold rolling_jobs at 1. rewrite Hwp, Hmean. cbn [bind].
      rewrite Hmj. cbn [bind]. rewrite Hstd. cbn [bind]. rewrite Hsj. cbn [bind].
      by rewrite Hjobss.
    + simpl. rewrite !foldM_app, Hfm. cbn [bind]. rewrite Hfs. cbn [bind]. done.
Qed.

Lemma rolling_station_spec `{Numpy} (windows st mp : json) (df0 : DataFrame)
    (ids : list Z) (ts : list (option Z)) (wl : list (option Q)) (d : DataFrame) (s : Z)
    (d' : DataFrame) :
  assoc "station_id" (columns df0) = Some (Int ids) →
  assoc "measured_at" (columns df0) = Some (Time ts) →
  ascending ts = true →
  df_float "water_level" df0 = Ok wl →
  length ids = nrows df0 →
  (∀ n, n ∈ ["station_id"; "measured_at"; "water_level"] →
        assoc n (columns d) = assoc n (columns df0)) →
  df_wf d → nrows d = nrows df0 → rolling_station windows st mp d s = Ok d' →
  ∃ jobs,
    ((count_true (station_mask s ids) ≤ 1)%nat ∧ jobs = []
     ∨ (1 < count_true (station_mask s ids))%nat
       ∧ ∃ ws jobss, as_int_list windows = Ok ws
           ∧ mapM (rolling_jobs (series_pph (sel (station_mask s ids) ts)) st mp
                                (in_time_order (sel (station_mask s ids) ts)
                                               (sel (station_mask s ids) wl))) ws
             = Ok jobss
           ∧ jobs = concat jobss)
    ∧ foldM (assign_rows (station_mask s ids)) d jobs = Ok d'.
Proof.
  intros Hids Hts Hasc Hwl Hlen Hbase Hwf Hn Hrun.
  assert (Hids' : station_ids d = Ok ids).
  { apply station_ids_Ok. rewrite Hbase; [done|]. by left. }
  assert (Hts' : assoc "measured_at" (columns d) = Some (Time ts)).
  { rewrite Hbase; [done|]. right. by left. }
  assert (Hwl' : df_float "water_level" d = Ok wl).
  { rewrite <- Hwl. apply same_base_float, Hbase. right. right. by left. }
  assert (Hm : length (station_mask s ids) = nrows d).
  { rewrite station_mask_length. congruence. }
  unfold rolling_station in Hrun. rewrite Hids' in Hrun. cbn [bind] in Hrun.
  destruct (sorted_station_frame d ts (station_mask s ids) Hwf Hm Hts' Hasc)
    as (station_df & Hsort & Hrows & Hpph & Hfloat).
  rewrite Hsort in Hrun. cbn [bind] in Hrun. rewrite Hrows in Hrun.
  destruct (Nat.ltb_spec 1 (count_true (station_mask s ids))) as [Hgt|Hle].
  - rewrite Hpph in Hrun. cbn [bind] in Hrun.
    inv_bind Hrun as ws Hws.
    destruct (rolling_steps_jobs _ _ _ _ _ _ _ _ _ (Hfloat _ _ Hwl') Hrun)
      as (jobss & Hjobss & Hfold).
    exists (concat jobss). split; [|done]. right. split; [done|]. by exists ws, jobss.
  - inv_ok. exists []. split; [by left|done].
Qed.


Lemma rolling_jobs_ok `{Numpy} (p : pph) (st mp : json) (wl : list (option Q))
    (ws : list Z) (jobss : list (list (string * list (option Q)))) :
  mapM (rolling_jobs p st mp wl) ws = Ok jobss →
  Forall (λ j, (j.1 ∉ ["station_id"; "measured_at"; "water_level"])
               ∧ length j.2 = length wl) (concat jobss).
Proof.
  intros Hrun. apply Forall_forall. intros [n v] Hin.
  apply elem_of_concat in Hin as (jobs & Hin & Hjobs).
  destruct (mapM_Ok_inv _ _ _ _ Hrun Hjobs) as (w & _ & Hw).
  unfold rolling_jobs in Hw.
  inv_bind Hw as wp Hwp. inv_bind Hw as want_mean Hmean. inv_bind Hw as mj Hmj.
  inv_bind Hw as want_std Hstd. inv_bind Hw as sj Hsj.
  assert (jobs = mj ++ sj) as -> by congruence.
  apply elem_of_app in Hin as [Hin|Hin].
  - destruct want_mean; [|inv_ok; by apply elem_of_nil in Hin].
    inv_bind Hmj as vals Hvals. assert (mj = [(rolling_mean_name w, vals)]) as -> by congruence.
    apply list_elem_of_singleton in Hin. apply (f_equal fst) in Hin as Hn.
    apply (f_equal snd) in Hin as Hv. simpl in *. subst n v.
    split; [apply rolling_mean_name_base|by eapply rolling_length].
  - destruct want_std; [|inv_ok; by apply elem_of_nil in Hin].
    inv_bind Hsj as vals Hvals. assert (sj = [(rolling_std_name w, vals)]) as -> by congruence.
    apply list_elem_of_singleton in Hin. apply (f_equal fst) in Hin as Hn.
    apply (f_equal snd) in Hin as Hv. simpl in *. subst n v.
    split; [apply rolling_std_name_base|by eapply rolling_length].
Qed.











(** * Further properties of the transforms *)

(** ** Rate of change *)

Lemma diff_length (n : Z) (l : list (option Q)) : length (diff n l) = length l.
Proof. unfold diff. rewrite length_zip_with, shift_length. lia. Qed.

(** Row [i] of [diff(n)] is the row minus row [i - n], NaN when either is
    missing. *)
Lemma cell_at_diff (n : Z) (l : list (option Q)) (i : Z) :
  0 ≤ i < Z.of_nat (length l) →
  cell_at (diff n l) i = lift2 Qminus (cell_at l i) (cell_at l (i - n)).
Proof.
  intros Hi. rewrite <- (cell_at_shift n l i Hi). unfold cell_at, diff.
  destruct (Z.ltb_spec i 0) as [?|_]; [lia|].
  rewrite lookup_zip_with.
  destruct (lookup_lt_is_Some_2 l (Z.to_nat i)) as [x ->]; [lia|].
  destruct (lookup_lt_is_Some_2 (shift n l) (Z.to_nat i)) as [y ->];
    [rewrite shift_length; lia|].
  simpl. by destruct x, y.
Qed.









(** ** Grouped transforms that can fail *)

Lemma group_loop_result (ids : list Z)
    (f : list (option Q) → result (list (option Q)))
    (col : list (option Q)) (stations : list Z) (acc res : list (option Q)) :
  (∀ l r, f l = Ok r → length r = length l) →
  length ids = length col → length acc = length col →
  NoDup stations →
  foldM (λ acc sid, let* vals := f (sel (station_mask sid ids) col) in
                    Ok (scatter (station_mask sid ids) vals acc)) acc stations = Ok res →
  length res = length col
  ∧ (∀ s, s ∈ stations →
          f (sel (station_mask s ids) col) = Ok (sel (station_mask s ids) res)).
Proof.
  intros Hf Hids Hacc. revert res.
  induction stations as [|s stations IH] using rev_ind; intros res Hnd H.
  - simpl in H. inv_ok. split; [done|]. intros s Hs. by apply elem_of_nil in Hs.
  - rewrite foldM_app in H. inv_bind H as r1 Hr1. simpl in H.
    inv_bind H as r2 Hr2. injection H as <-.
    inv_bind Hr2 as vals Hvals. injection Hr2 as <-.
    apply NoDup_app in Hnd as (Hnd & Hfresh & _).
    destruct (IH r1 Hnd Hr1) as (Hlen & Hdone).
    split; [by rewrite scatter_length|].
    intros s' [Hs'|Hs']%elem_of_app.
    + rewrite sel_scatter_disjoint; [by apply Hdone|].
      apply station_mask_disjoint. intros ->. apply (Hfresh s'); [done|]. by left.
    + apply list_elem_of_singleton in Hs' as ->.
      rewrite sel_scatter_same; [done| |].
      * rewrite station_mask_length. congruence.
      * rewrite (Hf _ _ Hvals). apply sel_length. rewrite station_mask_length. congruence.
Qed.

(** Each station's rows of the result are the transform of that station's
    rows, and the transform succeeded on each of them. *)
Lemma group_transform_result (ids : list Z)
    (f : list (option Q) → result (list (option Q))) (col res : list (option Q)) :
  (∀ l r, f l = Ok r → length r = length l) →
  length ids = length col →
  group_transform ids f col = Ok res →
  length res = length col
  ∧ ∀ s, s ∈ ids → f (sel (station_mask s ids) col) = Ok (sel (station_mask s ids) res).
Proof.
  intros Hf Hids H. unfold group_transform in H.
  destruct (group_loop_result ids f col (unique ids) (replicate (length col) None) res
              Hf Hids) as (Hlen & Hrows); auto using unique_NoDup, length_replicate.
  split; [done|]. intros s Hs. by apply Hrows, unique_elem.
Qed.

(** ** Rainfall features *)

Lemma rainfall_sum_name_inj (a b : Z) : rainfall_sum_name a = rainfall_sum_name b → a = b.
Proof.
  unfold rainfall_sum_name. intros H%append_inj_l%append_inj_r. by apply dec_inj.
Qed.

Lemma rainfall_sum_name_base (a : Z) :
  rainfall_sum_name a ∉ ["station_id"; "rainfall_1h"].
Proof.
  unfold rainfall_sum_name. rewrite !not_elem_of_cons. simpl.
  repeat split; try discriminate. apply not_elem_of_nil.
Qed.

Lemma rainfall_step_col (multi : bool) (d d' : DataFrame) (w : Z) (rain : list (option Q)) :
  df_wf d →
  has_multiple_stations d = Ok multi →
  df_float "rainfall_1h" d = Ok rain →
  rainfall_step multi d w = Ok d' →
  ∃ col, d' = df_set (rainfall_sum_name w) (Num col) d
         ∧ length col = nrows d
         ∧ ∀ s, (0 < count_true (group_mask s d))%nat →
                rolling w (JInt 1) roll_sum (sel (group_mask s d) rain)
                = Ok (sel (group_mask s d) col).
Proof.
  intros Hwf Hmulti Hrain H. unfold rainfall_step in H.
  assert (Hrain_len : length rain = nrows d) by eauto using df_float_length.
  rewrite Hrain in H. cbn [bind] in H.
  inv_bind H as vals Hvals. inv_ok. exists vals. split; [done|].
  destruct multi.
  - destruct (has_multiple_true _ Hmulti) as (ids & Hids & _).
    rewrite (proj2 (station_ids_Ok d ids) Hids) in Hvals. cbn [bind] in Hvals.
    assert (Hids_len : length ids = nrows d) by apply (df_wf_lookup d _ _ Hwf Hids).
    apply group_transform_result in Hvals as [Hlen Hrows];
      [|intros l r; apply rolling_length|congruence].
    split; [congruence|]. intros s Hs.
    unfold group_mask in *. rewrite Hids in *.
    apply Hrows. by apply count_true_station_mask.
  - split; [rewrite (rolling_length _ _ _ _ _ Hvals); lia|]. intros s Hs.
    rewrite (has_multiple_false d s) by done.
    rewrite !sel_all_true; [done| |lia].
    rewrite (rolling_length _ _ _ _ _ Hvals). lia.
Qed.

Lemma rainfall_loop (multi : bool) (df0 : DataFrame) (rain : list (option Q))
    (ws : list Z) (w : Z) (d d' : DataFrame) :
  has_multiple_stations df0 = Ok multi →
  df_float "rainfall_1h" df0 = Ok rain →
  (∀ n, n ∈ ["station_id"; "rainfall_1h"] →
        assoc n (columns d) = assoc n (columns df0)) →
  nrows d = nrows df0 → df_wf d →
  foldM (rainfall_step multi) d ws = Ok d' →
  w ∈ ws
  ∨ (∃ col, assoc (rainfall_sum_name w) (columns d) = Some (Num col)
            ∧ ∀ s, (0 < count_true (group_mask s df0))%nat →
                   rolling w (JInt 1) roll_sum (sel (group_mask s df0) rain)
                   = Ok (sel (group_mask s df0) col)) →
  ∃ col, assoc (rainfall_sum_name w) (columns d') = Some (Num col)
         ∧ ∀ s, (0 < count_true (group_mask s df0))%nat →
                rolling w (JInt 1) roll_sum (sel (group_mask s df0) rain)
                = Ok (sel (group_mask s df0) col).
Proof.
  intros Hmulti Hrain. revert d.
  induction ws as [|w1 ws IH]; intros d Hbase Hn Hwf H Hstart; simpl in H.
  - inv_ok. destruct Hstart as [Hin|?]; [|done]. by apply elem_of_nil in Hin.
  - inv_bind H as d1 Hd1.
    assert (Hsid : assoc "station_id" (columns d) = assoc "station_id" (columns df0))
      by (apply Hbase; by left).
    assert (Hrain' : df_float "rainfall_1h" d = Ok rain).
    { rewrite <- Hrain. apply same_base_float, Hbase. right. by left. }
    destruct (rainfall_step_col multi d d1 w1 rain) as (col1 & -> & Hlen1 & Hcol1); auto.
    { by rewrite (has_multiple_same df0 d). }
    refine (IH _ _ _ _ H _).
    + intros n Hn'. rewrite df_set_get_ne; [by apply Hbase|].
      intros Heq. apply (rainfall_sum_name_base w1). by rewrite Heq.
    + done.
    + apply df_wf_set; [done|exact Hlen1].
    + destruct (decide (rainfall_sum_name w1 = rainfall_sum_name w)) as [Heq|Hne].
      * right. apply rainfall_sum_name_inj in Heq as ->. exists col1.
        split; [apply df_set_get_eq|]. intros s Hs.
        rewrite <- (group_mask_same df0 d s) in * by done. by apply Hcol1.
      * destruct Hstart as [Hin|(col & Hc & Hsel)].
        -- left. apply elem_of_cons in Hin as [->|Hin]; done.
        -- right. exists col. by rewrite df_set_get_ne.
Qed.

Lemma roll_sum_value (win : list (option Q)) :
  roll_sum 1 win = if (1 <=? nobs win)%nat then Some (Qred (q_sum (dropna win))) else None.
Proof. done. Qed.

(** X2.  The rainfall transform counts its windows in rows, not in hours:
    for every configured window [w] (which must be at least 1) and every
    station, [rainfall_sum_{w}h] at row [t] of the station's rows, in frame
    order, is the sum of the non-null [rainfall_1h] values among that
    station's rows [max(0, t-w+1) .. t], whatever interval the station
    reports at; it is null only when none of these rows has a value. *)
Theorem rainfall_sum_counts_rows
    (df df' : DataFrame) (config windows : json) (ws : list Z)
    (rain : list (option Q)) (s w : Z) :
  df_wf df →
  df_float "rainfall_1h" df = Ok rain →
  dict_get config "windows" default_windows = Ok windows →
  as_int_list windows = Ok ws →
  w ∈ ws →
  (0 < count_true (group_mask s df))%nat →
  apply_rainfall_features df config = Ok df' →
  1 ≤ w
  ∧ ∃ col,
      assoc (rainfall_sum_name w) (columns df') = Some (Num col)
      ∧ ∀ t, (t < count_true (group_mask s df))%nat →
          let win := window_at (Z.to_nat w) t (sel (group_mask s df) rain) in
          (nobs win = 0%nat →
           cell_at (sel (group_mask s df) col) (Z.of_nat t) = None)
          ∧ ((1 ≤ nobs win)%nat →
             cell_at (sel (group_mask s df) col) (Z.of_nat t)
             = Some (Qred (q_sum (dropna win)))).
Proof.
  intros Hwf Hrain Hwin Hws Hw Hcount H.
  assert (Hrain_len : length rain = nrows df) by eauto using df_float_length.
  unfold apply_rainfall_features in H.
  assert (Hhas : df_has "rainfall_1h" df = true).
  { apply df_float_Ok in Hrain as (c & Hc & _). unfold df_has. by rewrite Hc. }
  rewrite Hhas, Hwin in H. cbn [negb bind] in H.
  inv_bind H as multi Hmulti. rewrite Hws in H. cbn [bind] in H.
  destruct (rainfall_loop multi df rain ws w df df' Hmulti Hrain) as (col & Hcol & Hsel);
    auto.
  specialize (Hsel s Hcount).
  destruct (rolling_Ok _ _ _ _ Hsel) as (Hpos & _ & Hcell).
  split; [done|]. exists col. split; [done|].
  assert (Hl : length (sel (group_mask s df) rain) = count_true (group_mask s df)).
  { apply sel_length. rewrite group_mask_length by done. congruence. }
  intros t Ht win. rewrite Hcell by lia. fold win. rewrite roll_sum_value.
  split; intros Hn.
  - rewrite Hn. done.
  - destruct (Nat.leb_spec 1 (nobs win)); [done|lia].
Qed.

(** The theorem at station 3 of [frame_with_rain] and a window of two
    rows: the rows of station 3 hold no rain, no rain and 5. *)
Lemma rainfall_sum_counts_rows_witness :
  1 ≤ 2
  ∧ ∃ col,
      assoc (rainfall_sum_name 2) (columns frame_with_rain_sums) = Some (Num col)
      ∧ ∀ t, (t < count_true (group_mask 3 frame_with_rain))%nat →
          let win := window_at (Z.to_nat 2) t
                       (sel (group_mask 3 frame_with_rain)
                            [level 1; None; level 2; None; level 4; level 5]) in
          (nobs win = 0%nat →
           cell_at (sel (group_mask 3 frame_with_rain) col) (Z.of_nat t) = None)
          ∧ ((1 ≤ nobs win)%nat →
             cell_at (sel (group_mask 3 frame_with_rain) col) (Z.of_nat t)
             = Some (Qred (q_sum (dropna win)))).
Proof.
  apply (rainfall_sum_counts_rows frame_with_rain frame_with_rain_sums
           rain_windows_2 (ints [2]) [2]).
  - repeat constructor.
  - reflexivity.
  - reflexivity.
  - reflexivity.
  - apply list_elem_of_here.
  - vm_compute. lia.
  - vm_compute. reflexivity.
Defined.

Lemma foldM_Ok_elem {S X} (P : S → Prop) (body : S → X → result S) (xs : list X)
    (x : X) (st st' : S) :
  (∀ s y s', P s → body s y = Ok s' → P s') → P st →
  foldM body st xs = Ok st' → x ∈ xs → ∃ s1 s2, P s1 ∧ body s1 x = Ok s2.
Proof.
  intros Hstep. revert st.
  induction xs as [|y xs IH]; intros st HP H Hx; [by apply elem_of_nil in Hx|].
  simpl in H. inv_bind H as s1 Hs1.
  apply elem_of_cons in Hx as [->|Hx]; [by exists st, s1|].
  apply (IH s1); [by eapply Hstep|done|done].
Qed.

Lemma rolling_needs_window (w : Z) (agg : nat → list (option Q) → option Q)
    (l r : list (option Q)) :
  rolling w (JInt 1) agg l = Ok r → 1 ≤ w.
Proof. intros H. by destruct (rolling_Ok _ _ _ _ H). Qed.

(** X3.  A frame with a [rainfall_1h] column and a configured window of
    zero or fewer rows never gets through the rainfall transform: pandas
    refuses [rolling(window, min_periods=1)] for a window below 1. *)
Theorem rainfall_window_below_one_raises
    (df : DataFrame) (config windows : json) (ws : list Z) (w : Z) :
  df_has "rainfall_1h" df = true →
  dict_get config "windows" default_windows = Ok windows →
  as_int_list windows = Ok ws →
  w ∈ ws → w ≤ 0 →
  is_ok (apply_rainfall_features df config) = false.
Proof.
  intros Hhas Hwin Hws Hw Hle.
  destruct (apply_rainfall_features df config) as [df'|e] eqn:H; [|done]. exfalso.
  unfold apply_rainfall_features in H. rewrite Hhas, Hwin in H. cbn [negb bind] in H.
  inv_bind H as multi Hmulti. rewrite Hws in H. cbn [bind] in H.
  destruct (foldM_Ok_elem
              (λ d, assoc "station_id" (columns d) = assoc "station_id" (columns df))
              (rainfall_step multi) ws w df df') as (d1 & d2 & Hsid & Hstep);
    [|done|done|done|].
  { intros d0 y d0' Hd0 Hy. rewrite <- Hd0. unfold rainfall_step in Hy.
    inv_bind Hy as rain0 Hrain0. inv_bind Hy as vals0 Hvals0. inv_ok.
    apply df_set_get_ne. intros Heq. apply (rainfall_sum_name_base y). rewrite Heq. by left. }
  unfold rainfall_step in Hstep. inv_bind Hstep as rain Hrain.
  inv_bind Hstep as vals Hvals. destruct multi.
  - apply has_multiple_true in Hmulti as (ids0 & Hids0 & Hlen).
    rewrite (proj2 (station_ids_Ok d1 ids0)) in Hvals by congruence.
    cbn [bind] in Hvals. unfold group_transform in Hvals.
    destruct (unique ids0) as [|s0 rest]; [simpl in Hlen; lia|].
    simpl in Hvals. inv_bind Hvals as acc1 Hacc1. inv_bind Hacc1 as v1 Hv1.
    apply rolling_needs_window in Hv1. lia.
  - apply rolling_needs_window in Hvals. lia.
Qed.

(** The theorem on [frame_with_rain] and the windows [3; 0]. *)
Lemma rainfall_window_below_one_raises_witness :
  is_ok (apply_rainfall_features frame_with_rain (JDict [("windows", ints [3; 0])])) = false.
Proof.
  apply (rainfall_window_below_one_raises frame_with_rain _ (ints [3; 0]) [3; 0] 0).
  - reflexivity.
  - reflexivity.
  - reflexivity.
  - right. left.
  - lia.
Defined.

(** ** Rolling statistics on sparse stations *)

Lemma rolling_jobs_mean `{Numpy} (p : pph) (st : json) (wl : list (option Q)) (w : Z)
    (jobs : list (string * list (option Q))) :
  py_in "mean" st = Ok true →
  rolling_jobs p st (JInt 1) wl w = Ok jobs →
  ∃ wp, to_periods w p = Ok wp ∧ 1 ≤ wp.
Proof.
  intros Hmean Hrun. unfold rolling_jobs in Hrun.
  inv_bind Hrun as wp Hwp. rewrite Hmean in Hrun. cbn [bind] in Hrun.
  inv_bind Hrun as mj Hmj. inv_bind Hmj as mc Hmc.
  exists wp. split; [done|]. by eapply rolling_needs_window.
Qed.

(** X4.  The rolling-statistics transform cannot handle a station that
    reports less often than a configured window is long: when
    [int(w * periods_per_hour)] is below 1 for some station group of at
    least two rows (its modal interval exceeds [w] hours), the window has
    no row, pandas refuses it under [min_periods = 1], and the whole
    transform raises instead of leaving that station's statistics null. *)
Theorem rolling_window_below_interval_raises {np : Numpy}
    (df : DataFrame) (config windows statistics : json) (ws : list Z)
    (ts : list (option Z)) (wl : list (option Q)) (s w wp : Z) :
  df_wf df →
  assoc "measured_at" (columns df) = Some (Time ts) →
  ascending ts = true →
  df_float "water_level" df = Ok wl →
  dict_get config "windows" default_windows = Ok windows →
  as_int_list windows = Ok ws →
  w ∈ ws →
  dict_get config "statistics" (JList [JStr "mean"; JStr "std"]) = Ok statistics →
  py_in "mean" statistics = Ok true →
  dict_get config "min_periods" (JInt 1) = Ok (JInt 1) →
  (1 < count_true (group_mask s df))%nat →
  to_periods w (series_pph (sel (group_mask s df) ts)) = Ok wp →
  wp < 1 →
  is_ok (apply_rolling_statistics df config) = false.
Proof.
  intros Hwf Hts Hasc Hwl Hwin Hws Hw Hst Hmean Hmp Hcount Hwp Hlt.
  destruct (apply_rolling_statistics df config) as [df'|e] eqn:Hrun; [|done]. exfalso.
  assert (Hwl_len : length wl = nrows df) by eauto using df_float_length.
  assert (Hts_len : length ts = nrows df) by apply (df_wf_lookup df _ _ Hwf Hts).
  unfold apply_rolling_statistics in Hrun. rewrite Hwin, Hst, Hmp in Hrun.
  cbn [bind] in Hrun. inv_bind Hrun as multi Hmulti. destruct multi.
  - destruct (has_multiple_true _ Hmulti) as (ids & Hids & _).
    assert (Hids_len : length ids = nrows df) by apply (df_wf_lookup df _ _ Hwf Hids).
    rewrite (proj2 (station_ids_Ok df ids) Hids) in Hrun. cbn [bind] in Hrun.
    assert (Hg : group_mask s df = station_mask s ids) by (unfold group_mask; by rewrite Hids).
    rewrite Hg in *.
    destruct (station_loop_result (rolling_station windows statistics (JInt 1)) df ids
                (λ s jobs,
                   (count_true (station_mask s ids) ≤ 1)%nat ∧ jobs = []
                   ∨ (1 < count_true (station_mask s ids))%nat
                     ∧ ∃ ws jobss, as_int_list windows = Ok ws
                         ∧ mapM (rolling_jobs (series_pph (sel (station_mask s ids) ts))
                                              statistics (JInt 1)
                                              (in_time_order (sel (station_mask s ids) ts)
                                                             (sel (station_mask s ids) wl)))
                                ws = Ok jobss
                         ∧ jobs = concat jobss)
                Hids_len) with (stations := unique ids) (df' := df')
      as (_ & _ & _ & Hstations); auto using unique_NoDup.
    { intros d s0 d'. by apply rolling_station_spec. }
    { intros s0 jobs [[_ ->]|(_ & ws0 & jobss & _ & Hjobs & ->)]; [constructor|].
      eapply Forall_impl; [by eapply rolling_jobs_ok|]. intros j [? Hl]. split; [done|].
      rewrite Hl. apply station_rows_length; congruence. }
    destruct (Hstations s) as (jobs & Hjobs & _).
    { apply unique_elem, count_true_station_mask. lia. }
    destruct Hjobs as [[? _]|(_ & ws0 & jobss & Hws0 & Hjobss & ->)]; [lia|].
    assert (ws0 = ws) as -> by congruence.
    destruct (mapM_Ok_elem _ _ _ _ Hjobss Hw) as (jobs_w & Hjobs_w & _).
    destruct (rolling_jobs_mean _ _ _ _ _ Hmean Hjobs_w) as (wp' & Hwp' & Hpos).
    assert (wp' = wp) by congruence. lia.
  - assert (Hg : group_mask s df = replicate (nrows df) true)
      by (apply has_multiple_false; [done|done|lia]).
    rewrite Hg in *. rewrite count_true_replicate in Hcount.
    rewrite sel_all_true in Hwp by lia.
    destruct (Nat.ltb_spec 1 (nrows df)) as [_|?]; [|lia].
    inv_bind Hrun as sorted Hsorted.
    rewrite (sorted_frame_interval df sorted ts) in Hrun by done.
    cbn [bind] in Hrun. rewrite Hws in Hrun. cbn [bind] in Hrun.
    destruct (foldM_Ok_elem (λ _, True) _ _ w _ _ (λ _ _ _ _ _, I) I Hrun Hw)
      as (d1 & d2 & _ & Hstep).
    unfold rolling_single_step in Hstep. inv_bind Hstep as wp' Hwp'.
    rewrite Hmean in Hstep. cbn [bind] in Hstep. inv_bind Hstep as d3 Hd3.
    unfold rolling_single_assign in Hd3. inv_bind Hd3 as wl1 Hwl1.
    inv_bind Hd3 as vals Hvals. apply rolling_needs_window in Hvals.
    unfold series_pph in Hwp. assert (wp' = wp) by congruence. lia.
Qed.

(** The theorem on [frame_daily] and the default windows: three hours of
    a daily series are [int(3 / 24) = 0] rows. *)
Lemma rolling_window_below_interval_raises_witness :
  is_ok (@apply_rolling_statistics approx_numpy frame_daily (JDict [])) = false.
Proof.
  apply (@rolling_window_below_interval_raises approx_numpy frame_daily (JDict [])
           default_windows (JList [JStr "mean"; JStr "std"]) [3; 6; 12; 24]
           [Some 0; Some 86400; Some 172800] [level 500; level 501; level 502] 0 3 0).
  - repeat constructor.
  - reflexivity.
  - reflexivity.
  - reflexivity.
  - reflexivity.
  - reflexivity.
  - apply list_elem_of_here.
  - reflexivity.
  - reflexivity.
  - reflexivity.
  - vm_compute. lia.
  - vm_compute. reflexivity.
  - lia.
Defined.

(** ** Weather interactions *)

Lemma sel_zip_with {A B C} (f : A → B → C) (m : list bool) (a : list A) (b : list B) :
  sel m (zip_with f a b) = zip_with f (sel m a) (sel m b).
Proof.
  revert a b. induction m as [|x m IH]; intros [|y a] [|z b]; simpl; try done.
  - by destruct x, (sel m a).
  - destruct x; simpl; by rewrite IH.
Qed.

Lemma cell_at_zip_with {A B C} (f : option A → option B → option C)
    (a : list (option A)) (b : list (option B)) (i : Z) :
  0 ≤ i < Z.of_nat (length a) → length b = length a →
  cell_at (zip_with f a b) i = f (cell_at a i) (cell_at b i).
Proof.
  intros Hi Hlen. unfold cell_at. destruct (Z.ltb_spec i 0) as [?|_]; [lia|].
  rewrite lookup_zip_with.
  destruct (lookup_lt_is_Some_2 a (Z.to_nat i)) as [x ->]; [lia|].
  destruct (lookup_lt_is_Some_2 b (Z.to_nat i)) as [y ->]; [lia|]. done.
Qed.

Lemma cell_at_replicate {A} (n : nat) (v : option A) (i : Z) :
  0 ≤ i < Z.of_nat n → cell_at (replicate n v) i = v.
Proof.
  intros Hi. unfold cell_at. destruct (Z.ltb_spec i 0) as [?|_]; [lia|].
  by rewrite lookup_replicate_2 by lia.
Qed.

(** X5.  [pressure_diff_3h] compares each row with the third row before
    it among the rows of the same station, in frame order: row [t] of a
    station holds its [pressure] of row [t] minus that of row [t - 3], null
    when either is missing, so the first three rows of every station are
    null and no difference ever crosses a station boundary. *)
Theorem pressure_diff_stays_within_station
    (df df' : DataFrame) (config : json) (p : list (option Q)) (s : Z) :
  df_wf df →
  df_float "pressure" df = Ok p →
  (0 < count_true (group_mask s df))%nat →
  apply_weather_interactions df config = Ok df' →
  ∃ col,
    assoc "pressure_diff_3h" (columns df') = Some (Num col)
    ∧ (∀ t, 0 ≤ t < Z.of_nat (count_true (group_mask s df)) →
            cell_at (sel (group_mask s df) col) t
            = lift2 Qminus (cell_at (sel (group_mask s df) p) t)
                           (cell_at (sel (group_mask s df) p) (t - 3)))
    ∧ (∀ t, 0 ≤ t < 3 → t < Z.of_nat (count_true (group_mask s df)) →
            cell_at (sel (group_mask s df) col) t = None).
Proof.
  intros Hwf Hp Hcount H.
  assert (Hp_len : length p = nrows df) by eauto using df_float_length.
  assert (Hg_len : length (group_mask s df) = nrows df) by by apply group_mask_length.
  cut (∃ col, assoc "pressure_diff_3h" (columns df') = Some (Num col)
              ∧ sel (group_mask s df) col = diff 3 (sel (group_mask s df) p)).
  { intros (col & Hcol & Hsel). exists col.
    assert (Hl : length (sel (group_mask s df) p) = count_true (group_mask s df))
      by (apply sel_length; congruence).
    repeat split; trivial.
    - intros t Ht. rewrite Hsel. apply cell_at_diff. lia.
    - intros t Ht Ht'. rewrite Hsel, cell_at_diff by lia.
      rewrite (cell_at_negative _ (t - 3)) by lia. by destruct (cell_at _ t). }
  unfold apply_weather_interactions in H. inv_bind H as d1 Hd1.
  assert (Hsame : ∀ n, n ∈ ["station_id"; "pressure"] →
            assoc n (columns d1) = assoc n (columns df)).
  { intros n Hn. destruct (df_has "temperature" df && df_has "humidity" df); [|by inv_ok].
    inv_bind Hd1 as t Ht. inv_bind Hd1 as h Hh. inv_ok. apply df_set_get_ne.
    intros <-. repeat (apply elem_of_cons in Hn as [Hn|Hn]; [discriminate Hn|]).
    by apply elem_of_nil in Hn. }
  assert (Hp1 : df_float "pressure" d1 = Ok p).
  { rewrite <- Hp. apply same_base_float, Hsame. right. by left. }
  assert (Hhas : df_has "pressure" d1 = true).
  { apply df_float_Ok in Hp1 as (c & Hc & _). unfold df_has. by rewrite Hc. }
  rewrite Hhas in H. inv_bind H as multi Hmulti. inv_bind H as vals Hvals. inv_ok.
  exists vals. split; [apply df_set_get_eq|].
  rewrite (has_multiple_same df d1) in Hmulti by (apply Hsame; by left).
  destruct multi.
  - destruct (has_multiple_true _ Hmulti) as (ids & Hids & _).
    assert (Hids_len : length ids = nrows df) by apply (df_wf_lookup df _ _ Hwf Hids).
    rewrite (proj2 (station_ids_Ok d1 ids)) in Hvals
      by (rewrite Hsame; [done|by left]).
    rewrite Hp1 in Hvals. cbn [bind] in Hvals.
    apply group_transform_rows in Hvals as [_ Hrows];
      [|intros; apply diff_length|congruence].
    unfold group_mask in *. rewrite Hids in *.
    apply Hrows. by apply count_true_station_mask.
  - rewrite Hp1 in Hvals. cbn [bind] in Hvals. inv_ok.
    rewrite (has_multiple_false df s) by done.
    rewrite !sel_all_true; [done|lia|rewrite diff_length; lia].
Qed.

(** The theorem at station 3 of [frame_with_pressure]. *)
Lemma pressure_diff_stays_within_station_witness :
  ∃ col,
    assoc "pressure_diff_3h" (columns frame_with_pressure_diff) = Some (Num col)
    ∧ (∀ t, 0 ≤ t < Z.of_nat (count_true (group_mask 3 frame_with_pressure)) →
            cell_at (sel (group_mask 3 frame_with_pressure) col) t
            = lift2 Qminus
                (cell_at (sel (group_mask 3 frame_with_pressure)
                              [level 1000; level 990; level 1001; level 991; level 1003;
                               level 993; level 1006; level 996]) t)
                (cell_at (sel (group_mask 3 frame_with_pressure)
                              [level 1000; level 990; level 1001; level 991; level 1003;
                               level 993; level 1006; level 996]) (t - 3)))
    ∧ (∀ t, 0 ≤ t < 3 → t < Z.of_nat (count_true (group_mask 3 frame_with_pressure)) →
            cell_at (sel (group_mask 3 frame_with_pressure) col) t = None).
Proof.
  apply (pressure_diff_stays_within_station frame_with_pressure frame_with_pressure_diff
           (JDict [])).
  - repeat constructor.
  - reflexivity.
  - vm_compute. lia.
  - vm_compute. reflexivity.
Defined.

(** ** Station statistics *)

Lemma col_std_not_null `{Numpy} (l : list (option Q)) :
  col_std l ≠ None ↔ (2 ≤ nobs l)%nat.
Proof.
  unfold col_std, nobs. set (n := length (dropna l)).
  destruct (Nat.ltb_spec 1 n); split; intros Hx; try lia; try done.
Qed.

(** X6.  The station statistics are each station's own: on every row of a
    station, [station_water_mean] is the mean of that station's non-null
    water levels, [station_water_std] their sample standard deviation, and
    [water_level_deviation] the row's level minus that mean (null when the
    level is).  The std is null on all rows of a station with fewer than
    two observed levels. *)
Theorem station_statistics_are_per_station {np : Numpy}
    (df df' : DataFrame) (config : json) (wl : list (option Q)) (s : Z) :
  df_wf df →
  df_float "water_level" df = Ok wl →
  (0 < count_true (group_mask s df))%nat →
  apply_station_statistics df config = Ok df' →
  ∃ mean_col std_col dev_col,
    assoc "station_water_mean" (columns df') = Some (Num mean_col)
    ∧ assoc "station_water_std" (columns df') = Some (Num std_col)
    ∧ assoc "water_level_deviation" (columns df') = Some (Num dev_col)
    ∧ (∀ t, 0 ≤ t < Z.of_nat (count_true (group_mask s df)) →
         cell_at (sel (group_mask s df) mean_col) t = col_mean (sel (group_mask s df) wl)
         ∧ cell_at (sel (group_mask s df) std_col) t = col_std (sel (group_mask s df) wl)
         ∧ cell_at (sel (group_mask s df) dev_col) t
           = lift2 Qminus (cell_at (sel (group_mask s df) wl) t)
                          (col_mean (sel (group_mask s df) wl)))
    ∧ (col_std (sel (group_mask s df) wl) ≠ None
       ↔ (2 ≤ nobs (sel (group_mask s df) wl))%nat).
Proof.
  intros Hwf Hwl Hcount H.
  assert (Hwl_len : length wl = nrows df) by eauto using df_float_length.
  assert (Hg_len : length (group_mask s df) = nrows df) by by apply group_mask_length.
  assert (Hl : length (sel (group_mask s df) wl) = count_true (group_mask s df))
    by (apply sel_length; congruence).
  cut (∃ mean_col std_col,
         assoc "station_water_mean" (columns df') = Some (Num mean_col)
         ∧ assoc "station_water_std" (columns df') = Some (Num std_col)
         ∧ assoc "water_level_deviation" (columns df')
           = Some (Num (zip_with (lift2 Qminus) wl mean_col))
         ∧ length mean_col = nrows df
         ∧ sel (group_mask s df) mean_col
           = replicate (count_true (group_mask s df)) (col_mean (sel (group_mask s df) wl))
         ∧ sel (group_mask s df) std_col
           = replicate (count_true (group_mask s df)) (col_std (sel (group_mask s df) wl))).
  { intros (mean_col & std_col & Hm & Hs & Hd & Hmlen & Hmsel & Hssel).
    exists mean_col, std_col, (zip_with (lift2 Qminus) wl mean_col).
    split; [done|]. split; [done|]. split; [done|]. split; [|apply col_std_not_null].
    intros t Ht. rewrite sel_zip_with, Hmsel, Hssel.
    rewrite cell_at_zip_with by (rewrite ?length_replicate; lia).
    by rewrite !cell_at_replicate by lia. }
  unfold apply_station_statistics in H. inv_bind H as multi Hmulti. destruct multi.
  - destruct (has_multiple_true _ Hmulti) as (ids & Hids & _).
    assert (Hids_len : length ids = nrows df) by apply (df_wf_lookup df _ _ Hwf Hids).
    assert (Hg : group_mask s df = station_mask s ids) by (unfold group_mask; by rewrite Hids).
    assert (Hs : s ∈ ids) by (apply count_true_station_mask; rewrite <- Hg; lia).
    rewrite (proj2 (station_ids_Ok df ids) Hids), Hwl in H. cbn [bind] in H.
    inv_bind H as means Hmeans. cbn zeta in H.
    set (d1 := df_set "station_water_mean" (Num means) df) in H.
    assert (Hids1 : station_ids d1 = Ok ids)
      by (apply station_ids_Ok; unfold d1; by rewrite df_set_get_ne).
    assert (Hwl1 : df_float "water_level" d1 = Ok wl)
      by (rewrite <- Hwl; apply same_base_float; unfold d1; by rewrite df_set_get_ne).
    rewrite Hids1, Hwl1 in H. cbn [bind] in H.
    inv_bind H as stds Hstds. cbn zeta in H.
    set (d2 := df_set "station_water_std" (Num stds) d1) in H.
    assert (Hwl2 : df_float "water_level" d2 = Ok wl)
      by (rewrite <- Hwl1; apply same_base_float; unfold d2; by rewrite df_set_get_ne).
    assert (Hm2 : assoc "station_water_mean" (columns d2) = Some (Num means)).
    { unfold d2. rewrite df_set_get_ne by done. apply df_set_get_eq. }
    rewrite Hwl2, (df_float_Num _ _ _ Hm2) in H. cbn [bind] in H. inv_ok.
    apply group_transform_rows in Hmeans as [Hmlen Hmrows];
      [|intros; apply length_replicate|congruence].
    apply group_transform_rows in Hstds as [Hslen Hsrows];
      [|intros; apply length_replicate|congruence].
    exists means, stds. rewrite Hg. unfold d2, d1.
    split; [rewrite !df_set_get_ne by done; apply df_set_get_eq|].
    split; [rewrite df_set_get_ne by done; apply df_set_get_eq|].
    split; [apply df_set_get_eq|]. split; [congruence|].
    rewrite Hmrows, Hsrows by done. unfold broadcast.
    rewrite sel_length by (rewrite station_mask_length; congruence). done.
  - assert (Hg : group_mask s df = replicate (nrows df) true)
      by (apply has_multiple_false; [done|done|lia]).
    rewrite Hwl in H. cbn [bind] in H. cbn zeta in H.
    set (d1 := df_set "station_water_mean" _ df) in H.
    set (d2 := df_set "station_water_std" _ d1) in H.
    assert (Hwl2 : df_float "water_level" d2 = Ok wl).
    { rewrite <- Hwl. apply same_base_float. unfold d2, d1. by rewrite !df_set_get_ne. }
    rewrite Hwl2 in H. cbn [bind] in H. inv_ok.
    exists (replicate (nrows df) (col_mean wl)), (replicate (nrows df) (col_std wl)).
    rewrite Hg, count_true_replicate.
    rewrite !sel_all_true by (rewrite ?length_replicate; lia).
    split; [unfold d2, d1; rewrite !df_set_get_ne by done; apply df_set_get_eq|].
    split; [unfold d2; rewrite df_set_get_ne by done; apply df_set_get_eq|].
    split; [|by rewrite length_replicate].
    rewrite df_set_get_eq. do 2 f_equal.
    rewrite <- Hwl_len. generalize (col_mean wl). clear. intros m.
    induction wl as [|x wl IH]; simpl; [done|]. by rewrite IH.
Qed.

(** The theorem at station 3 of [frame_with_pressure], whose last water
    level is missing. *)
Lemma station_statistics_are_per_station_witness :
  ∃ mean_col std_col dev_col,
    assoc "station_water_mean" (columns frame_with_station_statistics)
    = Some (Num mean_col)
    ∧ assoc "station_water_std" (columns frame_with_station_statistics)
      = Some (Num std_col)
    ∧ assoc "water_level_deviation" (columns frame_with_station_statistics)
      = Some (Num dev_col)
    ∧ (∀ t, 0 ≤ t < Z.of_nat (count_true (group_mask 3 frame_with_pressure)) →
         cell_at (sel (group_mask 3 frame_with_pressure) mean_col) t
         = col_mean (sel (group_mask 3 frame_with_pressure)
                         [level 10; level 20; level 11; level 21; level 12; level 22;
                          level 13; None])
         ∧ cell_at (sel (group_mask 3 frame_with_pressure) std_col) t
           = @col_std approx_numpy
               (sel (group_mask 3 frame_with_pressure)
                    [level 10; level 20; level 11; level 21; level 12; level 22;
                     level 13; None])
         ∧ cell_at (sel (group_mask 3 frame_with_pressure) dev_col) t
           = lift2 Qminus
               (cell_at (sel (group_mask 3 frame_with_pressure)
                             [level 10; level 20; level 11; level 21; level 12; level 22;
                              level 13; None]) t)
               (col_mean (sel (group_mask 3 frame_with_pressure)
                              [level 10; level 20; level 11; level 21; level 12; level 22;
                               level 13; None])))
    ∧ (@col_std approx_numpy
         (sel (group_mask 3 frame_with_pressure)
              [level 10; level 20; level 11; level 21; level 12; level 22;
               level 13; None]) ≠ None
       ↔ (2 ≤ nobs (sel (group_mask 3 frame_with_pressure)
                        [level 10; level 20; level 11; level 21; level 12; level 22;
                         level 13; None]))%nat).
Proof.
  apply (@station_statistics_are_per_station approx_numpy frame_with_pressure
           frame_with_station_statistics (JDict [])).
  - repeat constructor.
  - reflexivity.
  - vm_compute. lia.
  - vm_compute. reflexivity.
Defined.

(** * Further properties of the cleaner *)

Lemma col_notnull_sel (m : list bool) (c : column) :
  col_notnull (col_sel m c) = sel m (col_notnull c).
Proof. destruct c; simpl; by rewrite sel_map. Qed.

Lemma col_notnull_length (c : column) : length (col_notnull c) = col_len c.
Proof. destruct c; simpl; by rewrite length_map. Qed.

Lemma col_has_null_false (c : column) :
  col_has_null c = false ↔ Forall (λ b, b = true) (col_notnull c).
Proof.
  unfold col_has_null. induction (col_notnull c) as [|b l IH]; simpl.
  - split; [constructor|done].
  - rewrite orb_false_iff, Forall_cons, IH.
    destruct b; simpl; split; intros [? ?]; split; done.
Qed.

(** A mask selects only [true] cells of a list it implies. *)
Lemma sel_implied (m l : list bool) :
  (∀ i, m !! i = Some true → l !! i = Some true) →
  Forall (λ b, b = true) (sel m l).
Proof.
  revert l. induction m as [|b m IH]; intros [|x l] H; simpl; try constructor.
  assert (Hrest : ∀ i, m !! i = Some true → l !! i = Some true)
    by (intros i Hi; apply (H (S i) Hi)).
  destruct b; [|by apply IH]. constructor; [|by apply IH].
  specialize (H 0%nat eq_refl). by injection H.
Qed.

Lemma complete_rows_implies (n : nat) (cols : list column) (c : column) (i : nat) :
  c ∈ cols → complete_rows n cols !! i = Some true → col_notnull c !! i = Some true.
Proof.
  unfold complete_rows. induction cols as [|c1 cols IH]; intros Hc Hi.
  - by apply elem_of_nil in Hc.
  - simpl in Hi. rewrite lookup_zip_with in Hi.
    destruct (col_notnull c1 !! i) as [a|] eqn:Ea; [|done]. simpl in Hi.
    destruct (foldr _ _ cols !! i) as [b|] eqn:Eb; [|done]. simpl in Hi.
    injection Hi as Hab. apply andb_true_iff in Hab as [-> ->].
    apply elem_of_cons in Hc as [->|Hc]; [done|]. by apply IH.
Qed.

Lemma complete_rows_length (n : nat) (cols : list column) :
  Forall (λ c, col_len c = n) cols → length (complete_rows n cols) = n.
Proof.
  unfold complete_rows. induction 1 as [|c cols Hc _ IH]; simpl.
  - by rewrite length_replicate.
  - rewrite length_zip_with, col_notnull_length, IH. lia.
Qed.

Lemma impute_cases (stat : list (option Q) → option Q) (d d' : DataFrame) (col : string) :
  impute stat d col = Ok d' →
  d' = d
  ∨ ∃ v, assoc col (columns d) = Some (Num v)
         ∧ existsb (λ x, match x with None => true | Some _ => false end) v = true
         ∧ d' = df_set col (Num (fillna (stat v) v)) d.
Proof.
  unfold impute. intros H. inv_bind H as c Hc. apply df_col_Ok in Hc.
  destruct c as [v| | |]; try (left; congruence).
  destruct (existsb _ v) eqn:E; [|left; congruence].
  right. exists v. repeat split; trivial. congruence.
Qed.

Lemma existsb_null_has_null (v : list (option Q)) :
  col_has_null (Num v)
  = existsb (λ x, match x with None => true | Some _ => false end) v.
Proof.
  unfold col_has_null. simpl. induction v as [|[x|] v IH]; simpl; [done| |done].
  exact IH.
Qed.

(** The frame left by the first step of [clean_data]. *)
Lemma clean_data_steps (df df' : DataFrame) (config : json) :
  clean_data df config = Ok df' →
  ∃ remove strategy d1,
    dict_get config "remove_rows_with_missing_lags" (JBool true) = Ok remove
    ∧ dict_get config "missing_value_strategy" (JStr "median") = Ok strategy
    ∧ d1 = (if truthy remove then
              let lag_cols := filter (λ nc, is_substring "lag_" nc.1 = true) (columns df) in
              match lag_cols with
              | [] => df
              | _ => df_filter (complete_rows (nrows df) (map snd lag_cols)) df
              end
            else df)
    ∧ ∃ stat names,
        foldM (impute stat) d1 names = Ok df'
        ∧ ((json_eq_str "median" strategy = true ∧ stat = col_median
            ∨ json_eq_str "median" strategy = false
              ∧ json_eq_str "mean" strategy = true ∧ stat = col_mean)
           ∧ names = filter (λ n, str_in n clean_exclude_cols = false)
                       (map fst (filter (λ nc, is_numeric nc.2 = true) (columns d1)))
           ∨ json_eq_str "median" strategy = false
             ∧ json_eq_str "mean" strategy = false ∧ names = []).
Proof.
  unfold clean_data. intros H. inv_bind H as remove Hremove.
  inv_bind H as strategy Hstrategy. exists remove, strategy. eexists.
  split; [done|]. split; [done|]. split; [reflexivity|].
  destruct (json_eq_str "median" strategy) eqn:Emed;
    [|destruct (json_eq_str "mean" strategy) eqn:Emean].
  - exists col_median. eexists. split; [exact H|]. left. split; [by left|done].
  - exists col_mean. eexists. split; [exact H|]. left. split; [by right|done].
  - exists col_median, []. split; [done|]. by right.
Qed.

(** X7.  When rows with missing lags are removed (the default), the
    cleaned frame has no null in any column whose name contains [lag_],
    whatever the imputation strategy: the rows are dropped, not filled. *)
Theorem cleaned_lag_columns_have_no_null
    (df df' : DataFrame) (config remove : json) (n : string) (c : column) :
  df_wf df →
  dict_get config "remove_rows_with_missing_lags" (JBool true) = Ok remove →
  truthy remove = true →
  clean_data df config = Ok df' →
  is_substring "lag_" n = true →
  assoc n (columns df') = Some c →
  col_has_null c = false.
Proof.
  intros Hwf Hremove Htruthy H Hn Hc.
  destruct (clean_data_steps _ _ _ H)
    as (remove' & strategy & d1 & Hremove' & _ & Hd1 & stat & names & Hfold & _).
  assert (remove' = remove) as -> by congruence. rewrite Htruthy in Hd1.
  assert (HP : ∀ c0, assoc n (columns d1) = Some c0 → col_has_null c0 = false).
  { intros c0 Hc0. subst d1. cbv zeta in Hc0.
    destruct (filter _ (columns df)) as [|lc lcs] eqn:Hlag.
    - apply assoc_elem in Hc0.
      assert (Hin : (n, c0) ∈ filter (λ nc, is_substring "lag_" nc.1 = true) (columns df))
        by (by apply list_elem_of_filter).
      rewrite Hlag in Hin. by apply elem_of_nil in Hin.
    - rewrite df_filter_get in Hc0.
      destruct (assoc n (columns df)) as [c1|] eqn:Hc1; [|done]. injection Hc0 as <-.
      apply col_has_null_false. rewrite col_notnull_sel. apply sel_implied.
      intros i Hi.
      apply (complete_rows_implies (nrows df) (map snd (lc :: lcs))); [|exact Hi].
      apply list_elem_of_fmap. exists (n, c1). split; [done|].
      rewrite <- Hlag. apply list_elem_of_filter. split; [done|]. by apply assoc_elem. }
  revert c Hc.
  apply (foldM_invariant
           (λ st, ∀ c, assoc n (columns st) = Some c → col_has_null c = false)
           (impute stat) names) with (st := d1) (st' := df'); [|done|done].
  intros st col st' _ Hst Himp c Hc.
  destruct (impute_cases _ _ _ _ Himp) as [->|(v & Hv & Hnull & ->)]; [by apply Hst|].
  destruct (decide (col = n)) as [->|Hne].
  - specialize (Hst _ Hv). rewrite existsb_null_has_null in Hst. congruence.
  - rewrite df_set_get_ne in Hc by done. by apply Hst.
Qed.

(** The theorem on the one-hour lag of [frame_to_clean]. *)
Lemma cleaned_lag_columns_have_no_null_witness :
  col_has_null (Num [level 500; level 501; level 502]) = false.
Proof.
  apply (cleaned_lag_columns_have_no_null frame_to_clean frame_cleaned (JDict [])
           (JBool true) "water_level_lag_1h").
  - repeat constructor.
  - reflexivity.
  - reflexivity.
  - vm_compute. reflexivity.
  - reflexivity.
  - reflexivity.
Defined.

Lemma assoc_set_fst {V} (k : string) (v v0 : V) (d : list (string * V)) :
  assoc k d = Some v0 → map fst (assoc_set k v d) = map fst d.
Proof.
  induction d as [|[k' v'] d IH]; simpl; [discriminate|].
  destruct (String.eqb k k') eqn:E; simpl.
  - apply String.eqb_eq in E as ->. done.
  - intros H. by rewrite IH.
Qed.

Lemma fillna_length (x : option Q) (v : list (option Q)) : length (fillna x v) = length v.
Proof. destruct x; simpl; [by rewrite length_map|done]. Qed.

Lemma lag_columns_wf (df : DataFrame) :
  df_wf df →
  Forall (λ c, col_len c = nrows df)
         (map snd (filter (λ nc, is_substring "lag_" nc.1 = true) (columns df))).
Proof.
  intros Hwf. apply Forall_map. apply Forall_forall. intros nc [_ Hin]%list_elem_of_filter.
  unfold df_wf in Hwf. rewrite Forall_forall in Hwf. by apply Hwf.
Qed.

Lemma complete_rows_lookup (n : nat) (cols : list column) (i : nat) :
  complete_rows n cols !! i = Some true
  ↔ (i < n)%nat ∧ ∀ c, c ∈ cols → col_notnull c !! i = Some true.
Proof.
  unfold complete_rows. induction cols as [|c1 cols IH]; simpl.
  - rewrite lookup_replicate. split.
    + intros [_ ?]. split; [done|]. by intros c ?%elem_of_nil.
    + by intros [? _].
  - rewrite lookup_zip_with. split.
    + intros H. destruct (col_notnull c1 !! i) as [a|] eqn:Ea; [|done]. simpl in H.
      destruct (foldr _ _ cols !! i) as [b|] eqn:Eb; [|done]. simpl in H.
      injection H as Hab. apply andb_true_iff in Hab as [-> ->].
      destruct (proj1 IH eq_refl) as [Hi Hall]. split; [done|].
      intros c [->|Hc]%elem_of_cons; [done|by apply Hall].
    + intros [Hi Hall]. rewrite (Hall c1) by by left. simpl.
      rewrite (proj2 IH); [done|]. split; [done|]. intros c Hc. apply Hall. by right.
Qed.

Lemma only_fills_refl (c : column) : only_fills c c.
Proof. by destruct c. Qed.

Lemma only_fills_fillna (x : option Q) (v : list (option Q)) :
  only_fills (Num v) (Num (fillna x v)).
Proof.
  simpl. split; [apply fillna_length|]. intros i q Hi.
  destruct x as [x|]; simpl; [|done]. by rewrite list_lookup_fmap, Hi.
Qed.

Lemma only_fills_trans (c1 c2 c3 : column) :
  only_fills c1 c2 → only_fills c2 c3 → only_fills c1 c3.
Proof.
  destruct c1 as [v1| | |], c2 as [v2| | |]; simpl; try discriminate;
    try (intros [= <-]; by destruct c3).
  destruct c3 as [v3| | |]; try discriminate.
  intros [Hl1 H1] [Hl2 H2]. split; [congruence|]. auto.
Qed.

(** X8.  Cleaning only removes rows and fills nulls.  The cleaned frame
    has the columns of its input, in the same order, and is well formed.
    When [remove_rows_with_missing_lags] is set (the default) it keeps, in
    their order, exactly the rows that have a value in every column whose
    name contains [lag_], and every row otherwise.  Every column of the
    result is the input column restricted to the kept rows, except that
    nulls of a float column may have been filled: no value is changed and
    no column changes its dtype. *)
Theorem cleaning_keeps_columns_and_drops_incomplete_rows
    (df df' : DataFrame) (config remove : json) :
  df_wf df →
  dict_get config "remove_rows_with_missing_lags" (JBool true) = Ok remove →
  clean_data df config = Ok df' →
  map fst (columns df') = map fst (columns df)
  ∧ df_wf df'
  ∧ nrows df' = (if truthy remove then count_true (lag_complete_rows df) else nrows df)
  ∧ (nrows df' ≤ nrows df)%nat
  ∧ (∀ i, lag_complete_rows df !! i = Some true
          ↔ (i < nrows df)%nat
            ∧ ∀ n c, is_substring "lag_" n = true → (n, c) ∈ columns df →
                     col_notnull c !! i = Some true)
  ∧ (∀ n c, assoc n (columns df) = Some c →
       ∃ c', assoc n (columns df') = Some c'
             ∧ only_fills (col_sel (kept_rows remove df) c) c').
Proof.
  intros Hwf Hremove H.
  destruct (clean_data_steps _ _ _ H)
    as (remove' & strategy & d1 & Hremove' & _ & Hd1 & stat & names & Hfold & _).
  assert (remove' = remove) as -> by congruence.
  assert (H1 : map fst (columns d1) = map fst (columns df) ∧ df_wf d1
               ∧ nrows d1 = (if truthy remove then count_true (lag_complete_rows df)
                             else nrows df)).
  { subst d1. cbv zeta. unfold lag_complete_rows. destruct (truthy remove); [|done].
    pose proof (lag_columns_wf df Hwf) as Hlag.
    destruct (filter _ (columns df)) as [|lc lcs]; [by rewrite count_true_replicate|].
    pose proof (complete_rows_length _ _ Hlag) as Hlen.
    split; [|split].
    - unfold df_filter; simpl. rewrite map_map. done.
    - by apply df_filter_wf.
    - by apply df_filter_nrows. }
  destruct H1 as (Hnames & Hwf1 & Hrows).
  assert (Hinv : map fst (columns df') = map fst (columns d1) ∧ df_wf df'
                 ∧ nrows df' = nrows d1).
  { apply (foldM_invariant
             (λ st, map fst (columns st) = map fst (columns d1) ∧ df_wf st
                    ∧ nrows st = nrows d1)
             (impute stat) names) with (st := d1) (st' := df'); [|done|done].
    intros st col st' _ (Hst1 & Hst2 & Hst3) Himp.
    destruct (impute_cases _ _ _ _ Himp) as [->|(v & Hv & _ & ->)]; [done|].
    split; [|split; [|done]].
    - unfold df_set; simpl. by rewrite (assoc_set_fst _ _ _ _ Hv).
    - apply df_wf_set; [done|]. simpl. rewrite fillna_length.
      apply (df_wf_lookup st _ _ Hst2 Hv). }
  destruct Hinv as (Hn' & Hwf' & Hr').
  split; [congruence|]. split; [done|]. split; [congruence|]. split; [|split].
  - rewrite Hr', Hrows. destruct (truthy remove); [|done].
    unfold lag_complete_rows. pose proof (lag_columns_wf df Hwf) as Hlag.
    destruct (filter _ (columns df)) as [|lc lcs]; [by rewrite count_true_replicate|].
    rewrite <- (complete_rows_length _ _ Hlag) at 2. apply count_true_le.
  - intros i. unfold lag_complete_rows.
    assert (Hmem : ∀ c, c ∈ map snd (filter (λ nc, is_substring "lag_" nc.1 = true)
                                            (columns df))
                        ↔ ∃ n, is_substring "lag_" n = true ∧ (n, c) ∈ columns df).
    { intros c. rewrite list_elem_of_fmap. split.
      - intros ([n c0] & -> & [Hn Hin]%list_elem_of_filter). by exists n.
      - intros (n & Hn & Hin). exists (n, c). split; [done|].
        by apply list_elem_of_filter. }
    destruct (filter _ (columns df)) as [|lc lcs] eqn:Hlag.
    + rewrite lookup_replicate. split.
      * intros [_ Hi]. split; [done|]. intros n c Hn Hin.
        assert (Hc : c ∈ map snd ([] : list (string * column)))
          by (apply Hmem; by exists n).
        by apply elem_of_nil in Hc.
      * by intros [? _].
    + rewrite complete_rows_lookup. split.
      * intros [Hi Hall]. split; [done|]. intros n c Hn Hin.
        apply Hall, Hmem. by exists n.
      * intros [Hi Hall]. split; [done|]. intros c (n & Hn & Hin)%Hmem. by eapply Hall.
  - intros n c Hc.
    assert (H1 : assoc n (columns d1) = Some (col_sel (kept_rows remove df) c)).
    { assert (Hall : col_sel (replicate (nrows df) true) c = c).
      { pose proof (df_wf_lookup df _ _ Hwf Hc) as Hlen.
        destruct c; simpl in *; f_equal; apply sel_all_true; lia. }
      subst d1. cbv zeta. unfold kept_rows, lag_complete_rows.
      destruct (truthy remove); [|by rewrite Hall].
      destruct (filter _ (columns df)) as [|lc lcs]; [by rewrite Hall|].
      by rewrite df_filter_get, Hc. }
    revert H1. generalize (col_sel (kept_rows remove df) c). intros c1 H1.
    apply (foldM_invariant
             (λ st, ∃ c', assoc n (columns st) = Some c' ∧ only_fills c1 c')
             (impute stat) names) with (st := d1) (st' := df'); [| |done].
    + intros st col st' _ (c' & Hc' & Hfill) Himp.
      destruct (impute_cases _ _ _ _ Himp) as [->|(v & Hv & _ & ->)]; [by exists c'|].
      destruct (decide (col = n)) as [->|Hne].
      * exists (Num (fillna (stat v) v)). rewrite df_set_get_eq. split; [done|].
        assert (c' = Num v) as -> by congruence.
        eapply only_fills_trans; [exact Hfill|apply only_fills_fillna].
      * exists c'. by rewrite df_set_get_ne.
    + exists c1. split; [done|apply only_fills_refl].
Qed.

(** The theorem on [frame_to_clean]: three of the five rows have their
    lag. *)
Lemma cleaning_keeps_columns_and_drops_incomplete_rows_witness :
  map fst (columns frame_cleaned) = map fst (columns frame_to_clean)
  ∧ df_wf frame_cleaned
  ∧ nrows frame_cleaned
    = (if truthy (JBool true) then count_true (lag_complete_rows frame_to_clean)
       else nrows frame_to_clean)
  ∧ (nrows frame_cleaned ≤ nrows frame_to_clean)%nat
  ∧ (∀ i, lag_complete_rows frame_to_clean !! i = Some true
          ↔ (i < nrows frame_to_clean)%nat
            ∧ ∀ n c, is_substring "lag_" n = true → (n, c) ∈ columns frame_to_clean →
                     col_notnull c !! i = Some true)
  ∧ (∀ n c, assoc n (columns frame_to_clean) = Some c →
       ∃ c', assoc n (columns frame_cleaned) = Some c'
             ∧ only_fills (col_sel (kept_rows (JBool true) frame_to_clean) c) c').
Proof.
  apply (cleaning_keeps_columns_and_drops_incomplete_rows frame_to_clean frame_cleaned
           (JDict [])).
  - repeat constructor.
  - reflexivity.
  - vm_compute. reflexivity.
Defined.

Lemma col_mean_Some (v : list (option Q)) : dropna v ≠ [] → is_Some (col_mean v).
Proof. unfold col_mean. destruct (dropna v); [done|]. by eexists. Qed.

Lemma col_mean_None (v : list (option Q)) : dropna v = [] → col_mean v = None.
Proof. unfold col_mean. by intros ->. Qed.

(** X9.  With the median or the mean strategy, a float column of the
    cleaned frame that is not an identifier or timestamp column is either
    free of nulls or entirely null: the nulls of a column are all replaced
    by the statistic of its kept values, and they all stay when no kept row
    has a value, because the statistic is then null itself. *)
Theorem imputed_column_is_full_or_empty
    (df df' : DataFrame) (config strategy : json) (n : string) (v : list (option Q)) :
  dict_get config "missing_value_strategy" (JStr "median") = Ok strategy →
  json_eq_str "median" strategy || json_eq_str "mean" strategy = true →
  clean_data df config = Ok df' →
  str_in n clean_exclude_cols = false →
  assoc n (columns df') = Some (Num v) →
  Forall (λ c, c ≠ None) v ∨ Forall (λ c, c = None) v.
Proof.
  intros Hstrategy Hknown H Hn Hv.
  destruct (clean_data_steps _ _ _ H)
    as (remove & strategy' & d1 & _ & Hstrategy' & _ & stat & names & Hfold & Hcases).
  assert (strategy' = strategy) as -> by congruence.
  destruct Hcases as [[Hstat ->]|(Hmed & Hmean & _)];
    [|rewrite Hmed, Hmean in Hknown; discriminate].
  assert (Htype : match assoc n (columns d1) with
                  | Some (Num _) => True
                  | other => assoc n (columns df') = other
                  end).
  { refine (foldM_invariant
              (λ st, match assoc n (columns d1) with
                     | Some (Num _) => True
                     | other => assoc n (columns st) = other
                     end) (impute stat) _ _ d1 df' _ Hfold);
      [|by destruct (assoc n (columns d1)) as [[]|]].
    intros st col st' _ Hst Himp.
    destruct (assoc n (columns d1)) as [[v1| | |]|] eqn:E1; try done;
      (destruct (impute_cases _ _ _ _ Himp) as [->|(v2 & Hv2 & _ & ->)]; [done|];
       destruct (decide (col = n)) as [->|Hne];
       [congruence|by rewrite df_set_get_ne]). }
  destruct (assoc n (columns d1)) as [[v1| | |]|] eqn:E1; try congruence.
  assert (Hfilled : assoc n (columns df') = Some (Num (fillna (stat v1) v1))).
  { apply (impute_loop stat _ n v1 d1 df' Hfold). left. split; [done|].
    apply list_elem_of_filter. split; [done|].
    apply list_elem_of_fmap. exists (n, Num v1). split; [done|].
    apply list_elem_of_filter. split; [done|]. by apply assoc_elem. }
  assert (v = fillna (stat v1) v1) as -> by congruence.
  destruct (dropna v1) as [|x xs] eqn:Hobs.
  - right. assert (stat v1 = None) as ->.
    { destruct Hstat as [[_ ->]|(_ & _ & ->)];
        [by apply col_median_None|by apply col_mean_None]. }
    by apply dropna_nil_all_null.
  - left. assert (is_Some (stat v1)) as [m ->].
    { destruct Hstat as [[_ ->]|(_ & _ & ->)];
        [apply col_median_Some|apply col_mean_Some]; by rewrite Hobs. }
    apply fillna_no_null.
Qed.

(** The theorem on the temperature of [frame_to_clean], whose gap is
    filled with the median 24 of the three kept rows. *)
Lemma imputed_column_is_full_or_empty_witness :
  Forall (λ c, c ≠ None) [level 22; level 24; level 26]
  ∨ Forall (λ c, c = None) [level 22; level 24; level 26].
Proof.
  apply (imputed_column_is_full_or_empty frame_to_clean frame_cleaned (JDict [])
           (JStr "median") "temperature").
  - reflexivity.
  - reflexivity.
  - vm_compute. reflexivity.
  - reflexivity.
  - vm_compute. reflexivity.
Defined.

(** * Further properties of the data fetch *)

(** ** The result is in time order *)

Lemma sort_values_ascending (d d' : DataFrame) (ts : list (option Z)) :
  sort_values "measured_at" d = Ok d' →
  assoc "measured_at" (columns d') = Some (Time ts) →
  ascending ts = true.
Proof.
  unfold sort_values. intros H Hts. inv_bind H as key Hkey. inv_ok.
  apply df_col_Ok in Hkey. simpl in Hts. rewrite assoc_map_snd, Hkey in Hts.
  destruct key as [| |ts0|]; try discriminate. simpl in Hts. injection Hts as <-.
  apply argsort_ascending.
Qed.

Lemma drop_columns_dropped (names : list string) (df : DataFrame) (n : string) :
  str_in n names = true → df_has n (drop_columns names df) = false.
Proof.
  intros Hn. apply df_has_false. unfold drop_columns; simpl.
  induction (columns df) as [|[k c] cols IH]; simpl; [done|].
  rewrite filter_cons. simpl. destruct (decide (str_in k names = false)) as [Hk|Hk]; [|done].
  simpl. destruct (String.eqb n k) eqn:E; [|done].
  apply String.eqb_eq in E as ->. congruence.
Qed.

Lemma sel_station_mask (sid : Z) (ids : list Z) :
  Forall (λ s, s = sid) (sel (station_mask sid ids) ids).
Proof.
  unfold station_mask. induction ids as [|i ids IH]; simpl; [constructor|].
  destruct (Z.eqb_spec sid i); [constructor|]; done.
Qed.

Lemma sel_zip_and_r {A} (P : A → Prop) (m m' : list bool) (l : list A) :
  Forall P (sel m' l) → Forall P (sel (zip_with andb m m') l).
Proof.
  revert m' l. induction m as [|b m IH]; intros [|b' m'] [|x l]; simpl; try constructor.
  destruct b, b'; simpl; intros H; try (apply Forall_cons in H as [? ?]);
    try constructor; auto.
Qed.

Lemma sort_values_nrows (name : string) (d d' : DataFrame) :
  sort_values name d = Ok d' → nrows d' = nrows d.
Proof. unfold sort_values. intros H. inv_bind H as key Hkey. by inv_ok. Qed.

Lemma sort_values_has (name n : string) (d d' : DataFrame) :
  sort_values name d = Ok d' → df_has n d' = df_has n d.
Proof.
  unfold sort_values. intros H. inv_bind H as key Hkey. inv_ok.
  unfold df_has; simpl. rewrite assoc_map_snd. by destruct (assoc n (columns d)).
Qed.

(** The frame that [get_station_data] sorts last. *)
Lemma get_station_data_last_sort (env : Env) (station_id : option Z)
    (start_date end_date : option date_bound) (include_weather : bool) (df : DataFrame) :
  get_station_data env station_id start_date end_date include_weather = Ok df →
  ∃ d, sort_values "measured_at" d = Ok df
       ∧ (∀ n, n ∈ ["rainfall_7to7"; "flow_rate"; "rainfall"] → df_has n d = false)
       ∧ (∀ sid, station_id = Some sid →
            (0 < nrows d)%nat
            ∧ ∃ ids, assoc "station_id" (columns d) = Some (Int ids)
                     ∧ Forall (λ s, s = sid) ids).
Proof.
  unfold get_station_data. intros Hrun.
  assert (Hnames : ∀ n, n ∈ ["rainfall_7to7"; "flow_rate"; "rainfall"] →
            str_in n ["rainfall_7to7"; "flow_rate"; "rainfall"] = true
            ∧ str_in n ["id_weather"; "station_id_weather"; "created_at_weather";
                        "rainfall_7to7"; "flow_rate"; "rainfall"] = true).
  { intros n Hn. repeat (apply elem_of_cons in Hn as [->|Hn]; [done|]).
    by apply elem_of_nil in Hn. }
  destruct (if include_weather then merged_station_data env station_id start_date end_date
            else Err (ValueError "no weather")) as [d|e] eqn:E.
  - inv_ok. destruct include_weather; [|discriminate].
    unfold merged_station_data in E.
    inv_bind E as d0 Hd0. set (d00 := drop_columns _ (rename_columns _ d0)) in E.
    inv_bind E as ids Hids. set (d01 := df_filter _ d00) in E.
    inv_bind E as d1 Hd1. exists d1. split; [done|].
    assert (H01 : ∀ n, n ∈ ["rainfall_7to7"; "flow_rate"; "rainfall"] → df_has n d01 = false).
    { intros n Hn. unfold d01. rewrite df_filter_has. apply drop_columns_dropped.
      by apply Hnames. }
    destruct station_id as [sid|].
    + destruct (isin sid excluded_stations); [discriminate|].
      inv_bind Hd1 as ids1 Hids1.
      destruct (Nat.eqb_spec (nrows (df_filter (station_mask sid ids1) d01)) 0)
        as [?|Hrows]; [discriminate|]. inv_ok. split.
      * intros n Hn. rewrite df_filter_has. by apply H01.
      * intros sid' [= <-]. split; [lia|]. apply station_ids_Ok in Hids1.
        eexists. split; [by rewrite df_filter_get, Hids1|]. apply sel_station_mask.
    + inv_ok. split; [done|]. intros sid [=].
  - clear E. inv_bind Hrun as dq Hq. exists (drop_columns ["rainfall_7to7"; "flow_rate"; "rainfall"] dq).
    split; [done|]. split.
    { intros n Hn. apply drop_columns_dropped. by apply Hnames. }
    intros sid ->. unfold query_measurements in Hq.
    destruct (isin sid excluded_stations); [discriminate|]. cbn [bind] in Hq.
    inv_bind Hq as ids Hids. inv_bind Hq as ts Hts. inv_bind Hq as all_data Hsort.
    destruct (Nat.eqb_spec (nrows all_data) 0) as [?|Hrows]; [discriminate|]. inv_ok.
    split; [simpl; lia|]. apply station_ids_Ok in Hids.
    assert (∃ ids1, assoc "station_id" (columns dq) = Some (Int ids1)
                    ∧ Forall (λ s, s = sid) ids1) as (ids1 & Hids1 & HP).
    { eapply (sort_values_station_ids _ _ _ _ _ Hsort).
      - by rewrite df_filter_get, Hids.
      - apply sel_zip_and, sel_zip_and_r, sel_station_mask. }
    exists ids1. split; [|done]. by rewrite drop_columns_other.
Qed.

(** X10.  Whichever path serves the request, the frame returned by
    [get_station_data] is ordered by [measured_at], earliest first and
    missing timestamps last. *)
Theorem station_data_is_in_time_order (env : Env) (station_id : option Z)
    (start_date end_date : option date_bound) (include_weather : bool)
    (df : DataFrame) (ts : list (option Z)) :
  get_station_data env station_id start_date end_date include_weather = Ok df →
  assoc "measured_at" (columns df) = Some (Time ts) →
  ascending ts = true.
Proof.
  intros H Hts. destruct (get_station_data_last_sort _ _ _ _ _ _ H) as (d & Hsort & _).
  by eapply sort_values_ascending.
Qed.

(** The theorem on station 2 of [env_unsorted], whose table is not in time
    order. *)
Lemma station_data_is_in_time_order_witness :
  ascending [Some 0; Some 900; Some 1800] = true.
Proof.
  apply (station_data_is_in_time_order env_unsorted (Some 2) None None true station_2_data).
  - vm_compute. reflexivity.
  - vm_compute. reflexivity.
Defined.

(** X11.  A request for one station returns rows of that station only,
    and at least one: when the merge has no row for the station the
    station table is queried, and an empty answer there raises. *)
Theorem station_data_holds_the_requested_station (env : Env) (sid : Z)
    (start_date end_date : option date_bound) (include_weather : bool) (df : DataFrame) :
  get_station_data env (Some sid) start_date end_date include_weather = Ok df →
  (0 < nrows df)%nat
  ∧ ∃ ids, assoc "station_id" (columns df) = Some (Int ids) ∧ Forall (λ s, s = sid) ids.
Proof.
  intros H. destruct (get_station_data_last_sort _ _ _ _ _ _ H) as (d & Hsort & _ & Hsid).
  destruct (Hsid sid eq_refl) as (Hrows & ids & Hids & HP).
  split; [by rewrite (sort_values_nrows _ _ _ Hsort)|].
  by eapply sort_values_station_ids.
Qed.

Lemma station_data_holds_the_requested_station_witness :
  (0 < nrows station_2_data)%nat
  ∧ ∃ ids, assoc "station_id" (columns station_2_data) = Some (Int ids)
           ∧ Forall (λ s, s = 2) ids.
Proof.
  apply (station_data_holds_the_requested_station env_unsorted 2 None None true).
  vm_compute. reflexivity.
Defined.

(** X12.  The columns [rainfall_7to7], [flow_rate] and [rainfall] never
    reach the pipeline: both paths of [get_station_data] drop them. *)
Theorem station_data_has_no_raw_rainfall (env : Env) (station_id : option Z)
    (start_date end_date : option date_bound) (include_weather : bool)
    (df : DataFrame) (n : string) :
  get_station_data env station_id start_date end_date include_weather = Ok df →
  n ∈ ["rainfall_7to7"; "flow_rate"; "rainfall"] →
  df_has n df = false.
Proof.
  intros H Hn. destruct (get_station_data_last_sort _ _ _ _ _ _ H) as (d & Hsort & Hd & _).
  rewrite (sort_values_has _ _ _ _ Hsort). by apply Hd.
Qed.

Lemma station_data_has_no_raw_rainfall_witness :
  df_has "rainfall" station_2_data = false.
Proof.
  apply (station_data_has_no_raw_rainfall env_unsorted (Some 2) None None true).
  - vm_compute. reflexivity.
  - right. right. left.
Defined.

(** ** The fetch loop *)

Lemma fetch_pages_complete {A} (page_size : nat) (rows : list A) (fuel offset : nat) :
  (0 < page_size)%nat →
  (offset ≤ length rows)%nat →
  (length rows - offset < fuel * page_size)%nat →
  fetch_pages page_size (table_range rows) fuel offset (take offset rows) = Some rows.
Proof.
  intros Hps. revert offset. induction fuel as [|fuel IH]; intros offset Hoff Hfuel;
    [simpl in Hfuel; lia|].
  cbn [fetch_pages].
  change (table_range rows offset (offset + page_size - 1)%nat)
    with (take (S (offset + page_size - 1) - offset) (drop offset rows)).
  replace (S (offset + page_size - 1) - offset)%nat with page_size by lia.
  destruct (take page_size (drop offset rows)) as [|x data] eqn:Hdata.
  - f_equal. apply take_ge.
    apply (f_equal length) in Hdata. rewrite length_take, length_drop in Hdata.
    simpl in Hdata. lia.
  - rewrite <- Hdata.
    destruct (Nat.ltb_spec (length (take page_size (drop offset rows))) page_size)
      as [Hshort|Hfull].
    + f_equal. rewrite (take_ge (drop offset rows)); [apply take_drop|].
      rewrite length_take, length_drop in Hshort. rewrite length_drop. lia.
    + rewrite length_take, length_drop in Hfull.
      rewrite take_take_drop. apply IH; [lia|]. simpl in Hfuel. lia.
Qed.

(** X13.  The fetch loop of the station table returns every row of the
    query, once and in order, when the server answers each
    [.range(first, last)] with the rows [first .. last] of the ordered
    result: it stops at the first page shorter than 1000 rows, or at the
    empty page that follows a last full one, after at most
    [len(rows) // 1000 + 1] requests. *)
Theorem fetch_loop_returns_every_row {A} (rows : list A) (fuel : nat) :
  (length rows / 1000 < fuel)%nat →
  fetch_pages 1000 (table_range rows) fuel 0 [] = Some rows.
Proof.
  intros Hfuel. apply (fetch_pages_complete 1000 rows fuel 0); [lia|lia|].
  pose proof (Nat.mul_succ_div_gt (length rows) 1000). nia.
Qed.

(** The theorem on 2500 rows: three requests. *)
Lemma fetch_loop_returns_every_row_witness :
  fetch_pages 1000 (table_range (seq 0 2500)) 3 0 [] = Some (seq 0 2500).
Proof.
  apply (fetch_loop_returns_every_row (seq 0 2500) 3). vm_compute. lia.
Defined.

(** * Further properties of the orchestrator *)

(** ** Row counts through the stages *)

Lemma foldM_nrows {X} (body : DataFrame → X → result DataFrame) (xs : list X)
    (d d' : DataFrame) :
  (∀ st x st', body st x = Ok st' → nrows st' = nrows st) →
  foldM body d xs = Ok d' → nrows d' = nrows d.
Proof.
  intros Hstep H.
  apply (foldM_invariant (λ st, nrows st = nrows d) body xs) with (st := d) (st' := d');
    auto.
  intros st x st' _ Hst Hb. rewrite <- Hst. eauto.
Qed.

Lemma df_loc_set_nrows (mask : list bool) (name : string) (vals : list (option Q))
    (d d' : DataFrame) :
  df_loc_set mask name vals d = Ok d' → nrows d' = nrows d.
Proof. unfold df_loc_set. intros H. crunch. done. Qed.

(** Closes a goal [nrows d' = nrows d] after [crunch]. *)
Ltac rows_kept :=
  repeat match goal with
         | H : df_loc_set _ _ _ _ = Ok _ |- _ =>
             apply df_loc_set_nrows in H; rewrite ?ensure_col_nrows in H
         end;
  cbn [nrows df_set]; rewrite ?ensure_col_nrows; try done; try congruence.

Lemma time_features_nrows `{Numpy} (df df' : DataFrame) (c : json) :
  apply_time_features df c = Ok df' → nrows df' = nrows df.
Proof. unfold apply_time_features. intros Hrun. crunch. done. Qed.

Lemma lag_features_nrows (df df' : DataFrame) (c : json) :
  apply_lag_features df c = Ok df' → nrows df' = nrows df.
Proof.
  unfold apply_lag_features. intros Hrun. crunch.
  - eapply foldM_nrows; [|eassumption]. clear. intros st s st' Hst.
    unfold lag_station in Hst. crunch; [|done].
    eapply foldM_nrows; [|eassumption]. clear. intros st x st' Hst.
    unfold lag_step in Hst. crunch. rows_kept.
  - eapply foldM_nrows; [|eassumption]. clear. intros st x st' Hst.
    unfold lag_single_step in Hst. crunch. done.
  - done.
Qed.

Lemma rolling_assign_nrows (agg : nat → list (option Q) → option Q) (wp : Z) (mp : json)
    (mask : list bool) (sdf : DataFrame) (name : string) (d d' : DataFrame) :
  rolling_assign agg wp mp mask sdf name d = Ok d' → nrows d' = nrows d.
Proof. unfold rolling_assign. intros Hrun. crunch. rows_kept. Qed.

Lemma rolling_single_assign_nrows (agg : nat → list (option Q) → option Q) (wp : Z)
    (mp : json) (name : string) (d d' : DataFrame) :
  rolling_single_assign agg wp mp name d = Ok d' → nrows d' = nrows d.
Proof. unfold rolling_single_assign. intros Hrun. crunch. done. Qed.

Lemma rolling_statistics_nrows `{Numpy} (df df' : DataFrame) (c : json) :
  apply_rolling_statistics df c = Ok df' → nrows df' = nrows df.
Proof.
  unfold apply_rolling_statistics. intros Hrun. crunch.
  - eapply foldM_nrows; [|eassumption]. clear. intros st s st' Hst.
    unfold rolling_station in Hst. crunch; [|done].
    eapply foldM_nrows; [|eassumption]. clear. intros st x st' Hst.
    unfold rolling_step in Hst. crunch;
      repeat match goal with
             | Hr : rolling_assign _ _ _ _ _ _ _ = Ok _ |- _ =>
                 apply rolling_assign_nrows in Hr
             end; congruence.
  - eapply foldM_nrows; [|eassumption]. clear. intros st x st' Hst.
    unfold rolling_single_step in Hst. crunch;
      repeat match goal with
             | Hr : rolling_single_assign _ _ _ _ _ = Ok _ |- _ =>
                 apply rolling_single_assign_nrows in Hr
             end; congruence.
  - done.
Qed.

Lemma rate_of_change_nrows (df df' : DataFrame) (c : json) :
  apply_rate_of_change df c = Ok df' → nrows df' = nrows df.
Proof.
  unfold apply_rate_of_change. intros Hrun. crunch.
  - eapply foldM_nrows; [|eassumption]. clear. intros st s st' Hst.
    unfold change_station in Hst. crunch; [|done].
    eapply foldM_nrows; [|eassumption]. clear. intros st x st' Hst.
    unfold change_step in Hst. crunch. rows_kept.
  - eapply foldM_nrows; [|eassumption]. clear. intros st x st' Hst.
    unfold change_single_step in Hst. crunch. done.
  - done.
Qed.

Lemma rainfall_features_nrows (df df' : DataFrame) (c : json) :
  apply_rainfall_features df c = Ok df' → nrows df' = nrows df.
Proof.
  unfold apply_rainfall_features. intros Hrun. crunch; [done|].
  eapply foldM_nrows; [|eassumption]. clear. intros st x st' Hst.
  unfold rainfall_step in Hst. crunch; done.
Qed.

Lemma weather_interactions_nrows (df df' : DataFrame) (c : json) :
  apply_weather_interactions df c = Ok df' → nrows df' = nrows df.
Proof. unfold apply_weather_interactions. intros Hrun. crunch; done. Qed.

Lemma station_statistics_nrows `{Numpy} (df df' : DataFrame) (c : json) :
  apply_station_statistics df c = Ok df' → nrows df' = nrows df.
Proof. unfold apply_station_statistics. intros Hrun. crunch; done. Qed.

Lemma create_targets_nrows (df df' : DataFrame) (c : json) :
  create_targets df c = Ok df' → nrows df' = nrows df.
Proof.
  unfold create_targets. intros Hrun. crunch.
  eapply foldM_nrows; [|eassumption]. clear. intros st x st' Hst.
  unfold target_step in Hst. crunch; done.
Qed.

Lemma df_filter_nrows_le (m : list bool) (df : DataFrame) :
  (nrows (df_filter m df) ≤ nrows df)%nat.
Proof.
  unfold df_filter; simpl. pose proof (count_true_le (take (nrows df) m)) as H.
  rewrite length_take in H. lia.
Qed.

Lemma clean_data_nrows (df df' : DataFrame) (c : json) :
  clean_data df c = Ok df' → (nrows df' ≤ nrows df)%nat.
Proof.
  intros H.
  destruct (clean_data_steps _ _ _ H)
    as (remove & strategy & d1 & _ & _ & Hd1 & stat & names & Hfold & _).
  assert (H1 : (nrows d1 ≤ nrows df)%nat).
  { subst d1. cbv zeta. destruct (truthy remove); [|done].
    destruct (filter _ (columns df)); [done|]. apply df_filter_nrows_le. }
  assert (H2 : nrows df' = nrows d1); [|lia].
  eapply foldM_nrows; [|exact Hfold]. intros st x st' Hst.
  destruct (impute_cases _ _ _ _ Hst) as [->|(v & _ & _ & ->)]; done.
Qed.

(** The stages before the cleaner keep every row; the cleaner may drop
    some. *)
Lemma run_stages_nrows `{Numpy} (configs : gmap string json) (hz : list Z)
    (df df' : DataFrame) :
  run_stages configs hz df = Ok df' →
  (nrows df' ≤ nrows df)%nat
  ∧ (configs !! "data_cleaning" = None → nrows df' = nrows df).
Proof.
  unfold run_stages. intros Hrun.
  apply bind_Ok in Hrun as (d1 & H1 & Hrun). apply bind_Ok in Hrun as (d2 & H2 & Hrun).
  apply bind_Ok in Hrun as (d3 & H3 & Hrun). apply bind_Ok in Hrun as (d4 & H4 & Hrun).
  apply bind_Ok in Hrun as (d5 & H5 & Hrun). apply bind_Ok in Hrun as (d6 & H6 & Hrun).
  apply bind_Ok in Hrun as (d7 & H7 & Hrun). apply bind_Ok in Hrun as (d8 & H8 & Hrun).
  assert (E1 : nrows d1 = nrows df).
  { destruct (time_features_selected configs); [by eapply time_features_nrows|by inv_ok]. }
  assert (E2 : nrows d2 = nrows d1).
  { destruct (configs !! "lag_features"); [by eapply lag_features_nrows|by inv_ok]. }
  assert (E3 : nrows d3 = nrows d2).
  { destruct (configs !! "rolling_statistics");
      [by eapply rolling_statistics_nrows|by inv_ok]. }
  assert (E4 : nrows d4 = nrows d3).
  { destruct (configs !! "rate_of_change"); [by eapply rate_of_change_nrows|by inv_ok]. }
  assert (E5 : nrows d5 = nrows d4).
  { destruct (configs !! "rainfall_features");
      [by eapply rainfall_features_nrows|by inv_ok]. }
  assert (E6 : nrows d6 = nrows d5).
  { destruct (configs !! "weather_interactions");
      [by eapply weather_interactions_nrows|by inv_ok]. }
  assert (E7 : nrows d7 = nrows d6).
  { destruct (configs !! "station_statistics");
      [by eapply station_statistics_nrows|by inv_ok]. }
  assert (E8 : nrows d8 = nrows d7).
  { destruct (configs !! "target_creation"); [|by inv_ok].
    apply bind_Ok in H8 as (tc & _ & H8). by eapply create_targets_nrows. }
  assert (E : nrows d8 = nrows df) by congruence.
  destruct (configs !! "data_cleaning") as [c|].
  - apply clean_data_nrows in Hrun. split; [lia|done].
  - inv_ok. split; [lia|done].
Qed.

(** X14.  The orchestrator never reports more records than it fetched:
    [records_processed] is the row count of the processed frame, it is at
    most [initial_records] (so [records_removed] is never negative), and the
    two are equal when no cleaning stage is configured, since every other
    stage keeps the rows it is given. *)
Theorem processed_records_never_exceed_fetched {np : Numpy} (env : Env)
    (station_id : option Z) (start_date end_date : option date_bound) (hz : list Z)
    (custom : option (gmap string json)) (res : PreprocessResult) :
  preprocess_data env station_id start_date end_date hz custom = Ok res →
  records_processed res = nrows (processed_data res)
  ∧ (records_processed res ≤ initial_records res)%nat
  ∧ (effective_configs env custom !! "data_cleaning" = None →
     records_processed res = initial_records res).
Proof.
  unfold preprocess_data. intros Hrun.
  apply bind_Ok in Hrun as (d0 & Hd0 & Hrun). apply bind_Ok in Hrun as (d1 & Hd1 & Hrun).
  apply bind_Ok in Hrun as (ts & _ & Hrun). inv_ok. simpl.
  destruct (run_stages_nrows _ _ _ _ Hd1) as [Hle Heq]. auto.
Qed.

(** The theorem on [env_with_configs]: ten rows fetched, four of them
    complete in the one-hour lag. *)
Lemma processed_records_never_exceed_fetched_witness :
  ∃ res, preprocessed_with_configs = Ok res
    ∧ initial_records res = 10%nat
    ∧ records_processed res = 4%nat
    ∧ records_processed res = nrows (processed_data res)
    ∧ (records_processed res ≤ initial_records res)%nat
    ∧ (effective_configs env_with_configs None !! "data_cleaning" = None →
       records_processed res = initial_records res).
Proof.
  destruct preprocessed_with_configs as [res|e] eqn:E; [|vm_compute in E; discriminate E].
  exists res. split; [done|].
  split; [vm_compute in E; injection E as <-; reflexivity|].
  split; [vm_compute in E; injection E as <-; reflexivity|].
  apply (@processed_records_never_exceed_fetched approx_numpy env_with_configs
           None None None [15; 30] None res E).
Defined.

(** ** Targets of the orchestrator *)

Lemma df_has_set_same (n : string) (c : column) (X : DataFrame) :
  df_has n (df_set n c X) = true.
Proof. apply df_has_true. rewrite df_set_get_eq. by eexists. Qed.

Lemma create_targets_has (df df' : DataFrame) (hz : list Z) (c : json) (h : Z) :
  dict_get c "prediction_horizons" (ints [15; 30; 45; 60; 90]) = Ok (ints hz) →
  create_targets df c = Ok df' → h ∈ hz → df_has (target_name h) df' = true.
Proof.
  unfold create_targets. intros Hget Hrun Hh. rewrite Hget in Hrun. cbn [bind] in Hrun.
  inv_bind Hrun as multi Hmulti. rewrite as_int_list_ints in Hrun. cbn [bind] in Hrun.
  assert (Hgoal : h ∈ hz ∨ df_has (target_name h) df = true) by by left.
  clear Hh Hmulti Hget. revert df Hrun Hgoal.
  induction hz as [|h1 hz IH]; intros d Hrun Hgoal; simpl in Hrun.
  - inv_ok. destruct Hgoal as [Hin|?]; [by apply elem_of_nil in Hin|done].
  - inv_bind Hrun as d1 Hd1. apply (IH d1 Hrun).
    unfold target_step in Hd1. inv_bind Hd1 as vals Hvals. inv_ok.
    destruct Hgoal as [[->|Hin]%elem_of_cons|Hhas].
    + right. apply df_has_set_same.
    + by left.
    + right. by apply df_has_set.
Qed.

Lemma clean_data_has (df df' : DataFrame) (c : json) (n : string) :
  clean_data df c = Ok df' → df_has n df' = df_has n df.
Proof.
  intros H.
  destruct (clean_data_steps _ _ _ H)
    as (remove & strategy & d1 & _ & _ & Hd1 & stat & names & Hfold & _).
  assert (H1 : df_has n d1 = df_has n df).
  { subst d1. cbv zeta. destruct (truthy remove); [|done].
    destruct (filter _ (columns df)); [done|]. apply df_filter_has. }
  rewrite <- H1.
  apply (foldM_invariant (λ st, df_has n st = df_has n d1) (impute stat) names)
    with (st := d1) (st' := df'); [|done|done].
  intros st col st' _ Hst Himp. rewrite <- Hst.
  destruct (impute_cases _ _ _ _ Himp) as [->|(v & Hv & _ & ->)]; [done|].
  unfold df_has. destruct (decide (col = n)) as [->|Hne].
  - by rewrite df_set_get_eq, Hv.
  - by rewrite df_set_get_ne.
Qed.

Lemma assoc_set_twice {V} (k : string) (v w : V) (d : list (string * V)) :
  assoc_set k v (assoc_set k w d) = assoc_set k v d.
Proof.
  induction d as [|[k' v'] d IH]; simpl.
  - by rewrite String.eqb_refl.
  - destruct (String.eqb k k') eqn:E; simpl.
    + by rewrite String.eqb_refl.
    + by rewrite E, IH.
Qed.

Lemma dict_get_set (d : list (string * json)) (k : string) (v dflt : json) :
  dict_get (JDict (assoc_set k v d)) k dflt = Ok v.
Proof. simpl. by rewrite assoc_set_eq. Qed.

(** X15.  The targets are those of the [prediction_horizons] argument:
    when the target stage is configured, the processed frame has a column
    [target_{h}min] for every requested horizon [h], and the
    [prediction_horizons] entry of the stage's own config is overwritten
    before it is read, so that changing it does not change the result. *)
Theorem targets_follow_the_requested_horizons {np : Numpy}
    (configs : gmap string json) (hz : list Z) (df df' : DataFrame)
    (d : list (string * json)) (h : Z) :
  run_stages configs hz df = Ok df' →
  configs !! "target_creation" = Some (JDict d) →
  h ∈ hz →
  df_has (target_name h) df' = true
  ∧ ∀ v, run_stages (<["target_creation" := JDict (assoc_set "prediction_horizons" v d)]>
                       configs) hz df
         = Ok df'.
Proof.
  intros Hrun Hc Hh. split.
  - unfold run_stages in Hrun.
    apply bind_Ok in Hrun as (d1 & _ & Hrun). apply bind_Ok in Hrun as (d2 & _ & Hrun).
    apply bind_Ok in Hrun as (d3 & _ & Hrun). apply bind_Ok in Hrun as (d4 & _ & Hrun).
    apply bind_Ok in Hrun as (d5 & _ & Hrun). apply bind_Ok in Hrun as (d6 & _ & Hrun).
    apply bind_Ok in Hrun as (d7 & _ & Hrun). apply bind_Ok in Hrun as (d8 & H8 & Hrun).
    rewrite Hc in H8. apply bind_Ok in H8 as (tc & Htc & H8).
    assert (Hd8 : df_has (target_name h) d8 = true).
    { simpl in Htc. injection Htc as <-.
      eapply create_targets_has; [apply dict_get_set|exact H8|exact Hh]. }
    destruct (configs !! "data_cleaning") as [cc|]; [|by inv_ok].
    by rewrite (clean_data_has _ _ _ _ Hrun).
  - intros v. rewrite <- Hrun. unfold run_stages, time_features_selected.
    rewrite lookup_insert_eq, Hc. rewrite !lookup_insert_ne by done.
    cbn [dict_set_item]. by rewrite assoc_set_twice.
Qed.

(** The theorem on the configs of [env_with_configs], whose
    [target_creation] entry lists the 90-minute horizon only, and the
    requested 30-minute horizon. *)
Lemma targets_follow_the_requested_horizons_witness :
  df_has (target_name 30)
         (ok_or frame_two_stations
                (@run_stages approx_numpy (get_preprocessing_configs env_with_configs)
                             [15; 30] frame_two_stations)) = true
  ∧ ∀ v, @run_stages approx_numpy
           (<["target_creation" :=
                JDict (assoc_set "prediction_horizons" v
                                 [("prediction_horizons", ints [90])])]>
              (get_preprocessing_configs env_with_configs)) [15; 30] frame_two_stations
         = Ok (ok_or frame_two_stations
                     (@run_stages approx_numpy (get_preprocessing_configs env_with_configs)
                                  [15; 30] frame_two_stations)).
Proof.
  apply (@targets_follow_the_requested_horizons approx_numpy
           (get_preprocessing_configs env_with_configs) [15; 30] frame_two_stations).
  - vm_compute. reflexivity.
  - vm_compute. reflexivity.
  - right. left.
Defined.

(** * Further properties of the inference feature preparer *)

Lemma select_columns_names (names : list string) (df f : DataFrame) :
  select_columns names df = Ok f →
  map fst (columns f) = names ∧ nrows f = nrows df.
Proof.
  unfold select_columns. intros H. inv_bind H as cols Hcols. inv_ok. simpl.
  split; [|done]. revert cols Hcols.
  induction names as [|n names IH]; intros cols Hcols; simpl in Hcols.
  - by inv_ok.
  - inv_bind Hcols as nc Hnc. inv_bind Hcols as cols' Hcols'. inv_ok.
    inv_bind Hnc as c Hc. assert (nc = (n, c)) as -> by congruence.
    simpl. f_equal. by apply IH.
Qed.

Lemma fill_latest_cases (df X X' : DataFrame) (col : string) :
  fill_latest df X col = Ok X' →
  ∃ xv m, assoc col (columns X) = Some (Num xv)
          ∧ X' = df_set col (Num (fillna (Some m) xv)) X.
Proof.
  unfold fill_latest. intros H. inv_bind H as hist Hhist. inv_bind H as x Hx.
  apply df_col_Ok in Hx. destruct hist as [v| | |]; try discriminate.
  destruct x as [xv| | |]; try discriminate.
  destruct (col_mean v) as [m|]; inv_ok; eauto.
Qed.

Lemma assoc_Some_of_fst {V} (n : string) (d : list (string * V)) :
  n ∈ map fst d → is_Some (assoc n d).
Proof.
  induction d as [|[k v] d IH]; simpl; [by intros ?%elem_of_nil|].
  intros [->|Hin]%elem_of_cons.
  - rewrite String.eqb_refl. by eexists.
  - destruct (String.eqb n k); [by eexists|]. by apply IH.
Qed.

(** The steps of a successful run of the preparer. *)
Lemma prepare_latest_steps {np : Numpy} (env : Env) (station_id : option Z)
    (X : DataFrame) (names : list string) :
  prepare_latest_data_for_prediction env station_id = Ok (Some (X, names)) →
  ∃ df features,
    (0 < nrows df)%nat
    ∧ names = filter (λ n, (str_in n prepare_exclude_cols = false)
                           ∧ (String.prefix "target_" n = false)) (map fst (columns df))
    ∧ select_columns names df = Ok features
    ∧ foldM (fill_latest df) (last_row features)
            (map fst (filter (λ nc, col_has_null nc.2 = true)
                             (columns (last_row features)))) = Ok X.
Proof.
  unfold prepare_latest_data_for_prediction. intros H. inv_bind H as res Hres.
  destruct (Nat.eqb_spec (nrows (processed_data res)) 0) as [?|Hrows]; [discriminate|].
  inv_bind H as features Hf. inv_bind H as X' HX'. injection H as <- <-.
  exists (processed_data res), features. split; [lia|]. by split.
Qed.

(** X16.  When the preparer returns a feature row, it is a frame of
    exactly one row whose columns are the returned feature names, in that
    order; no feature is a target column or one of the metadata columns
    [measured_at], [id], [created_at], [fetched_at], [source], [status]. *)
Theorem latest_features_are_one_named_row {np : Numpy} (env : Env)
    (station_id : option Z) (X : DataFrame) (names : list string) :
  prepare_latest_data_for_prediction env station_id = Ok (Some (X, names)) →
  nrows X = 1%nat
  ∧ map fst (columns X) = names
  ∧ Forall (λ n, str_in n prepare_exclude_cols = false
                 ∧ String.prefix "target_" n = false) names.
Proof.
  intros H. destruct (prepare_latest_steps _ _ _ _ H)
    as (df & features & Hrows & Hnames & Hsel & Hfill).
  destruct (select_columns_names _ _ _ Hsel) as [Hfn Hfr].
  assert (H0 : nrows (last_row features) = 1%nat
               ∧ map fst (columns (last_row features)) = names).
  { unfold last_row; cbn [nrows columns]. rewrite Hfr. split.
    - destruct (nrows df); [lia|done].
    - rewrite map_map. exact Hfn. }
  assert (HX : nrows X = 1%nat ∧ map fst (columns X) = names).
  { refine (foldM_invariant (λ st, nrows st = 1%nat ∧ map fst (columns st) = names)
                            (fill_latest df) _ _ (last_row features) X H0 Hfill).
    intros st col st' _ [Hst1 Hst2] Hstep.
    destruct (fill_latest_cases _ _ _ _ Hstep) as (xv & m & Hxv & ->).
    split; [done|]. unfold df_set; simpl. by rewrite (assoc_set_fst _ _ _ _ Hxv). }
  destruct HX as [HX1 HX2]. split; [done|]. split; [done|].
  rewrite Hnames. apply Forall_forall. by intros n [Hn _]%list_elem_of_filter.
Qed.

Lemma latest_features_are_one_named_row_witness :
  ∃ X names,
    prepared_with_temperature = Ok (Some (X, names))
    ∧ names = ["station_id"; "water_level"; "temperature"]
    ∧ nrows X = 1%nat
    ∧ map fst (columns X) = names
    ∧ Forall (λ n, str_in n prepare_exclude_cols = false
                   ∧ String.prefix "target_" n = false) names.
Proof.
  destruct prepared_with_temperature as [[[X names]|]|e] eqn:E;
    try (vm_compute in E; discriminate E).
  exists X, names. split; [done|].
  split; [vm_compute in E; by injection E as <- <-|].
  apply (@latest_features_are_one_named_row approx_numpy
           (env_with_temperature [level 20; None]) (Some 2) X names E).
Defined.

Lemma fillna_has_no_null (m : Q) (xv : list (option Q)) :
  col_has_null (Num (fillna (Some m) xv)) = false.
Proof.
  apply col_has_null_false. pose proof (fillna_no_null m xv) as Hall.
  simpl. apply Forall_map. eapply Forall_impl; [exact Hall|]. by intros [x|].
Qed.

(** X17.  The feature row handed to the models has no null left: every
    returned feature is a column of the row and holds a value. *)
Theorem latest_features_have_no_null {np : Numpy} (env : Env)
    (station_id : option Z) (X : DataFrame) (names : list string) (n : string) :
  prepare_latest_data_for_prediction env station_id = Ok (Some (X, names)) →
  n ∈ names →
  ∃ c, assoc n (columns X) = Some c ∧ col_has_null c = false.
Proof.
  intros H Hn. destruct (prepare_latest_steps _ _ _ _ H)
    as (df & features & Hrows & Hnames & Hsel & Hfill).
  destruct (select_columns_names _ _ _ Hsel) as [Hfn Hfr].
  assert (H0 : is_Some (assoc n (columns (last_row features)))).
  { apply assoc_Some_of_fst. unfold last_row; simpl. rewrite map_map. simpl.
    change (map (λ x : string * column, x.1) (columns features))
      with (map fst (columns features)). by rewrite Hfn. }
  destruct H0 as [c0 Hc0].
  set (P := λ st : DataFrame, ∃ c, assoc n (columns st) = Some c ∧ col_has_null c = false).
  assert (Hkeep : ∀ st col st', P st → fill_latest df st col = Ok st' → P st').
  { intros st col st' (c & Hc & Hnull) Hstep.
    destruct (fill_latest_cases _ _ _ _ Hstep) as (xv & m & Hxv & ->).
    destruct (decide (col = n)) as [->|Hne].
    - eexists. split; [apply df_set_get_eq|apply fillna_has_no_null].
    - exists c. by rewrite df_set_get_ne. }
  assert (Hmake : ∀ st st', fill_latest df st n = Ok st' → P st').
  { intros st st' Hstep. destruct (fill_latest_cases _ _ _ _ Hstep) as (xv & m & Hxv & ->).
    eexists. split; [apply df_set_get_eq|apply fillna_has_no_null]. }
  assert (Hloop : ∀ cols st, foldM (fill_latest df) st cols = Ok X → n ∈ cols ∨ P st → P X).
  { induction cols as [|col cols IH]; intros st Hrun Hstart; simpl in Hrun.
    - inv_ok. destruct Hstart as [Hin|?]; [by apply elem_of_nil in Hin|done].
    - inv_bind Hrun as st1 Hst1. apply (IH st1 Hrun).
      destruct Hstart as [[->|Hin]%elem_of_cons|HP]; [right|by left|right]; eauto. }
  apply (Hloop _ _ Hfill).
  destruct (col_has_null c0) eqn:Hnull; [left|right; by exists c0].
  apply list_elem_of_fmap. exists (n, c0). split; [done|].
  apply list_elem_of_filter. split; [done|]. by apply assoc_elem.
Qed.

(** The theorem on the temperature of [env_with_temperature], missing in
    the latest row. *)
Lemma latest_features_have_no_null_witness :
  ∃ X names,
    prepared_with_temperature = Ok (Some (X, names))
    ∧ ∃ c, assoc "temperature" (columns X) = Some c ∧ col_has_null c = false.
Proof.
  destruct prepared_with_temperature as [[[X names]|]|e] eqn:E;
    try (vm_compute in E; discriminate E).
  exists X, names. split; [done|].
  apply (@latest_features_have_no_null approx_numpy
           (env_with_temperature [level 20; None]) (Some 2) X names "temperature" E).
  vm_compute in E. injection E as <- <-. right. right. left.
Defined.

(** * Further properties of the predictor *)

(** ** The forecasts of a run *)

(** One iteration appends at most one forecast, for its own horizon. *)
Lemma forecast_step_forecasts (reg : Registry) (names : list string) (sid : option Z)
    (now : Z) (st : LoopState) (h : Z) :
  all_forecasts (forecast_step reg names sid now st h) = all_forecasts st
  ∨ ∃ p, all_forecasts (forecast_step reg names sid now st h)
         = all_forecasts st ++ [{| f_station_id := sid; forecast_date := now;
                                   target_date := now + h * 60;
                                   water_level := option_map round3 p |}].
Proof.
  unfold forecast_step.
  destruct (find_model reg h _) as [model_name|]; [|by left].
  unfold use_model. simpl.
  destruct (search_model_versions reg model_name) as [vs|]; [|by left].
  destruct (latest_version vs) as [latest|]; [|by left].
  destruct (load_model reg model_name (version latest)) as [model|]; [|by left].
  destruct (align_features model _ names _) as [X|]; [|by left].
  destruct (match load_scaler reg (run_id latest) with
            | Ok sc => Some sc
            | Err _ => None
            end) as [sc|].
  - destruct (scaler_transform sc X) as [Xs|]; [|by left].
    destruct (predict model Xs) as [preds|]; [|by left]. right. by eexists.
  - destruct (predict model X) as [preds|]; [|by left]. right. by eexists.
Qed.

Lemma forecast_loop_forecasts (reg : Registry) (names : list string) (sid : option Z)
    (now : Z) (X : DataFrame) (hs : list Z) :
  ∃ done, sublist done hs
    ∧ Forall2 (λ f h, f_station_id f = sid ∧ forecast_date f = now
                      ∧ target_date f = now + h * 60)
              (all_forecasts (forecast_loop reg names sid now X hs)) done.
Proof.
  induction hs as [|h hs IH] using rev_ind.
  - exists []. split; [done|]. constructor.
  - destruct IH as (done & Hsub & Hall). rewrite forecast_loop_snoc.
    destruct (forecast_step_forecasts reg names sid now
                (forecast_loop reg names sid now X hs) h) as [->|[p ->]].
    + exists done. split; [|done]. by apply sublist_inserts_r.
    + exists (done ++ [h]). split; [by apply sublist_app|].
      apply Forall2_app; [done|]. by repeat constructor.
Qed.

(** X18.  A successful answer of the forecast endpoint holds between one
    forecast and one per requested horizon, in the order of the request:
    the forecasts are those of a sub-sequence of the requested horizons
    (horizons without a usable model are skipped, the others are not
    reordered or repeated), each stamped with the requested station, the
    time of the request as [forecast_date] and that time plus the horizon as
    [target_date]; [forecasts_generated] is their number. *)
Theorem forecasts_follow_the_requested_horizons {np : Numpy} (env : Env) (reg : Registry)
    (request : GenerateForecastRequest) (resp : GenerateForecastResponse) :
  generate_forecasts_endpoint env reg request = Ok resp →
  success resp = true
  ∧ resp_station_id resp = req_station_id request
  ∧ forecasts_generated resp = length (forecasts resp)
  ∧ (1 ≤ length (forecasts resp) ≤ length (horizons_minutes request))%nat
  ∧ ∃ done, sublist done (horizons_minutes request)
      ∧ Forall2 (λ f h, f_station_id f = req_station_id request
                        ∧ forecast_date f = utcnow env
                        ∧ target_date f = utcnow env + h * 60)
                (forecasts resp) done.
Proof.
  unfold generate_forecasts_endpoint. intros H. inv_bind H as u Hu.
  inv_bind H as latest Hlatest. destruct latest as [[X names]|]; [|discriminate].
  destruct (nrows X =? 0)%nat; [discriminate|].
  destruct (Nat.eqb_spec (length (all_forecasts
              (forecast_loop reg names (req_station_id request) (utcnow env) X
                             (horizons_minutes request)))) 0) as [?|Hlen]; [discriminate|].
  inv_ok. cbn [success resp_station_id forecasts_generated forecasts].
  destruct (forecast_loop_forecasts reg names (req_station_id request) (utcnow env) X
              (horizons_minutes request)) as (done & Hsub & Hall).
  repeat split; trivial; [lia| |by exists done].
  rewrite (Forall2_length _ _ _ Hall). by apply sublist_length.
Qed.

(** The theorem on [request_three_horizons]: two forecasts, for the 15 and
    the 30-minute horizon. *)
Lemma forecasts_follow_the_requested_horizons_witness :
  ∃ resp,
    response_three_horizons = Ok resp
    ∧ map target_date (forecasts resp) = [1800 + 15 * 60; 1800 + 30 * 60]
    ∧ success resp = true
    ∧ resp_station_id resp = req_station_id request_three_horizons
    ∧ forecasts_generated resp = length (forecasts resp)
    ∧ (1 ≤ length (forecasts resp) ≤ length (horizons_minutes request_three_horizons))%nat
    ∧ ∃ done, sublist done (horizons_minutes request_three_horizons)
        ∧ Forall2 (λ f h, f_station_id f = req_station_id request_three_horizons
                          ∧ forecast_date f = utcnow (env_with_temperature [level 20; level 21])
                          ∧ target_date f
                            = utcnow (env_with_temperature [level 20; level 21]) + h * 60)
                  (forecasts resp) done.
Proof.
  destruct response_three_horizons as [resp|e] eqn:E; [|vm_compute in E; discriminate E].
  exists resp. split; [done|].
  split; [vm_compute in E; by injection E as <-|].
  apply (@forecasts_follow_the_requested_horizons approx_numpy
           (env_with_temperature [level 20; level 21]) registry_same_features
           request_three_horizons resp E).
Defined.

(** ** Feature alignment *)

Lemma add_missing_nrows (scaler : option Scaler) (names missing : list string)
    (X : DataFrame) :
  nrows (foldl (λ X feat,
                  df_set_scalar feat (Some (missing_feature_value scaler names feat)) X)
               X missing) = nrows X.
Proof. revert X. induction missing as [|f missing IH]; intros X; simpl; [done|]. by rewrite IH. Qed.

Lemma add_missing_features_filled (scaler : option Scaler) (names missing : list string)
    (X : DataFrame) (f : string) :
  f ∈ missing →
  assoc f (columns (foldl (λ X feat,
                             df_set_scalar feat
                               (Some (missing_feature_value scaler names feat)) X)
                          X missing))
  = Some (Num (replicate (nrows X) (Some (missing_feature_value scaler names f)))).
Proof.
  induction missing as [|f' missing IH] using rev_ind; [by intros ?%elem_of_nil|].
  intros Hf. rewrite foldl_app. cbn [foldl]. unfold df_set_scalar at 1.
  destruct (decide (f' = f)) as [->|Hne].
  - by rewrite df_set_get_eq, add_missing_nrows.
  - rewrite df_set_get_ne by done. apply IH.
    apply elem_of_app in Hf as [?|Hf]; [done|]. apply list_elem_of_singleton in Hf. congruence.
Qed.

Lemma select_columns_Ok (names : list string) (df : DataFrame) :
  (∀ n, n ∈ names → df_has n df = true) → is_ok (select_columns names df) = true.
Proof.
  intros Hall. unfold select_columns.
  assert (∃ cols, mapM (λ n, let* c := df_col n df in Ok (n, c)) names = Ok cols)
    as [cols ->]; [|done].
  induction names as [|n names IH]; simpl; [by eexists|].
  destruct (proj1 (df_has_true n df) (Hall n ltac:(by left))) as [c Hc].
  rewrite (proj2 (df_col_Ok n df c) Hc). cbn [bind].
  destruct IH as [cols ->]; [intros; apply Hall; by right|]. by eexists.
Qed.

(** X19.  Feature alignment cannot fail for a model that lists its
    features, and the frame it gives to the model has exactly those
    features, in the model's order, and the rows of the current frame: a
    feature the current frame has keeps its values, a feature it lacks is
    filled with the scaler's training mean found at the feature's position
    in the preparer's feature list, or with 0 when there is no scaler, no
    such position or no mean there; every other column is dropped. *)
Theorem aligned_frame_has_the_model_features (model : Model) (scaler : option Scaler)
    (names expected : list string) (X : DataFrame) :
  feature_names_in_ model = Some expected →
  ∃ X', align_features model scaler names X = Ok X'
    ∧ map fst (columns X') = expected
    ∧ nrows X' = nrows X
    ∧ ∀ f, f ∈ expected →
        (df_has f X = true → assoc f (columns X') = assoc f (columns X))
        ∧ (df_has f X = false →
           assoc f (columns X')
           = Some (Num (replicate (nrows X)
                                  (Some (missing_feature_value scaler names f))))).
Proof.
  intros Hexp. unfold align_features. rewrite Hexp.
  set (missing := filter (λ f, df_has f X = false) expected).
  set (X1 := foldl _ X missing).
  assert (Hkept : ∀ f, df_has f X = true → assoc f (columns X1) = assoc f (columns X)).
  { intros f Hf. apply add_missing_features.
    intros [Hmiss _]%list_elem_of_filter. congruence. }
  assert (Hfilled : ∀ f, f ∈ expected → df_has f X = false →
            assoc f (columns X1)
            = Some (Num (replicate (nrows X) (Some (missing_feature_value scaler names f))))).
  { intros f Hf Hmiss. apply add_missing_features_filled.
    by apply list_elem_of_filter. }
  destruct (select_columns expected X1) as [X'|e] eqn:Hsel.
  - exists X'. split; [done|]. destruct (select_columns_names _ _ _ Hsel) as [Hn Hr].
    split; [done|]. split; [by rewrite Hr; apply add_missing_nrows|].
    intros f Hf. destruct (select_columns_get _ _ _ f Hsel Hf) as [-> _]. split; auto.
  - exfalso. assert (Hok : is_ok (select_columns expected X1) = true).
    { apply select_columns_Ok. intros f Hf. apply df_has_true.
      destruct (df_has f X) eqn:Hhas.
      - rewrite Hkept by done. by apply df_has_true.
      - rewrite Hfilled by done. by eexists. }
    by rewrite Hsel in Hok.
Qed.

(** The theorem on [model_with_rainfall] and the row [latest_features],
    which has no [rainfall_1h]: the column is filled with the mean at
    position 2 of the scaler, that of [water_level_lag_1h] in the feature
    list. *)
Lemma aligned_frame_has_the_model_features_witness :
  ∃ X', align_features model_with_rainfall (Some scaler_of_three) all_features
                       latest_features = Ok X'
    ∧ map fst (columns X') = ["water_level"; "rainfall_1h"; "station_id"]
    ∧ nrows X' = nrows latest_features
    ∧ ∀ f, f ∈ ["water_level"; "rainfall_1h"; "station_id"] →
        (df_has f latest_features = true →
         assoc f (columns X') = assoc f (columns latest_features))
        ∧ (df_has f latest_features = false →
           assoc f (columns X')
           = Some (Num (replicate (nrows latest_features)
                          (Some (missing_feature_value (Some scaler_of_three)
                                                       all_features f))))).
Proof.
  apply (aligned_frame_has_the_model_features model_with_rainfall (Some scaler_of_three)
           all_features ["water_level"; "rainfall_1h"; "station_id"] latest_features).
  reflexivity.
Defined.

(** ** Status codes of the forecast endpoint *)

Lemma plain_bind {A B} (m : result A) (k : A → result B) :
  plain m → (∀ a, plain (k a)) → plain (bind m k).
Proof. destruct m as [a|e]; simpl; auto. Qed.

Lemma plain_foldM {S X} (body : S → X → result S) (st : S) (xs : list X) :
  (∀ s x, plain (body s x)) → plain (foldM body st xs).
Proof.
  intros Hbody. revert st. induction xs as [|x xs IH]; intros st; simpl; [done|].
  apply plain_bind; auto.
Qed.

Lemma plain_mapM {X Y} (f : X → result Y) (xs : list X) :
  (∀ x, plain (f x)) → plain (mapM f xs).
Proof.
  intros Hf. induction xs as [|x xs IH]; simpl; [done|].
  apply plain_bind; [auto|]. intros y. apply plain_bind; [auto|]. by intros ys.
Qed.

Create HintDb plain.

(** Proves that a function built from [let*], loops and case analyses of
    plain parts is plain. *)
Ltac plain_step :=
  match goal with
  | |- plain (Ok _) => exact I
  | |- plain (Err _) => exact I
  | |- plain (bind _ _) => apply plain_bind; [|intros]
  | |- plain (foldM _ _ _) => apply plain_foldM; intros
  | |- plain (mapM _ _) => apply plain_mapM; intros
  | |- plain (if ?b then _ else _) => destruct b
  | |- plain (match ?x with _ => _ end) => destruct x
  | |- plain (let _ := _ in _) => cbv zeta
  | |- plain _ => solve [auto with plain]
  end.

Ltac plain_tac := repeat plain_step.

Lemma plain_dict_get (cfg : json) (key : string) (dflt : json) :
  plain (dict_get cfg key dflt).
Proof. unfold dict_get. plain_tac. Qed.
#[local] Hint Resolve plain_dict_get : plain.

Lemma plain_as_int (j : json) : plain (as_int j).
Proof. unfold as_int. plain_tac. Qed.
#[local] Hint Resolve plain_as_int : plain.

Lemma plain_as_int_list (j : json) : plain (as_int_list j).
Proof. unfold as_int_list. plain_tac. Qed.
#[local] Hint Resolve plain_as_int_list : plain.

Lemma plain_df_col (name : string) (df : DataFrame) : plain (df_col name df).
Proof. unfold df_col. plain_tac. Qed.
#[local] Hint Resolve plain_df_col : plain.

Lemma plain_as_float (c : column) : plain (as_float c).
Proof. unfold as_float. plain_tac. Qed.
#[local] Hint Resolve plain_as_float : plain.

Lemma plain_df_float (name : string) (df : DataFrame) : plain (df_float name df).
Proof. unfold df_float. plain_tac. Qed.
#[local] Hint Resolve plain_df_float : plain.

Lemma plain_df_time (name : string) (df : DataFrame) : plain (df_time name df).
Proof. unfold df_time. plain_tac. Qed.
#[local] Hint Resolve plain_df_time : plain.

Lemma plain_df_loc_set (mask : list bool) (name : string) (vals : list (option Q))
    (df : DataFrame) : plain (df_loc_set mask name vals df).
Proof. unfold df_loc_set. plain_tac. Qed.
#[local] Hint Resolve plain_df_loc_set : plain.

Lemma plain_sort_values (name : string) (df : DataFrame) : plain (sort_values name df).
Proof. unfold sort_values. plain_tac. Qed.
#[local] Hint Resolve plain_sort_values : plain.

Lemma plain_detect (df : DataFrame) : plain (detect_periods_per_hour df).
Proof. unfold detect_periods_per_hour. plain_tac. Qed.
#[local] Hint Resolve plain_detect : plain.

Lemma plain_to_periods (hours : Z) (p : pph) : plain (to_periods hours p).
Proof. unfold to_periods, f64_to_int. by destruct (f64_mul _ _). Qed.
#[local] Hint Resolve plain_to_periods : plain.

Lemma plain_station_ids (df : DataFrame) : plain (station_ids df).
Proof. unfold station_ids. plain_tac. Qed.
#[local] Hint Resolve plain_station_ids : plain.

Lemma plain_has_multiple (df : DataFrame) : plain (has_multiple_stations df).
Proof. unfold has_multiple_stations. plain_tac. Qed.
#[local] Hint Resolve plain_has_multiple : plain.

Lemma plain_rolling (window : Z) (min_periods : json)
    (agg : nat → list (option Q) → option Q) (l : list (option Q)) :
  plain (rolling window min_periods agg l).
Proof. unfold rolling. plain_tac. Qed.
#[local] Hint Resolve plain_rolling : plain.

Lemma plain_group_transform (ids : list Z)
    (f : list (option Q) → result (list (option Q))) (col : list (option Q)) :
  (∀ l, plain (f l)) → plain (group_transform ids f col).
Proof. intros Hf. unfold group_transform. plain_tac. Qed.

Lemma plain_py_in (s : string) (container : json) : plain (py_in s container).
Proof. unfold py_in. plain_tac. Qed.
#[local] Hint Resolve plain_py_in : plain.

Lemma plain_dict_set_item (container : json) (key : string) (value : json) :
  plain (dict_set_item container key value).
Proof. unfold dict_set_item. plain_tac. Qed.
#[local] Hint Resolve plain_dict_set_item : plain.

Lemma plain_lag_features (df : DataFrame) (config : json) :
  plain (apply_lag_features df config).
Proof.
  unfold apply_lag_features. plain_tac.
  - unfold lag_station. plain_tac. unfold lag_step. plain_tac.
  - unfold lag_single_step. plain_tac.
Qed.
#[local] Hint Resolve plain_lag_features : plain.

Lemma plain_rolling_statistics `{Numpy} (df : DataFrame) (config : json) :
  plain (apply_rolling_statistics df config).
Proof.
  unfold apply_rolling_statistics. plain_tac.
  - unfold rolling_station. plain_tac. unfold rolling_step, rolling_assign. plain_tac.
  - unfold rolling_single_step, rolling_single_assign. plain_tac.
Qed.
#[local] Hint Resolve plain_rolling_statistics : plain.

Lemma plain_rate_of_change (df : DataFrame) (config : json) :
  plain (apply_rate_of_change df config).
Proof.
  unfold apply_rate_of_change. plain_tac.
  - unfold change_station. plain_tac. unfold change_step. plain_tac.
  - unfold change_single_step. plain_tac.
Qed.
#[local] Hint Resolve plain_rate_of_change : plain.

Lemma plain_time_features `{Numpy} (df : DataFrame) (config : json) :
  plain (apply_time_features df config).
Proof. unfold apply_time_features. plain_tac. Qed.
#[local] Hint Resolve plain_time_features : plain.

Lemma plain_rainfall_features (df : DataFrame) (config : json) :
  plain (apply_rainfall_features df config).
Proof.
  unfold apply_rainfall_features. plain_tac. unfold rainfall_step. plain_tac.
  apply plain_group_transform. intros. plain_tac.
Qed.
#[local] Hint Resolve plain_rainfall_features : plain.

Lemma plain_weather_interactions (df : DataFrame) (config : json) :
  plain (apply_weather_interactions df config).
Proof.
  unfold apply_weather_interactions. plain_tac.
  apply plain_group_transform. intros. plain_tac.
Qed.
#[local] Hint Resolve plain_weather_interactions : plain.

Lemma plain_station_statistics `{Numpy} (df : DataFrame) (config : json) :
  plain (apply_station_statistics df config).
Proof.
  unfold apply_station_statistics. plain_tac;
    apply plain_group_transform; intros; plain_tac.
Qed.
#[local] Hint Resolve plain_station_statistics : plain.

Lemma plain_create_targets (df : DataFrame) (config : json) :
  plain (create_targets df config).
Proof.
  unfold create_targets. plain_tac. unfold target_step. plain_tac.
  apply plain_group_transform. intros. plain_tac.
Qed.
#[local] Hint Resolve plain_create_targets : plain.

Lemma plain_clean_data (df : DataFrame) (config : json) : plain (clean_data df config).
Proof. unfold clean_data. plain_tac; unfold impute; plain_tac. Qed.
#[local] Hint Resolve plain_clean_data : plain.

Lemma plain_run_stages `{Numpy} (configs : gmap string json) (hz : list Z)
    (df : DataFrame) : plain (run_stages configs hz df).
Proof. unfold run_stages. plain_tac. Qed.
#[local] Hint Resolve plain_run_stages : plain.

Lemma plain_query_measurements (env : Env) (station_id : option Z)
    (start_date end_date : option date_bound) :
  plain (query_measurements env station_id start_date end_date).
Proof. unfold query_measurements. plain_tac. Qed.
#[local] Hint Resolve plain_query_measurements : plain.

(** The weather merge may fail in any way: its failures are caught. *)
Lemma plain_get_station_data (env : Env) (station_id : option Z)
    (start_date end_date : option date_bound) (include_weather : bool) :
  plain (get_station_data env station_id start_date end_date include_weather).
Proof. unfold get_station_data. plain_tac. Qed.
#[local] Hint Resolve plain_get_station_data : plain.

Lemma plain_preprocess_data `{Numpy} (env : Env) (station_id : option Z)
    (start_date end_date : option date_bound) (hz : list Z)
    (custom : option (gmap string json)) :
  plain (preprocess_data env station_id start_date end_date hz custom).
Proof. unfold preprocess_data. plain_tac. Qed.
#[local] Hint Resolve plain_preprocess_data : plain.

Lemma plain_select_columns (names : list string) (df : DataFrame) :
  plain (select_columns names df).
Proof. unfold select_columns. plain_tac. Qed.
#[local] Hint Resolve plain_select_columns : plain.

Lemma plain_prepare_latest `{Numpy} (env : Env) (station_id : option Z) :
  plain (prepare_latest_data_for_prediction env station_id).
Proof.
  unfold prepare_latest_data_for_prediction. plain_tac. unfold fill_latest. plain_tac.
Qed.

(** The ways in which the forecast endpoint of the model fails. *)
Lemma forecast_endpoint_errors {np : Numpy} (env : Env) (reg : Registry)
    (request : GenerateForecastRequest) (e : error) :
  generate_forecasts_endpoint env reg request = Err e →
  http_error 400 e
      ∧ (∃ sid, req_station_id request = Some sid ∧ isin sid excluded_stations = true)
  ∨ http_error 404 e
      ∧ (∃ sid, req_station_id request = Some sid
                ∧ isin sid excluded_stations = false
                ∧ existsb (λ s, s.1 =? sid) (stations env) = false)
  ∨ http_error 500 e
      ∧ is_ok (prepare_latest_data_for_prediction env (req_station_id request)) = false
  ∨ http_error 400 e
      ∧ is_ok (prepare_latest_data_for_prediction env (req_station_id request)) = true.
Proof.
  unfold generate_forecasts_endpoint, http_error. intros H.
  destruct (req_station_id request) as [sid|] eqn:Hsid.
  - destruct (isin sid excluded_stations) eqn:Hexcl.
    { left. simpl in H. injection H as <-. split; [by eexists|]. by exists sid. }
    destruct (existsb _ (stations env)) eqn:Hknown.
    2:{ right. left. simpl in H. injection H as <-. split; [by eexists|]. by exists sid. }
    cbn [bind] in H. right. right.
    pose proof (plain_prepare_latest env (Some sid)) as Hplain.
    destruct (prepare_latest_data_for_prediction env (Some sid)) as [latest|e0].
    + cbn [as_http bind] in H. right. split; [|done].
      destruct latest as [[X names]|]; [|injection H as <-; by eexists].
      destruct (nrows X =? 0)%nat; [injection H as <-; by eexists|].
      destruct (length _ =? 0)%nat; [injection H as <-; by eexists|discriminate].
    + left. split; [|done].
      destruct e0; simpl in *; try done; injection H as <-; by eexists.
  - cbn [bind] in H. right. right.
    pose proof (plain_prepare_latest env None) as Hplain.
    destruct (prepare_latest_data_for_prediction env None) as [latest|e0].
    + cbn [as_http bind] in H. right. split; [|done].
      destruct latest as [[X names]|]; [|injection H as <-; by eexists].
      destruct (nrows X =? 0)%nat; [injection H as <-; by eexists|].
      destruct (length _ =? 0)%nat; [injection H as <-; by eexists|discriminate].
    + left. split; [|done].
      destruct e0; simpl in *; try done; injection H as <-; by eexists.
Qed.

Lemma http_error_status (s1 s2 : Z) (e : error) :
  http_error s1 e → http_error s2 e → s1 = s2.
Proof. intros [d1 ->] [d2 H]. by injection H. Qed.

(** X20.  With the tables and the registry read as given, every failure of
    the forecast endpoint is an [HTTPException] of status 400, 404 or 500.
    It is 404 only for a requested station that is not excluded and that
    the [stations] table does not know; it is 500 only when the preparation
    of the latest features raised; and a request for an excluded station
    (1 or 7) fails with 400 whether the table knows the station or not.
    No failure of the weather merge, of a model or of the scaler surfaces
    as an error of the request. *)
Theorem forecast_endpoint_status_codes {np : Numpy} (env : Env) (reg : Registry)
    (request : GenerateForecastRequest) (e : error) :
  generate_forecasts_endpoint env reg request = Err e →
  (http_error 400 e ∨ http_error 404 e ∨ http_error 500 e)
  ∧ (http_error 404 e →
     ∃ sid, req_station_id request = Some sid
            ∧ isin sid excluded_stations = false
            ∧ existsb (λ s, s.1 =? sid) (stations env) = false)
  ∧ (http_error 500 e →
     is_ok (prepare_latest_data_for_prediction env (req_station_id request)) = false)
  ∧ (∀ sid, req_station_id request = Some sid → isin sid excluded_stations = true →
     http_error 400 e).
Proof.
  intros H. pose proof (forecast_endpoint_errors env reg request e H) as Hcases.
  repeat split.
  - destruct Hcases as [[? _]|[[? _]|[[? _]|[? _]]]]; auto.
  - intros H404.
    destruct Hcases as [[He _]|[[_ ?]|[[He _]|[He _]]]]; [|done| |];
      by pose proof (http_error_status _ _ _ H404 He).
  - intros H500.
    destruct Hcases as [[He _]|[[He _]|[[_ ?]|[He _]]]]; [| |done|];
      by pose proof (http_error_status _ _ _ H500 He).
  - intros sid Hsid Hexcl.
    destruct Hcases as [[? _]|[[_ (sid' & Hsid' & Hexcl' & _)]|[[He _]|[? _]]]];
      [done| | |done].
    + congruence.
    + unfold generate_forecasts_endpoint in H. rewrite Hsid, Hexcl in H.
      simpl in H. injection H as <-. by eexists.
Qed.

(** The theorem on a request for station 9 of [env_with_temperature]. *)
Lemma forecast_endpoint_status_codes_witness :
  (http_error 400 (HTTPException 404 "Station not found")
   ∨ http_error 404 (HTTPException 404 "Station not found")
   ∨ http_error 500 (HTTPException 404 "Station not found"))
  ∧ (http_error 404 (HTTPException 404 "Station not found") →
     ∃ sid, req_station_id request_unknown_station = Some sid
            ∧ isin sid excluded_stations = false
            ∧ existsb (λ s, s.1 =? sid)
                      (stations (env_with_temperature [level 20; level 21])) = false)
  ∧ (http_error 500 (HTTPException 404 "Station not found") →
     is_ok (@prepare_latest_data_for_prediction approx_numpy
              (env_with_temperature [level 20; level 21])
              (req_station_id request_unknown_station)) = false)
  ∧ (∀ sid, req_station_id request_unknown_station = Some sid →
     isin sid excluded_stations = true →
     http_error 400 (HTTPException 404 "Station not found")).
Proof.
  apply (@forecast_endpoint_status_codes approx_numpy
           (env_with_temperature [level 20; level 21]) registry_same_features
           request_unknown_station).
  reflexivity.
Defined.

(** * Properties of the callers *)

(** ** The preprocessing endpoint *)

(** X21.  Every failure of the preprocessing endpoint is an
    [HTTPException] of status 404 or 500, and a request for an excluded
    station (1 or 7) is answered with 404 and the message of the service,
    where the forecast endpoint answers 400. *)
Theorem preprocess_endpoint_status_codes {np : Numpy} (str : error → string) (env : Env)
    (request : PreprocessingRequest) (e : error) :
  preprocess_endpoint str env request = Err e →
  (http_error 404 e ∨ http_error 500 e)
  ∧ (isin (pr_station_id request) excluded_stations = true →
     e = HTTPException 404 "Station is excluded from training/prediction").
Proof.
  unfold preprocess_endpoint, http_error. intros H. split.
  - destruct (preprocess_data _ _ _ _ _ _) as [res|e0]; [discriminate|].
    destruct e0; injection H as <-; eauto.
  - intros Hexcl. unfold preprocess_data in H. rewrite excluded_request in H by done.
    cbn [bind] in H. congruence.
Qed.

Lemma preprocess_endpoint_status_codes_witness :
  (http_error 404 (HTTPException 404 "Station is excluded from training/prediction")
   ∨ http_error 500 (HTTPException 404 "Station is excluded from training/prediction"))
  ∧ (isin (pr_station_id request_station_7) excluded_stations = true →
     HTTPException 404 "Station is excluded from training/prediction"
     = HTTPException 404 "Station is excluded from training/prediction").
Proof.
  apply (@preprocess_endpoint_status_codes approx_numpy class_name env_mixed_stations
           request_station_7).
  reflexivity.
Defined.

(** ** Names of the registered models *)

Lemma unified_model_name_inj (model_type : string) (h h' : Z) :
  unified_model_name model_type h = unified_model_name model_type h' → h = h'.
Proof.
  unfold unified_model_name.
  intros H. do 3 apply append_inj_l in H. apply append_inj_r in H. by apply dec_inj.
Qed.

Lemma find_model_cases (reg : Registry) (h : Z) (name : string) :
  find_model reg h ["ridge"; "linear"] = Some name →
  name = unified_model_name "ridge" h ∨ name = unified_model_name "linear" h.
Proof.
  simpl. intros H.
  destruct (search_registered_models reg (unified_model_name "ridge" h)) as [[|? ?]|];
    try (left; congruence);
    destruct (search_registered_models reg (unified_model_name "linear" h)) as [[|? ?]|];
    try discriminate; right; congruence.
Qed.

(** X22.  Training and forecasting agree on the names of the unified
    models, and only on those: the name under which a model trained on all
    stations is registered is the name the forecast loop looks up for the
    same model type and horizon; the loop only ever selects the ridge or the
    linear unified model of the very horizon it forecasts; and no model
    trained for a single station carries a name that the loop can select. *)
Theorem forecasts_use_the_unified_models_only (reg : Registry) (h : Z) (name : string) :
  find_model reg h ["ridge"; "linear"] = Some name →
  (name = registered_model_name None "ridge" h
   ∨ name = registered_model_name None "linear" h)
  ∧ (∀ model_type h', model_type ∈ ["linear"; "ridge"] →
       name = registered_model_name None model_type h' → h' = h)
  ∧ (∀ sid model_type h', model_type ∈ ["linear"; "ridge"] →
       name ≠ registered_model_name (Some sid) model_type h').
Proof.
  intros H. apply find_model_cases in H. split; [|split].
  - destruct H as [-> | ->]; [by left|by right].
  - intros mt h' Hmt Heq.
    assert (Heq' : name = unified_model_name mt h') by exact Heq. clear Heq.
    repeat (apply elem_of_cons in Hmt as [->|Hmt]);
      [| |by apply elem_of_nil in Hmt]; destruct H as [-> | ->];
      first [ symmetry; eapply unified_model_name_inj; exact Heq'
            | unfold unified_model_name in Heq'; simpl in Heq'; discriminate Heq' ].
  - intros sid mt h' Hmt Heq.
    repeat (apply elem_of_cons in Hmt as [->|Hmt]);
      [| |by apply elem_of_nil in Hmt]; destruct H as [-> | ->];
      unfold unified_model_name, registered_model_name in Heq; simpl in Heq;
      discriminate Heq.
Qed.

(** The theorem on [registry_same_features] and the 15-minute horizon. *)
Lemma forecasts_use_the_unified_models_only_witness :
  ("swfm-ridge-unified-15min" = registered_model_name None "ridge" 15
   ∨ "swfm-ridge-unified-15min" = registered_model_name None "linear" 15)
  ∧ (∀ model_type h', model_type ∈ ["linear"; "ridge"] →
       "swfm-ridge-unified-15min" = registered_model_name None model_type h' → h' = 15)
  ∧ (∀ sid model_type h', model_type ∈ ["linear"; "ridge"] →
       "swfm-ridge-unified-15min" ≠ registered_model_name (Some sid) model_type h').
Proof.
  apply (forecasts_use_the_unified_models_only registry_same_features 15).
  reflexivity.
Defined.

(** ** The training endpoint *)

Lemma train_endpoint_status {R} (str : error → string)
    (train_models : TrainingRequest → result R)
    (status : training_state) (request : TrainingRequest) :
  status ≠ Training →
  (train_endpoint str train_models status request).1 ≠ Training
  ∧ ∀ e, (train_endpoint str train_models status request).2 = Err e → http_error 500 e.
Proof.
  intros Hst. unfold train_endpoint, http_error. destruct status; try done;
    match goal with
    | |- context [match ?a with Ok _ => _ | Err _ => _ end] => destruct a
    end; simpl; split; try done; intros ? [= <-]; by eexists.
Qed.

(** X23.  Requests to the training endpoint that are served one after the
    other, starting from a status other than "training", never meet the 409
    of a training in progress: every request leaves the status at
    "completed" or "failed", and its only failure is a 500.  In particular
    the 400 raised for an excluded station never reaches the client: it is
    raised inside the [try] and re-raised as a 500, and the status becomes
    "failed". *)
Theorem training_requests_fail_with_500_only {R} (str : error → string)
    (train_models : TrainingRequest → result R)
    (status : training_state) (requests : list TrainingRequest) :
  status ≠ Training →
  (serve_training str train_models status requests).1 ≠ Training
  ∧ Forall (λ response, ∀ e, response = Err e → http_error 500 e)
           (serve_training str train_models status requests).2
  ∧ ∀ request sid, tr_station_id request = Some sid → isin sid excluded_stations = true →
      (train_endpoint str train_models status request).1 = Failed
      ∧ ∃ e, (train_endpoint str train_models status request).2 = Err e ∧ http_error 500 e.
Proof.
  intros Hst. split; [|split].
  - revert status Hst. induction requests as [|r rest IH]; intros status Hst; [done|].
    simpl. destruct (train_endpoint str train_models status r) as [s1 resp] eqn:E1.
    destruct (serve_training str train_models s1 rest) as [s2 resps] eqn:E2. simpl.
    specialize (IH s1). rewrite E2 in IH. apply IH.
    pose proof (train_endpoint_status str train_models status r Hst) as [H1 _].
    by rewrite E1 in H1.
  - revert status Hst. induction requests as [|r rest IH]; intros status Hst;
      [constructor|].
    simpl. destruct (train_endpoint str train_models status r) as [s1 resp] eqn:E1.
    destruct (serve_training str train_models s1 rest) as [s2 resps] eqn:E2. simpl.
    pose proof (train_endpoint_status str train_models status r Hst) as [H1 H2].
    rewrite E1 in H1, H2. constructor; [exact H2|].
    specialize (IH s1 H1). by rewrite E2 in IH.
  - intros request sid Hreq Hsid. unfold train_endpoint, http_error.
    rewrite Hreq, Hsid. destruct status; try done; simpl; eauto.
Qed.

(** The theorem on three requests, the second for the excluded station 7,
    with a service that fails on station 3. *)
Lemma training_requests_fail_with_500_only_witness :
  (serve_training class_name service_failing_on_3 Idle
     [training_request (Some 2); training_request (Some 7); training_request (Some 3)]).1
  ≠ Training
  ∧ Forall (λ response, ∀ e, response = Err e → http_error 500 e)
           (serve_training class_name service_failing_on_3 Idle
              [training_request (Some 2); training_request (Some 7);
               training_request (Some 3)]).2
  ∧ ∀ request sid, tr_station_id request = Some sid → isin sid excluded_stations = true →
      (train_endpoint class_name service_failing_on_3 Idle request).1 = Failed
      ∧ ∃ e, (train_endpoint class_name service_failing_on_3 Idle request).2 = Err e
             ∧ http_error 500 e.
Proof.
  apply (training_requests_fail_with_500_only class_name service_failing_on_3 Idle
           [training_request (Some 2); training_request (Some 7);
            training_request (Some 3)]).
  discriminate.
Defined.

(** * Properties of the time features *)

Lemma df_time_set_ne (name name' : string) (c : column) (df : DataFrame) :
  name ≠ name' → df_time name' (df_set name c df) = df_time name' df.
Proof. intros Hne. unfold df_time, df_col. by rewrite df_set_get_ne. Qed.

Lemma as_float_dt_field (f : Z → Z) (ts : list (option Z)) :
  as_float (dt_field f ts) = Ok (map (option_map (λ t, inject_Z (f t))) ts).
Proof.
  unfold dt_field.
  destruct (forallb _ ts) eqn:Hall; cbn [as_float]; [|done]. f_equal.
  induction ts as [|[t|] ts IH]; simpl in *; [done| |done].
  f_equal. by apply IH.
Qed.

Lemma dayofweek_weekend (t : Z) :
  Qle_bool 5 (inject_Z (dt_dayofweek t)) = true
  ↔ dt_dayofweek t = 5 ∨ dt_dayofweek t = 6.
Proof.
  rewrite Qle_bool_iff. change 5%Q with (inject_Z 5). rewrite <- Zle_Qle.
  unfold dt_dayofweek.
  pose proof (Z.mod_pos_bound (t / 86400 + 3) 7 ltac:(lia)). lia.
Qed.

(** X24.  The weekend flag is an integer column without nulls: a row is
    flagged 1 exactly when its timestamp falls on a Saturday or a Sunday
    (UTC), and a row whose timestamp is missing is flagged 0, as a
    weekday. *)
Theorem weekend_flag_marks_saturday_and_sunday {np : Numpy} (df df' : DataFrame)
    (config : json) (ts : list (option Z)) :
  assoc "measured_at" (columns df) = Some (Time ts) →
  apply_time_features df config = Ok df' →
  ∃ flags,
    assoc "is_weekend" (columns df') = Some (Int flags)
    ∧ length flags = length ts
    ∧ ∀ (i : nat) t, ts !! i = Some t →
        flags !! i
        = Some (match t with
                | Some t =>
                    if decide (dt_dayofweek t = 5 ∨ dt_dayofweek t = 6) then 1 else 0
                | None => 0
                end).
Proof.
  intros Hts H. unfold apply_time_features in H.
  assert (Htime : df_time "measured_at" df = Ok ts).
  { unfold df_time, df_col. by rewrite Hts. }
  rewrite Htime in H. cbn [bind] in H.
  rewrite !df_time_set_ne, Htime in H by done. cbn [bind] in H.
  rewrite !df_time_set_ne, Htime in H by done. cbn [bind] in H.
  rewrite !df_time_set_ne, Htime in H by done. cbn [bind] in H.
  assert (Hdow : ∀ c1 c2 d,
    df_float "day_of_week"
      (df_set "month" c1
         (df_set "day_of_month" c2 (df_set "day_of_week" (dt_field dt_dayofweek ts) d)))
    = Ok (map (option_map (λ t, inject_Z (dt_dayofweek t))) ts)).
  { intros c1 c2 d. unfold df_float, df_col.
    rewrite !df_set_get_ne by done. rewrite df_set_get_eq. cbn [bind].
    apply as_float_dt_field. }
  rewrite Hdow in H. cbn [bind] in H.
  crunch.
  eexists. split; [|split].
  - rewrite !df_set_get_ne by done. by rewrite df_set_get_eq.
  - by rewrite !length_map.
  - intros i t Hi. rewrite !list_lookup_fmap, Hi. simpl. f_equal.
    destruct t as [t|]; [|done]. simpl.
    destruct (decide _) as [Hw|Hw].
    + apply dayofweek_weekend in Hw. by rewrite Hw.
    + destruct (Qle_bool 5 (inject_Z (dt_dayofweek t))) eqn:E; [|done].
      by apply dayofweek_weekend in E.
Qed.

(** The theorem on [frame_weekend]. *)
Lemma weekend_flag_marks_saturday_and_sunday_witness :
  ∃ flags,
    assoc "is_weekend" (columns frame_with_time_features) = Some (Int flags)
    ∧ length flags = length [Some 0; Some 216000; None; Some 342000]
    ∧ ∀ (i : nat) t, [Some 0; Some 216000; None; Some 342000] !! i = Some t →
        flags !! i
        = Some (match t with
                | Some t =>
                    if decide (dt_dayofweek t = 5 ∨ dt_dayofweek t = 6) then 1 else 0
                | None => 0
                end).
Proof.
  apply (@weekend_flag_marks_saturday_and_sunday approx_numpy frame_weekend
           frame_with_time_features (JDict [])).
  - reflexivity.
  - vm_compute. reflexivity.
Defined.
